(** * Real-time voice session manager: shallow embedding and properties

    The development follows the TypeScript sources:
    - [client/src/components/VoiceChat.tsx]  (component [VoiceChat]),
    - the [VoiceCommand] component           (component [VoiceCommand]),
    - the [PatientSimulator] component       (transcript aggregation),
    - the [POST /api/rtc-token] route        (credential endpoint).

    Browser objects (peer connections, data channels, media streams) are
    opaque handles; every call made on them is recorded, in program order,
    in a trace of [Effect]s.  Results of awaited browser and network
    operations are supplied by an environment record. *)

From Stdlib Require Import String Ascii List ZArith QArith Bool Lia Sorted.
From Stdlib Require DecimalString DecimalZ.
Import ListNotations.
Set Warnings "-register-all".
Open Scope string_scope.
Open Scope Z_scope.
Open Scope list_scope.

(** ** JavaScript values as produced by [JSON.parse] *)

Module JS.

Inductive json : Type :=
| JNull
| JBool (b : bool)
| JNum (q : Q)
| JStr (s : string)
| JArr (l : list json)
| JObj (fields : list (string * json)).

(** Property lookup in an object literal; [None] is [undefined]. *)
Fixpoint assoc (k : string) (fields : list (string * json)) : option json :=
  match fields with
  | [] => None
  | (k', v) :: rest => if String.eqb k k' then Some v else assoc k rest
  end.

(** A thrown [Error]: its [name] and [message]. *)
Record Exn : Type := mkExn { name : string; message : string }.

(** [Error.prototype.toString], used by template literals. *)
Definition Exn_toString (e : Exn) : string :=
  if String.eqb (name e) EmptyString then message e
  else if String.eqb (message e) EmptyString then name e
  else (name e ++ ": " ++ message e)%string.

Definition Error (msg : string) : Exn := mkExn "Error" msg.
Definition TypeError (msg : string) : Exn := mkExn "TypeError" msg.
Definition SyntaxError (msg : string) : Exn := mkExn "SyntaxError" msg.

(** Outcome of evaluating an expression that may throw. *)
Inductive result (A : Type) : Type :=
| Ok (a : A)
| Throw (e : Exn).
Arguments Ok {A} a.
Arguments Throw {A} e.

(** [v.k] : reading a property of [null] throws a TypeError; primitives
    and arrays have none of the property names used by the program. *)
Definition get (k : string) (v : json) : result (option json) :=
  match v with
  | JNull => Throw (TypeError ("Cannot read properties of null (reading '" ++ k ++ "')")%string)
  | JObj fields => Ok (assoc k fields)
  | _ => Ok None
  end.

(** ToBoolean. *)
Definition truthy (v : json) : bool :=
  match v with
  | JNull => false
  | JBool b => b
  | JNum q => negb (Qeq_bool q 0)
  | JStr s => negb (String.eqb s EmptyString)
  | JArr _ | JObj _ => true
  end.

Definition truthy_opt (v : option json) : bool :=
  match v with
  | None => false
  | Some v => truthy v
  end.

(** [v === "s"] for a string literal [s]. *)
Definition is_str (s : string) (v : option json) : bool :=
  match v with
  | Some (JStr s') => String.eqb s' s
  | _ => false
  end.

(** An object-literal member as [JSON.stringify] keeps it: a member whose
    value is [undefined] is omitted. *)
Definition member (k : string) (v : option json) : list (string * json) :=
  match v with
  | Some v => [(k, v)]
  | None => []
  end.

(** [String.prototype.includes]. *)
Fixpoint includes (hay needle : string) : bool :=
  if String.prefix needle hay then true
  else match hay with
       | EmptyString => false
       | String _ rest => includes rest needle
       end.

End JS.
Import JS.

(** ** Browser objects, the effect trace and the environment *)

Module Web.

Definition PeerConnection : Type := nat.
Definition DataChannel : Type := nat.
Definition Track : Type := nat.
Definition AudioElement : Type := nat.

(** A [MediaStream] is used through [getTracks()] only. *)
Record MediaStream : Type := mkStream { getTracks : list Track }.

(** [RTCDataChannelInit]: an absent member is [None]. *)
Record DataChannelInit : Type := mkInit {
  ordered : option bool;
  maxPacketLifeTime : option nat;
  maxRetransmits : option nat
}.

(** WebRTC defaults: a channel is ordered unless [ordered: false] is
    given, and reliable unless a retransmission bound is given. *)
Definition is_ordered (i : DataChannelInit) : bool :=
  match ordered i with
  | Some b => b
  | None => true
  end.

Definition is_reliable (i : DataChannelInit) : bool :=
  match maxPacketLifeTime i, maxRetransmits i with
  | None, None => true
  | _, _ => false
  end.

(** Event handlers installed on browser objects, as closures over the
    values they capture. *)
Inductive Listener : Type :=
| VoiceChat_onopen (token : json)
| VoiceChat_onmessage
| VoiceChat_ontrack
| VoiceChat_onconnectionstatechange
| VoiceCommand_ontrack
| VoiceCommand_onmessage
| VoiceCommand_onopen (instructions : option json).

(** Calls that leave the component, in the order the program makes them. *)
Inductive Effect : Type :=
| FetchToken (url : string) (body : json)
| GetUserMedia (constraints : json)
| NewPeerConnection (pc : PeerConnection) (iceServers : list string)
| CreateDataChannel (pc : PeerConnection) (dc : DataChannel)
                    (label : string) (init : DataChannelInit)
| Listen (target : nat) (l : Listener)
| AddTrack (pc : PeerConnection) (t : Track)
| CreateOffer (pc : PeerConnection) (options : json)
| SetLocalDescription (pc : PeerConnection) (sdp : string)
| PostOffer (url : string) (bearer : option json) (sdp : string)
| SetRemoteDescription (pc : PeerConnection) (sdp : string)
| ChannelSend (dc : DataChannel) (payload : json)
| ChannelClose (dc : DataChannel)
| ConnectionClose (pc : PeerConnection)
| TrackStop (t : Track)
| NewAudio (a : AudioElement)
| SetSrcObject (element_id : string)
| AudioPause (a : AudioElement)
| ConsoleLog (text : string)
| ConsoleError (text : string) (e : Exn)
| Call_onStateChange (newState : string)
| Call_onTranscript (text : json) (isUser : bool).

(** Outcome of an awaited [fetch]: rejection, or a response whose body is
    read with [json()] or [text()]. *)
Inductive Response (B : Type) : Type :=
| NetworkError (e : Exn)
| Responded (ok : bool) (statusText : string) (body : result B).
Arguments NetworkError {B} e.
Arguments Responded {B} ok statusText body.

(** What the browser and the network answer during one start. *)
Record Env : Type := mkEnv {
  token_response : Response json;
  user_media : result MediaStream;
  fresh_pc : PeerConnection;
  fresh_dc : DataChannel;
  offer : result string;
  set_local : result unit;
  sdp_response : Response string;
  set_remote : result unit
}.

(** *** Computations over a component state [S]: state, trace, exceptions *)

Definition M (S A : Type) : Type := S -> S * list Effect * result A.

Definition ret {S A} (a : A) : M S A := fun s => (s, [], Ok a).

Definition bind {S A B} (m : M S A) (k : A -> M S B) : M S B :=
  fun s =>
    match m s with
    | (s1, t1, Ok a) =>
        match k a s1 with
        | (s2, t2, r) => (s2, t1 ++ t2, r)
        end
    | (s1, t1, Throw e) => (s1, t1, Throw e)
    end.

Definition emit {S} (e : Effect) : M S unit := fun s => (s, [e], Ok tt).
Definition modify {S} (f : S -> S) : M S unit := fun s => (f s, [], Ok tt).
Definition read {S} : M S S := fun s => (s, [], Ok s).
Definition throw {S A} (e : Exn) : M S A := fun s => (s, [], Throw e).

(** [await] of an outcome supplied by the environment. *)
Definition await {S A} (r : result A) : M S A := fun s => (s, [], r).

(** [try { m } catch (e) { h e }]. *)
Definition try_catch {S A} (m : M S A) (h : Exn -> M S A) : M S A :=
  fun s =>
    match m s with
    | (s1, t1, Ok a) => (s1, t1, Ok a)
    | (s1, t1, Throw e) =>
        match h e s1 with
        | (s2, t2, r) => (s2, t1 ++ t2, r)
        end
    end.

Declare Scope js_scope.
Delimit Scope js_scope with js.
Notation "x <- m ;; k" := (bind m (fun x => k))
  (at level 61, m at next level, right associativity) : js_scope.
Notation "m ;; k" := (bind m (fun _ => k))
  (at level 61, right associativity) : js_scope.

Definition when {S} (b : bool) (m : M S unit) : M S unit :=
  if b then m else ret tt.

(** [l.forEach(f)]. *)
Fixpoint forEach {S B} (f : B -> M S unit) (l : list B) : M S unit :=
  match l with
  | [] => ret tt
  | x :: rest => bind (f x) (fun _ => forEach f rest)
  end.

(** [await fetch(...)] followed by the [ok] test and the body read. *)
Definition await_fetch {S B} (r : Response B) (not_ok : string -> Exn) : M S B :=
  match r with
  | NetworkError e => throw e
  | Responded ok statusText body =>
      if ok then await body else throw (not_ok statusText)
  end.

(** What other tasks do while an awaited operation is pending.  The
    other tasks are event handlers that have returned: they leave a
    component and the calls they made, which come after the calls that
    started the operation and before its outcome is used. *)
Definition meanwhile {S} (others : S -> S * list Effect) : M S unit :=
  fun s => let '(s1, t1) := others s in (s1, t1, Ok tt).

Definition trace {S A} (out : S * list Effect * result A) : list Effect := snd (fst out).
Definition final {S A} (out : S * list Effect * result A) : S := fst (fst out).
Definition outcome {S A} (out : S * list Effect * result A) : result A := snd out.

End Web.
Import Web.

(** ** The [VoiceChat] component (client/src/components/VoiceChat.tsx) *)

Module VoiceChat.

Inductive SessionType : Type := chat | ecos_simulation.

Definition SessionType_str (t : SessionType) : string :=
  match t with
  | chat => "chat"
  | ecos_simulation => "ecos_simulation"
  end.

(** [VoiceChatProps]; for the two optional callbacks the record says
    whether the parent supplied them. *)
Record Props : Type := mkProps {
  userId : string;
  scenarioId : option string;
  sessionType : SessionType;
  onTranscript : bool;
  onStateChange : bool
}.

Inductive VoiceChatState : Type :=
| idle | connecting | connected | speaking | listening | error.

Definition VoiceChatState_str (s : VoiceChatState) : string :=
  match s with
  | idle => "idle"
  | connecting => "connecting"
  | connected => "connected"
  | speaking => "speaking"
  | listening => "listening"
  | error => "error"
  end.

Record Entry : Type := mkEntry { text : json; isUser : bool; timestamp : Z }.

(** The hooks of the component: five [useState] cells and the refs.
    [errorState] is the cell the source calls [error]. *)
Record Component : Type := mkComponent {
  state : VoiceChatState;
  isMuted : bool;
  isOutputMuted : bool;
  transcript : list Entry;
  errorState : option json;
  peerConnectionRef : option PeerConnection;
  localStreamRef : option MediaStream;
  audioOutputRef : option AudioElement;
  dataChannelRef : option DataChannel
}.

Definition initial : Component :=
  mkComponent idle false false [] None None None None None.

Definition setState (s : VoiceChatState) (c : Component) : Component :=
  mkComponent s (isMuted c) (isOutputMuted c) (transcript c) (errorState c)
    (peerConnectionRef c) (localStreamRef c) (audioOutputRef c) (dataChannelRef c).

Definition setTranscript (f : list Entry -> list Entry) (c : Component) : Component :=
  mkComponent (state c) (isMuted c) (isOutputMuted c) (f (transcript c)) (errorState c)
    (peerConnectionRef c) (localStreamRef c) (audioOutputRef c) (dataChannelRef c).

Definition setError (e : option json) (c : Component) : Component :=
  mkComponent (state c) (isMuted c) (isOutputMuted c) (transcript c) e
    (peerConnectionRef c) (localStreamRef c) (audioOutputRef c) (dataChannelRef c).

Definition set_peerConnectionRef (r : option PeerConnection) (c : Component) : Component :=
  mkComponent (state c) (isMuted c) (isOutputMuted c) (transcript c) (errorState c)
    r (localStreamRef c) (audioOutputRef c) (dataChannelRef c).

Definition set_localStreamRef (r : option MediaStream) (c : Component) : Component :=
  mkComponent (state c) (isMuted c) (isOutputMuted c) (transcript c) (errorState c)
    (peerConnectionRef c) r (audioOutputRef c) (dataChannelRef c).

Definition set_audioOutputRef (r : option AudioElement) (c : Component) : Component :=
  mkComponent (state c) (isMuted c) (isOutputMuted c) (transcript c) (errorState c)
    (peerConnectionRef c) (localStreamRef c) r (dataChannelRef c).

Definition set_dataChannelRef (r : option DataChannel) (c : Component) : Component :=
  mkComponent (state c) (isMuted c) (isOutputMuted c) (transcript c) (errorState c)
    (peerConnectionRef c) (localStreamRef c) (audioOutputRef c) r.

Definition rtcConfiguration : list string :=
  ["stun:stun.l.google.com:19302"; "stun:stun1.l.google.com:19302"].

Definition audio_constraints : json :=
  JObj [("audio", JObj [("echoCancellation", JBool true);
                        ("noiseSuppression", JBool true);
                        ("autoGainControl", JBool true);
                        ("sampleRate", JNum 24000);
                        ("channelCount", JNum 1)])].

Definition offer_options : json :=
  JObj [("offerToReceiveAudio", JBool true); ("offerToReceiveVideo", JBool false)].

(** The object passed to [JSON.stringify] in [dataChannel.onopen];
    [token] is the value of [token.token]. *)
Definition session_update (token : option json) : json :=
  JObj [("type", JStr "session_update");
        ("session", JObj (member "token" token))].

Section Component.

Variable props : Props.
(** [JSON.parse]: [None] when it throws a SyntaxError. *)
Variable JSON_parse : string -> option json.

Local Open Scope js_scope.

Definition updateState (newState : VoiceChatState) : M Component unit :=
  modify (setState newState) ;;
  when (onStateChange props) (emit (Call_onStateChange (VoiceChatState_str newState))).

(** [now] is the value of [new Date()]. *)
Definition addTranscript (now : Z) (text : json) (isUser : bool) : M Component unit :=
  modify (setTranscript (fun prev => prev ++ [mkEntry text isUser now])) ;;
  when (onTranscript props) (emit (Call_onTranscript text isUser)).

Definition token_request_body : json :=
  JObj (member "userId" (Some (JStr (userId props)))
        ++ member "scenarioId" (option_map JStr (scenarioId props))
        ++ member "sessionType" (Some (JStr (SessionType_str (sessionType props))))).

Definition getRTCToken (env : Env) : M Component json :=
  emit (FetchToken "/api/rtc-token" token_request_body) ;;
  await_fetch (token_response env)
    (fun statusText => Error ("Failed to get RTC token: " ++ statusText)%string).

Definition initializeAudio (env : Env) : M Component MediaStream :=
  try_catch
    (emit (GetUserMedia audio_constraints) ;;
     stream <- await (user_media env) ;;
     modify (set_localStreamRef (Some stream)) ;;
     ret stream)
    (fun error =>
       throw (Error ("Failed to access microphone: " ++ Exn_toString error)%string)).

(** The handler installed as [dataChannel.onopen]. *)
Definition dataChannel_onopen (token : json) (dataChannel : DataChannel) : M Component unit :=
  emit (ConsoleLog "Data channel opened") ;;
  t <- await (get "token" token) ;;
  emit (ChannelSend dataChannel (session_update t)).

Definition handleRealtimeEvent (now : Z) (event : json) : M Component unit :=
  type <- await (get "type" event) ;;
  if is_str "response.audio_transcript.delta" type then
    ret tt
  else if is_str "response.audio_transcript.done" type then
    transcript <- await (get "transcript" event) ;;
    match transcript with
    | Some v => when (truthy v) (addTranscript now v false)
    | None => ret tt
    end ;;
    updateState listening
  else if is_str "conversation.item.input_audio_transcription.completed" type then
    transcript <- await (get "transcript" event) ;;
    match transcript with
    | Some v => when (truthy v) (addTranscript now v true)
    | None => ret tt
    end
  else if is_str "response.audio.delta" type then
    updateState speaking
  else if is_str "input_audio_buffer.speech_started" type then
    updateState listening
  else if is_str "input_audio_buffer.speech_stopped" type then
    updateState connected
  else if is_str "error" type then
    updateState error ;;
    err <- await (get "error" event) ;;
    msg <- match err with
           | None | Some JNull => ret None
           | Some v => await (get "message" v)
           end ;;
    modify (setError (Some (if truthy_opt msg
                            then match msg with Some m => m | None => JNull end
                            else JStr "Unknown error")))
  else
    ret tt.

(** The handler installed as [dataChannel.onmessage]. *)
Definition dataChannel_onmessage (now : Z) (data : string) : M Component unit :=
  try_catch
    (match JSON_parse data with
     | Some v => handleRealtimeEvent now v
     | None => throw (SyntaxError "Unexpected token in JSON")
     end)
    (fun error => emit (ConsoleError "Error parsing data channel message:" error)).

(** The handler installed as [pc.ontrack]; [a] is the element made by
    [new Audio()]. *)
Definition pc_ontrack (kind : string) (a : AudioElement) : M Component unit :=
  emit (ConsoleLog ("Received remote track: " ++ kind)%string) ;;
  when (String.eqb kind "audio")
    (emit (NewAudio a) ;; modify (set_audioOutputRef (Some a))).

(** The handler installed as [pc.onconnectionstatechange]. *)
Definition pc_onconnectionstatechange (connectionState : string) : M Component unit :=
  emit (ConsoleLog ("Connection state: " ++ connectionState)%string) ;;
  if String.eqb connectionState "connected" then
    updateState connected
  else if String.eqb connectionState "disconnected"
          || String.eqb connectionState "failed" then
    updateState error ;;
    modify (setError (Some (JStr "Connection lost")))
  else
    ret tt.

Definition createPeerConnection (env : Env) (token : json) : M Component PeerConnection :=
  let pc := fresh_pc env in
  emit (NewPeerConnection pc rtcConfiguration) ;;
  modify (set_peerConnectionRef (Some pc)) ;;
  let dataChannel := fresh_dc env in
  emit (CreateDataChannel pc dataChannel "events" (mkInit (Some true) None None)) ;;
  modify (set_dataChannelRef (Some dataChannel)) ;;
  emit (Listen dataChannel (VoiceChat_onopen token)) ;;
  emit (Listen dataChannel VoiceChat_onmessage) ;;
  emit (Listen pc VoiceChat_ontrack) ;;
  emit (Listen pc VoiceChat_onconnectionstatechange) ;;
  ret pc.

Definition startVoiceChat (env : Env) : M Component unit :=
  try_catch
    (updateState connecting ;;
     modify (setError None) ;;
     token <- getRTCToken env ;;
     stream <- initializeAudio env ;;
     pc <- createPeerConnection env token ;;
     forEach (fun track => emit (AddTrack pc track)) (getTracks stream) ;;
     emit (CreateOffer pc offer_options) ;;
     sdp <- await (offer env) ;;
     emit (SetLocalDescription pc sdp) ;;
     await (set_local env) ;;
     emit (ConsoleLog ("SDP Offer: " ++ sdp)%string) ;;
     updateState connected)
    (fun error =>
       emit (ConsoleError "Error starting voice chat:" error) ;;
       updateState VoiceChat.error ;;
       modify (setError (Some (JStr (message error))))).

Definition stopVoiceChat : M Component unit :=
  c <- read ;;
  match peerConnectionRef c with
  | Some pc => emit (ConnectionClose pc) ;; modify (set_peerConnectionRef None)
  | None => ret tt
  end ;;
  match localStreamRef c with
  | Some stream =>
      forEach (fun track => emit (TrackStop track)) (getTracks stream) ;;
      modify (set_localStreamRef None)
  | None => ret tt
  end ;;
  match audioOutputRef c with
  | Some a => emit (AudioPause a) ;; modify (set_audioOutputRef None)
  | None => ret tt
  end ;;
  updateState idle.

(** *** A start with its credential request pending

    [startVoiceChat] is suspended at its first [await] until the
    credential request settles; [others] is what other tasks do in the
    meantime. *)

Definition getRTCToken_while (others : Component -> Component * list Effect) (env : Env)
  : M Component json :=
  emit (FetchToken "/api/rtc-token" token_request_body) ;;
  meanwhile others ;;
  await_fetch (token_response env)
    (fun statusText => Error ("Failed to get RTC token: " ++ statusText)%string).

Definition startVoiceChat_while (others : Component -> Component * list Effect) (env : Env)
  : M Component unit :=
  try_catch
    (updateState connecting ;;
     modify (setError None) ;;
     token <- getRTCToken_while others env ;;
     stream <- initializeAudio env ;;
     pc <- createPeerConnection env token ;;
     forEach (fun track => emit (AddTrack pc track)) (getTracks stream) ;;
     emit (CreateOffer pc offer_options) ;;
     sdp <- await (offer env) ;;
     emit (SetLocalDescription pc sdp) ;;
     await (set_local env) ;;
     emit (ConsoleLog ("SDP Offer: " ++ sdp)%string) ;;
     updateState connected)
    (fun error =>
       emit (ConsoleError "Error starting voice chat:" error) ;;
       updateState VoiceChat.error ;;
       modify (setError (Some (JStr (message error))))).

(** The stop button pressed, or the component unmounted, as such a
    task. *)
Definition stop_requested (c : Component) : Component * list Effect :=
  (final (stopVoiceChat c), trace (stopVoiceChat c)).

End Component.

End VoiceChat.

(** ** The [VoiceCommand] component *)

Module VoiceCommand.

(** [VoiceCommandProps]; [onTranscript] says whether the parent supplied
    the optional callback. *)
Record Props : Type := mkProps {
  userId : string;
  scenarioId : option string;
  sessionType : VoiceChat.SessionType;
  onTranscript : bool
}.

(** The hooks of the component; [status] is a plain string cell. *)
Record Component : Type := mkComponent {
  isActive : bool;
  status : string;
  pcRef : option PeerConnection;
  micStreamRef : option MediaStream;
  dcRef : option DataChannel
}.

Definition initial : Component := mkComponent false "idle" None None None.

Definition setIsActive (b : bool) (c : Component) : Component :=
  mkComponent b (status c) (pcRef c) (micStreamRef c) (dcRef c).

Definition setStatus (s : string) (c : Component) : Component :=
  mkComponent (isActive c) s (pcRef c) (micStreamRef c) (dcRef c).

Definition set_pcRef (r : option PeerConnection) (c : Component) : Component :=
  mkComponent (isActive c) (status c) r (micStreamRef c) (dcRef c).

Definition set_micStreamRef (r : option MediaStream) (c : Component) : Component :=
  mkComponent (isActive c) (status c) (pcRef c) r (dcRef c).

Definition set_dcRef (r : option DataChannel) (c : Component) : Component :=
  mkComponent (isActive c) (status c) (pcRef c) (micStreamRef c) r.

Definition audio_constraints : json :=
  JObj [("audio", JObj [("echoCancellation", JBool true);
                        ("noiseSuppression", JBool true);
                        ("autoGainControl", JBool true)])].

Definition offer_options : json := JObj [("offerToReceiveAudio", JBool true)].

Definition realtime_url : string :=
  "https://api.openai.com/v1/realtime?model=gpt-4o-realtime-preview".

(** The object passed to [JSON.stringify] in [dc.onopen]. *)
Definition session_update (instructions : option json) : json :=
  JObj [("type", JStr "session.update");
        ("session",
         JObj (member "instructions" instructions
               ++ [("voice", JStr "alloy");
                   ("input_audio_format", JStr "pcm16");
                   ("output_audio_format", JStr "pcm16");
                   ("input_audio_transcription", JObj [("model", JStr "whisper-1")]);
                   ("turn_detection",
                    JObj [("type", JStr "server_vad");
                          ("threshold", JNum (1 # 2));
                          ("silence_duration_ms", JNum 500)])]))].

(** [type?.includes(needle)] for a value read from a parsed message:
    [undefined] and [null] short-circuit, strings and arrays have the
    method, on anything else the call throws. *)
Definition type_includes (type : option json) (needle : string) : result bool :=
  match type with
  | None | Some JNull => Ok false
  | Some (JStr s) => Ok (includes s needle)
  | Some (JArr l) => Ok (existsb (fun v => is_str needle (Some v)) l)
  | Some _ => Throw (TypeError "msg.type?.includes is not a function")
  end.

Section Component.

Variable props : Props.
(** [JSON.parse]: [None] when it throws a SyntaxError. *)
Variable JSON_parse : string -> option json.

Local Open Scope js_scope.

Definition token_request_body : json :=
  JObj (member "userId" (Some (JStr (userId props)))
        ++ member "scenarioId" (option_map JStr (scenarioId props))
        ++ member "sessionType"
             (Some (JStr (VoiceChat.SessionType_str (sessionType props))))).

(** [if (v && onTranscript) onTranscript(v, isUser)]. *)
Definition report (v : option json) (isUser : bool) : M Component unit :=
  match v with
  | Some t => when (truthy t && onTranscript props) (emit (Call_onTranscript t isUser))
  | None => ret tt
  end.

(** The body of the [try] block of [dc.onmessage], after parsing. *)
Definition handle_message (msg : json) : M Component unit :=
  type <- await (get "type" msg) ;;
  emit (ConsoleLog "EVENT") ;;
  transcript <- await (get "transcript" msg) ;;
  when (is_str "conversation.item.input_audio_transcription.completed" type)
    (report transcript true) ;;
  alt <- (if is_str "input_audio_buffer.speech_started" type then ret true
          else await (type_includes type "input_audio_transcription")) ;;
  when alt (report transcript true) ;;
  when (is_str "response.text.delta" type || is_str "response.output_text.delta" type)
    (delta <- await (get "delta" msg) ;; report delta false) ;;
  when (is_str "response.text.done" type || is_str "response.output_text.done" type)
    (text <- await (get "text" msg) ;; report text false) ;;
  generic <- await (type_includes type "transcript") ;;
  match transcript with
  | Some t =>
      when (generic && truthy t && onTranscript props)
        (input <- await (type_includes type "input") ;;
         isUser <- (if input then ret true else await (type_includes type "user")) ;;
         emit (Call_onTranscript t isUser))
  | None => ret tt
  end.

(** The handler installed as [dc.onmessage]. *)
Definition dc_onmessage (data : string) : M Component unit :=
  try_catch
    (match JSON_parse data with
     | Some msg => handle_message msg
     | None => throw (SyntaxError "Unexpected token in JSON")
     end)
    (fun error => emit (ConsoleError "Error parsing message:" error)).


(** The handler installed as [pc.ontrack]: the two booleans say whether
    the [ai-audio] element exists and whether the event carries a stream. *)
Definition pc_ontrack (audioElement stream : bool) : M Component unit :=
  when (audioElement && stream) (emit (SetSrcObject "ai-audio")).

Definition startVoice (env : Env) : M Component unit :=
  try_catch
    (modify (setStatus "connecting") ;;
     emit (FetchToken "/api/rtc-token" token_request_body) ;;
     credential <- await_fetch (token_response env)
                     (fun _ => Error "Failed to get auth token") ;;
     client_secret <- await (get "client_secret" credential) ;;
     instructions <- await (get "instructions" credential) ;;
     let pc := fresh_pc env in
     emit (NewPeerConnection pc []) ;;
     modify (set_pcRef (Some pc)) ;;
     emit (Listen pc VoiceCommand_ontrack) ;;
     let dc := fresh_dc env in
     emit (CreateDataChannel pc dc "oai-events" (mkInit None None None)) ;;
     modify (set_dcRef (Some dc)) ;;
     emit (Listen dc VoiceCommand_onmessage) ;;
     emit (GetUserMedia audio_constraints) ;;
     micStream <- await (user_media env) ;;
     modify (set_micStreamRef (Some micStream)) ;;
     forEach (fun t => emit (AddTrack pc t)) (getTracks micStream) ;;
     emit (CreateOffer pc offer_options) ;;
     sdp <- await (offer env) ;;
     emit (SetLocalDescription pc sdp) ;;
     await (set_local env) ;;
     emit (PostOffer realtime_url client_secret sdp) ;;
     answerSdp <- await_fetch (sdp_response env)
                    (fun statusText => Error ("Realtime API error: " ++ statusText)%string) ;;
     emit (SetRemoteDescription pc answerSdp) ;;
     await (set_remote env) ;;
     emit (Listen dc (VoiceCommand_onopen instructions)) ;;
     modify (setStatus "connected") ;;
     modify (setIsActive true))
    (fun error =>
       emit (ConsoleError "Error starting voice:" error) ;;
       modify (setStatus "error") ;;
       modify (setIsActive false)).

Definition stopVoice : M Component unit :=
  c <- read ;;
  match dcRef c with
  | Some dc => emit (ChannelClose dc) ;; modify (set_dcRef None)
  | None => ret tt
  end ;;
  match pcRef c with
  | Some pc => emit (ConnectionClose pc) ;; modify (set_pcRef None)
  | None => ret tt
  end ;;
  match micStreamRef c with
  | Some stream =>
      forEach (fun t => emit (TrackStop t)) (getTracks stream) ;;
      modify (set_micStreamRef None)
  | None => ret tt
  end ;;
  modify (setStatus "idle") ;;
  modify (setIsActive false).

Definition handleClick (env : Env) : M Component unit :=
  c <- read ;;
  if negb (isActive c) then startVoice env else stopVoice.

(** *** A start with its credential request pending

    [startVoice] is suspended at its first [await] until the credential
    request settles; [others] is what other tasks do in the meantime. *)

Definition startVoice_while (others : Component -> Component * list Effect) (env : Env)
  : M Component unit :=
  try_catch
    (modify (setStatus "connecting") ;;
     emit (FetchToken "/api/rtc-token" token_request_body) ;;
     meanwhile others ;;
     credential <- await_fetch (token_response env)
                     (fun _ => Error "Failed to get auth token") ;;
     client_secret <- await (get "client_secret" credential) ;;
     instructions <- await (get "instructions" credential) ;;
     let pc := fresh_pc env in
     emit (NewPeerConnection pc []) ;;
     modify (set_pcRef (Some pc)) ;;
     emit (Listen pc VoiceCommand_ontrack) ;;
     let dc := fresh_dc env in
     emit (CreateDataChannel pc dc "oai-events" (mkInit None None None)) ;;
     modify (set_dcRef (Some dc)) ;;
     emit (Listen dc VoiceCommand_onmessage) ;;
     emit (GetUserMedia audio_constraints) ;;
     micStream <- await (user_media env) ;;
     modify (set_micStreamRef (Some micStream)) ;;
     forEach (fun t => emit (AddTrack pc t)) (getTracks micStream) ;;
     emit (CreateOffer pc offer_options) ;;
     sdp <- await (offer env) ;;
     emit (SetLocalDescription pc sdp) ;;
     await (set_local env) ;;
     emit (PostOffer realtime_url client_secret sdp) ;;
     answerSdp <- await_fetch (sdp_response env)
                    (fun statusText => Error ("Realtime API error: " ++ statusText)%string) ;;
     emit (SetRemoteDescription pc answerSdp) ;;
     await (set_remote env) ;;
     emit (Listen dc (VoiceCommand_onopen instructions)) ;;
     modify (setStatus "connected") ;;
     modify (setIsActive true))
    (fun error =>
       emit (ConsoleError "Error starting voice:" error) ;;
       modify (setStatus "error") ;;
       modify (setIsActive false)).

(** [stopVoice] called meanwhile, as such a task. *)
Definition stop_requested (c : Component) : Component * list Effect :=
  (final (stopVoice c), trace (stopVoice c)).

End Component.

End VoiceCommand.

(** ** PatientSimulator: the conversation log and its admission rule *)

Module PatientSimulator.

Inductive Sender : Type := user | bot.

Definition Sender_eqb (a b : Sender) : bool :=
  match a, b with
  | user, user | bot, bot => true
  | _, _ => false
  end.

(** [interface Message]; [timestamp] is [Date.getTime()], in ms. *)
Record Message : Type := mkMessage {
  id : string;
  content : string;
  sender : Sender;
  timestamp : Z
}.

(** The predicate passed to [prev.some] in the [onTranscript] callback. *)
Definition matches (text : string) (message : Message) (msg : Message) : bool :=
  String.eqb (content msg) text
  && Sender_eqb (sender msg) (sender message)
  && (Z.abs (timestamp msg - timestamp message) <? 2000).

Definition isDuplicate (prev : list Message) (text : string) (message : Message) : bool :=
  existsb (matches text message) prev.

(** The [onTranscript] callback handed to [VoiceCommand]: [fresh_id] is
    the generated identifier, [now] the value of [new Date()]. *)
Definition onTranscript (fresh_id : string) (now : Z)
           (text : string) (isUser : bool) (prev : list Message) : list Message :=
  let message := mkMessage fresh_id text (if isUser then user else bot) now in
  if isDuplicate prev text message then prev else prev ++ [message].

End PatientSimulator.

(** ** The credential endpoint: [POST /api/rtc-token]

    The route is written twice in the sources, with the same body: in the
    route table ([registerRoutes]) and in the realtime router of
    [server/services/openai.service.ts]. *)

Module Server.

Definition ecos_instructions : string :=
  "Vous êtes un patient virtuel dans une simulation ECOS. Répondez de manière réaliste selon le scénario clinique. Utilisez un ton naturel et conversationnel.".

Definition chat_instructions : string :=
  "Vous êtes un assistant éducatif spécialisé en formation médicale. Répondez de manière claire et pédagogique.".

(** The object given to [res.json] on success; [expiresAt] is the time
    value of the [Date], in ms. *)
Record Credential : Type := mkCredential {
  client_secret : string;
  instructions : string;
  sessionType : json;
  userId : json;
  scenarioId : option json;
  expiresAt : Z
}.

Inductive Reply : Type :=
| Status200 (c : Credential)
| Status400 (error : string)
| Status500 (error : string) (details : option string).

(** The handler: [OPENAI_API_KEY] is [process.env.OPENAI_API_KEY], [now]
    is [Date.now()], [body] is [req.body]. *)
Definition rtc_token (OPENAI_API_KEY : option string) (now : Z) (body : json) : Reply :=
  match get "userId" body, get "scenarioId" body, get "sessionType" body with
  | Ok userId, Ok scenarioId, Ok sessionType =>
      let sessionType := match sessionType with
                         | None => JStr "chat"
                         | Some v => v
                         end in
      if negb (truthy_opt userId) then Status400 "userId is required"
      else
        match OPENAI_API_KEY with
        | None => Status500 "OpenAI API key not configured" None
        | Some client_secret =>
            if String.eqb client_secret EmptyString then
              Status500 "OpenAI API key not configured" None
            else
              let instructions :=
                if is_str "ecos_simulation" (Some sessionType)
                then ecos_instructions else chat_instructions in
              Status200
                (mkCredential client_secret instructions sessionType
                   (match userId with Some v => v | None => JNull end)
                   scenarioId
                   (now + 60 * 60 * 1000))
        end
  | Throw e, _, _ | _, Throw e, _ | _, _, Throw e =>
      Status500 "Failed to create RTC session" (Some (message e))
  end.

(** The reply as the client's [response.json()] reads it; [iso] is
    [Date.prototype.toJSON]. *)
Definition Credential_json (iso : Z -> string) (c : Credential) : json :=
  JObj ([("client_secret", JStr (client_secret c));
         ("instructions", JStr (instructions c));
         ("sessionType", sessionType c);
         ("userId", userId c)]
        ++ member "scenarioId" (scenarioId c)
        ++ [("expiresAt", JStr (iso (expiresAt c)))]).

End Server.

(** ** PatientSimulator: countdown, text exchange and time display *)

Module PatientSession.

Import PatientSimulator.

Inductive SessionStatus : Type := active | completed | error.

(** The [useState] cells of the component other than [startTime], which
    is written once and never read.  [Number] is the type of JavaScript's
    numbers, the IEEE doubles: the seconds left are such a number, computed
    from a value read from a reply.  The progress only takes the values 0,
    10, ..., 100, and is held as the whole number it is.  The duration is
    the value read from the reply, or the number 20. *)
Record State (Number : Type) : Type := mkState {
  messages : list Message;
  inputValue : string;
  isLoading : bool;
  sessionStatus : SessionStatus;
  progress : Z;
  timeRemaining : option Number;
  scenarioDuration : json
}.
Arguments mkState {Number}.
Arguments messages {Number}.
Arguments inputValue {Number}.
Arguments isLoading {Number}.
Arguments sessionStatus {Number}.
Arguments progress {Number}.
Arguments timeRemaining {Number}.
Arguments scenarioDuration {Number}.

Definition setMessages {Number} (f : list Message -> list Message) (s : State Number)
  : State Number :=
  mkState (f (messages s)) (inputValue s) (isLoading s) (sessionStatus s)
    (progress s) (timeRemaining s) (scenarioDuration s).

Definition setInputValue {Number} (v : string) (s : State Number) : State Number :=
  mkState (messages s) v (isLoading s) (sessionStatus s)
    (progress s) (timeRemaining s) (scenarioDuration s).

Definition setIsLoading {Number} (b : bool) (s : State Number) : State Number :=
  mkState (messages s) (inputValue s) b (sessionStatus s)
    (progress s) (timeRemaining s) (scenarioDuration s).

Definition setSessionStatus {Number} (st : SessionStatus) (s : State Number)
  : State Number :=
  mkState (messages s) (inputValue s) (isLoading s) st
    (progress s) (timeRemaining s) (scenarioDuration s).

Definition setProgress {Number} (f : Z -> Z) (s : State Number) : State Number :=
  mkState (messages s) (inputValue s) (isLoading s) (sessionStatus s)
    (f (progress s)) (timeRemaining s) (scenarioDuration s).

Definition setTimeRemaining {Number} (t : option Number) (s : State Number)
  : State Number :=
  mkState (messages s) (inputValue s) (isLoading s) (sessionStatus s)
    (progress s) t (scenarioDuration s).

Definition setScenarioDuration {Number} (d : json) (s : State Number) : State Number :=
  mkState (messages s) (inputValue s) (isLoading s) (sessionStatus s)
    (progress s) (timeRemaining s) d.

(** [Number.prototype.toString] on a whole number of milliseconds, as
    [Date.now()] gives it. *)
Definition Number_toString (n : Z) : string :=
  DecimalString.NilZero.string_of_int (Z.to_int n).

Definition welcome_text : string :=
  "Bonjour ! Je suis votre patient virtuel. Vous pouvez commencer votre évaluation en me posant des questions ou en effectuant des examens. Comment puis-je vous aider aujourd'hui ?".

Definition no_response_text : string :=
  "Désolé, je n'ai pas pu générer une réponse.".

Definition send_error_text : string :=
  "Désolé, une erreur est survenue lors de l'envoi de votre message. Veuillez réessayer.".

(** The initial value of the [scenarioDuration] cell. *)
Definition default_duration : json := JNum 20.

(** The state after the first render and the synchronous part of the
    mount effect, which sets the welcome message; [now] is the value of
    [new Date()]. *)
Definition mounted (Number : Type) (now : Z) : State Number :=
  mkState [mkMessage "welcome" welcome_text bot now] EmptyString false active 0 None
          default_duration.

(** *** The time display *)

(** [String.prototype.padStart(2, '0')]. *)
Definition padStart2 (s : string) : string :=
  match String.length s with
  | O => "00"
  | S O => String "0" s
  | _ => s
  end.

(** *** The text exchange *)

Definition history_item (msg : Message) : json :=
  JObj [("role", JStr (match sender msg with user => "user" | bot => "assistant" end));
        ("content", JStr (content msg))].

(** The body of the request to [/api/ecos/chat]. *)
Definition chat_request (sessionId : Z) (messageContent : string)
           (messages : list Message) : json :=
  JObj [("message", JStr messageContent);
        ("sessionId", JNum (inject_Z sessionId));
        ("conversationHistory", JArr (map history_item messages))].

(** [data.scenario?.duration || 20]. *)
Definition scenario_duration (data : json) : result json :=
  match get "scenario" data with
  | Throw e => Throw e
  | Ok None | Ok (Some JNull) => Ok default_duration
  | Ok (Some scenario) =>
      match get "duration" scenario with
      | Ok (Some duration) => Ok (if truthy duration then duration else default_duration)
      | _ => Ok default_duration
      end
  end.

(** The component with its requests in flight and its timers:
    [scenario_pending] says that the scenario request of the mount effect
    has not been answered yet. *)
Record World (Number : Type) : Type := mkWorld {
  state : State Number;
  in_flight : nat;
  timers : list Message;
  scenario_pending : bool
}.
Arguments mkWorld {Number}.
Arguments state {Number}.
Arguments in_flight {Number}.
Arguments timers {Number}.
Arguments scenario_pending {Number}.

Inductive Event : Type :=
| ScenarioReplied (reply : Response json)
| Typed (text : string)
| SendPressed (id_now now : Z)
| ChatReplied (id_now now : Z) (reply : Response json)
| TimerFired
| VoiceReported (fresh_id : string) (now : Z) (text : string) (isUser : bool)
| SecondElapsed.

Section Component.

Variable sessionId : Z.
(** [String.prototype.trim]. *)
Variable trim : string -> string.
(** The string held by the log when [data.response] is a truthy value
    that is not a string; the source keeps such a value as it is. *)
Variable as_content : json -> string.

(** The numbers of the platform and their arithmetic: the number that a
    whole-number literal denotes, the conversion that an arithmetic
    operator applies to an operand, the operators [*], [-], [/] and [%],
    the comparisons [<=] and [<], [Math.floor], and the conversion to a
    string. *)
Context {Number : Type}.
Variable Number_of_Z : Z -> Number.
Variable ToNumber : json -> Number.
Variable Number_mul : Number -> Number -> Number.
Variable Number_sub : Number -> Number -> Number.
Variable Number_le : Number -> Number -> bool.
Variable Number_lt : Number -> Number -> bool.
Variable Number_div : Number -> Number -> Number.
Variable Number_rem : Number -> Number -> Number.
Variable Math_floor : Number -> Number.
Variable toString : Number -> string.

(** *** The scenario request of the mount effect *)

(** The [catch] block of [fetchScenarioData]: the duration is the one of
    the first render. *)
Definition scenario_failed (s : State Number) : State Number :=
  setTimeRemaining (Some (Number_mul (ToNumber default_duration) (Number_of_Z 60))) s.

(** [fetchScenarioData] from the reply on.  A reply whose status is not a
    success changes nothing. *)
Definition fetchScenarioData (reply : Response json) (s : State Number) : State Number :=
  match reply with
  | NetworkError _ => scenario_failed s
  | Responded false _ _ => s
  | Responded true _ (Throw _) => scenario_failed s
  | Responded true _ (Ok data) =>
      match scenario_duration data with
      | Ok duration =>
          setTimeRemaining (Some (Number_mul (ToNumber duration) (Number_of_Z 60)))
                           (setScenarioDuration duration s)
      | Throw _ => scenario_failed s
      end
  end.

(** *** The countdown *)

(** The updater given to [setTimeRemaining] by the interval callback,
    with the status change it makes. *)
Definition tick (s : State Number) : State Number :=
  match timeRemaining s with
  | None => setTimeRemaining (Some (Number_of_Z 0)) (setSessionStatus completed s)
  | Some prev =>
      if Number_le prev (Number_of_Z 1)
      then setTimeRemaining (Some (Number_of_Z 0)) (setSessionStatus completed s)
      else setTimeRemaining (Some (Number_sub prev (Number_of_Z 1))) s
  end.

(** The condition under which the effect installs the interval. *)
Definition interval_installed (s : State Number) : bool :=
  match timeRemaining s, sessionStatus s with
  | Some t, active => Number_lt (Number_of_Z 0) t
  | _, _ => false
  end.

(** One period of the interval: the callback runs if it is installed. *)
Definition second (s : State Number) : State Number :=
  if interval_installed s then tick s else s.

Fixpoint seconds (n : nat) (s : State Number) : State Number :=
  match n with
  | O => s
  | S n' => seconds n' (second s)
  end.

(** *** The time display *)

Definition formatTime (seconds : Number) : string :=
  let minutes := Math_floor (Number_div seconds (Number_of_Z 60)) in
  let remainingSeconds := Number_rem seconds (Number_of_Z 60) in
  (toString minutes ++ ":" ++ padStart2 (toString remainingSeconds))%string.

(** *** The text exchange *)

(** [handleSendMessage] up to the request: [id_now] is [Date.now()],
    [now] is [new Date()].  The history sent is the log of the render in
    which the handler was created, without the message being sent. *)
Definition handleSendMessage (id_now now : Z) (s : State Number)
  : State Number * option json :=
  if String.eqb (trim (inputValue s)) EmptyString || isLoading s then (s, None)
  else
    let userMessage := mkMessage (Number_toString id_now) (trim (inputValue s)) user now in
    (setIsLoading true
       (setInputValue EmptyString
          (setMessages (fun prev => prev ++ [userMessage]) s)),
     Some (chat_request sessionId (trim (inputValue s)) (messages s))).

(** [data.response || '...']. *)
Definition response_content (data : json) : result string :=
  match get "response" data with
  | Throw e => Throw e
  | Ok (Some (JStr t)) => Ok (if String.eqb t EmptyString then no_response_text else t)
  | Ok (Some v) => Ok (if truthy v then as_content v else no_response_text)
  | Ok None => Ok no_response_text
  end.

(** The [catch] block of [sendMessageToAPI]. *)
Definition send_failed (id_now now : Z) (s : State Number) : State Number :=
  setMessages
    (fun prev => prev ++ [mkMessage (Number_toString (id_now + 1)) send_error_text bot now])
    (setSessionStatus error (setIsLoading false s)).

(** [sendMessageToAPI] from the reply on.  On success the state is not
    touched yet: the bot message is handed to a timer. *)
Definition sendMessageToAPI (id_now now : Z) (reply : Response json) (s : State Number)
  : State Number * option Message :=
  match reply with
  | Responded true _ (Ok data) =>
      match response_content data with
      | Ok text => (s, Some (mkMessage (Number_toString (id_now + 1)) text bot now))
      | Throw _ => (send_failed id_now now s, None)
      end
  | _ => (send_failed id_now now s, None)
  end.

(** The callback of the one-second timer. *)
Definition typing_delay_elapsed (botResponse : Message) (s : State Number) : State Number :=
  setIsLoading false
    (setProgress (fun prev => Z.min (prev + 10) 100)
       (setMessages (fun prev => prev ++ [botResponse]) s)).

(** The [onTranscript] callback given to [VoiceCommand]. *)
Definition voice_transcript (fresh_id : string) (now : Z) (text : string) (isUser : bool)
           (s : State Number) : State Number :=
  setMessages (onTranscript fresh_id now text isUser) s.

(** *** The events of the component *)

Definition step (w : World Number) (e : Event) : World Number :=
  match e with
  | ScenarioReplied reply =>
      if scenario_pending w
      then mkWorld (fetchScenarioData reply (state w)) (in_flight w) (timers w) false
      else w
  | Typed text =>
      mkWorld (setInputValue text (state w)) (in_flight w) (timers w) (scenario_pending w)
  | SendPressed id_now now =>
      match handleSendMessage id_now now (state w) with
      | (s, Some _) => mkWorld s (S (in_flight w)) (timers w) (scenario_pending w)
      | (s, None) => mkWorld s (in_flight w) (timers w) (scenario_pending w)
      end
  | ChatReplied id_now now reply =>
      match in_flight w with
      | O => w
      | S n =>
          match sendMessageToAPI id_now now reply (state w) with
          | (s, Some botResponse) =>
              mkWorld s n (timers w ++ [botResponse]) (scenario_pending w)
          | (s, None) => mkWorld s n (timers w) (scenario_pending w)
          end
      end
  | TimerFired =>
      match timers w with
      | [] => w
      | botResponse :: rest =>
          mkWorld (typing_delay_elapsed botResponse (state w)) (in_flight w) rest
                  (scenario_pending w)
      end
  | VoiceReported fresh_id now text isUser =>
      mkWorld (voice_transcript fresh_id now text isUser (state w)) (in_flight w)
              (timers w) (scenario_pending w)
  | SecondElapsed =>
      mkWorld (second (state w)) (in_flight w) (timers w) (scenario_pending w)
  end.

Definition run (w : World Number) (events : list Event) : World Number :=
  fold_left step events w.

End Component.

End PatientSession.

(** ** Server side: the completion service, the patient service and the routes

    Console output of the server is left out of the model, except where
    computing what is logged can throw.  Calls to the services outside
    this repository (the chat completion API, the vector index, the
    scenario store, the database) are recorded as [Call]s; what they answer
    is given as an argument. *)

Module Backend.

Definition newline : string := String "010" EmptyString.
Definition dq : string := String "034" EmptyString.

(** [lines.join(sep)]. *)
Definition join (sep : string) (l : list string) : string := String.concat sep l.

(** A completion request as the API client receives it. *)
Record Completion : Type := mkCompletion {
  model : string;
  messages : list (string * json);
  temperature : Q;
  max_tokens : Z
}.

Inductive Call : Type :=
| ChatCompletionsCreate (request : Completion)
| QueryVectors (query : string) (index : json) (topK : Z)
| SearchRelevantContent (query : string) (topK : Z)
| GetAvailableScenarios
| SelectUser (email : string)
| InsertUser (id email : string)
| SwitchIndex (indexName : json)
| CreateIndex (name dimension : json)
| ProcessPDFContent (content title category : json)
| DeleteDocument (documentId : string)
| GetAllSources
| ListIndexes
| SyncScenariosFromPinecone.

(** A handler's result: the calls made, in order, and what it returns
    or throws. *)
Definition Run (A : Type) : Type := (list Call * result A)%type.

(** [v.k] on a value that is not [null]. *)
Definition field (k : string) (v : json) : option json :=
  match v with
  | JObj fields => assoc k fields
  | _ => None
  end.

(** [v.k] where [v] may be [undefined]. *)
Definition get_opt (k : string) (v : option json) : result (option json) :=
  match v with
  | Some v => get k v
  | None => Throw (TypeError ("Cannot read properties of undefined (reading '" ++ k ++ "')")%string)
  end.

(** [v[0]]: the first element of an array, the first character of a
    string, the member named 0 of an object. *)
Definition index0 (v : option json) : result (option json) :=
  match v with
  | None => Throw (TypeError "Cannot read properties of undefined (reading '0')")
  | Some JNull => Throw (TypeError "Cannot read properties of null (reading '0')")
  | Some (JArr (x :: _)) => Ok (Some x)
  | Some (JStr (String c _)) => Ok (Some (JStr (String c EmptyString)))
  | Some (JObj fields) => Ok (assoc "0" fields)
  | Some _ => Ok None
  end.

(** [arr.slice(-n)]. *)
Definition slice_last {A} (n : nat) (l : list A) : list A :=
  skipn (List.length l - n) l.

(** [arr.map(f)] where [f] may throw. *)
Fixpoint map_result {A B} (f : A -> result B) (l : list A) : result (list B) :=
  match l with
  | [] => Ok []
  | x :: rest =>
      match f x with
      | Throw e => Throw e
      | Ok y =>
          match map_result f rest with
          | Throw e => Throw e
          | Ok ys => Ok (y :: ys)
          end
      end
  end.

Section Services.

(** [String(v)] for a number, an array or an object. *)
Variable ToString_other : json -> string.

(** The value as a template literal or a string concatenation shows it. *)
Definition template (v : option json) : string :=
  match v with
  | None => "undefined"
  | Some JNull => "null"
  | Some (JBool true) => "true"
  | Some (JBool false) => "false"
  | Some (JStr s) => s
  | Some v => ToString_other v
  end.

(** *** [OpenAIService.createCompletion] *)

Record CompletionParams : Type := mkParams {
  p_model : string;
  p_messages : list (string * json);
  p_temperature : option Q;
  p_max_tokens : option Z
}.

(** [params.temperature || 0.5] and [params.max_tokens || 1000]. *)
Definition completion_request (params : CompletionParams) : Completion :=
  mkCompletion (p_model params) (p_messages params)
    (match p_temperature params with
     | Some t => if Qeq_bool t 0 then 1 # 2 else t
     | None => 1 # 2
     end)
    (match p_max_tokens params with
     | Some n => if n =? 0 then 1000 else n
     | None => 1000
     end).

(** [answer] is what the API answers to the request. *)
Definition createCompletion (params : CompletionParams) (answer : result json) : Run json :=
  ([ChatCompletionsCreate (completion_request params)],
   match answer with
   | Ok response => Ok response
   | Throw _ => Throw (Error "Impossible de générer une réponse. Service indisponible.")
   end).

(** *** [EcosService.getPatientResponse] *)

Definition default_patient_prompt : string :=
  "Vous êtes un patient qui présente les symptômes décrits dans le scénario.".

Definition instructions_block : list string :=
  ["INSTRUCTIONS IMPORTANTES:";
   "- Réponds UNIQUEMENT en tant que patient, jamais en tant que médecin ou expert médical";
   "- Utilise un langage simple et naturel, comme le ferait un vrai patient";
   "- Ne donne JAMAIS de diagnostic médical ou de conseils médicaux";
   "- Décris tes symptômes de manière subjective (ce que tu ressens)";
   "- Sois cohérent avec l'histoire du patient décrite dans le scénario";
   "- Si l'étudiant pose une question technique, réponds en tant que patient qui ne comprend pas les termes médicaux";
   "- Montre de l'inquiétude ou de l'anxiété appropriée selon la situation";
   ("- Utilise des expressions comme " ++ dq ++ "j'ai mal" ++ dq ++ ", "
      ++ dq ++ "ça me fait souffrir" ++ dq ++ ", "
      ++ dq ++ "je suis inquiet" ++ dq ++ ", etc.")%string;
   "- Adapte tes réponses à la question spécifique posée";
   "- Sois réaliste dans tes descriptions de symptômes"].

(** The system prompt, line by line; [scenario] is not [null]. *)
Definition systemPrompt (scenario : json) (relevantContext conversationContext : string)
           (userMessage : json) : string :=
  join newline
    (["Tu es un patient virtuel dans une simulation médicale ECOS (Examen Clinique Objectif Structuré).";
      EmptyString;
      "CONTEXTE DU SCÉNARIO:";
      template (field "description" scenario);
      EmptyString;
      "PROMPT DU PATIENT:";
      (if truthy_opt (field "patientPrompt" scenario)
       then template (field "patientPrompt" scenario)
       else default_patient_prompt);
      EmptyString;
      (if String.eqb relevantContext EmptyString then EmptyString
       else join newline
              ["CONNAISSANCES MÉDICALES PERTINENTES:";
               relevantContext;
               EmptyString;
               "Utilise ces informations pour enrichir tes réponses de patient, mais reste toujours dans le rôle du patient."]);
      EmptyString]
     ++ instructions_block
     ++ [EmptyString;
         (if String.eqb conversationContext EmptyString then EmptyString
          else join newline ["HISTORIQUE DE LA CONVERSATION:"; conversationContext]);
         EmptyString;
         ("Question actuelle de l'étudiant: " ++ dq ++ template (Some userMessage) ++ dq)%string;
         EmptyString;
         "Réponds maintenant à cette question spécifique en restant dans le rôle du patient."]).

(** One line of the conversation context. *)
Definition history_line (msg : json) : result string :=
  match msg with
  | JNull => Throw (TypeError "Cannot read properties of null (reading 'role')")
  | _ =>
      Ok ((if is_str "user" (field "role" msg) then "Étudiant" else "Patient")
          ++ ": " ++ template (field "content" msg))%string
  end.

(** [conversationHistory.slice(-5).map(...)], with the default [[]] for a
    missing argument; only an array has both [slice] and [map]. *)
Definition history_lines (conversationHistory : option json) : result (list string) :=
  match conversationHistory with
  | None => Ok []
  | Some (JArr items) => map_result history_line (slice_last 5 items)
  | Some JNull => Throw (TypeError "Cannot read properties of null (reading 'slice')")
  | Some (JStr _) =>
      Throw (TypeError "conversationHistory.slice(...).map is not a function")
  | Some _ => Throw (TypeError "conversationHistory.slice is not a function")
  end.

(** The retrieval step: the call made and the context it yields.  A
    failing or empty retrieval yields the empty context. *)
Definition retrieve (userMessage scenario : json) (retrieved : result (list string))
  : list Call * string :=
  let query := (template (Some userMessage) ++ " " ++ template (field "title" scenario))%string in
  let context := match retrieved with
                 | Ok (c :: cs) => join (newline ++ newline) (c :: cs)
                 | _ => EmptyString
                 end in
  match field "pineconeIndex" scenario with
  | Some index =>
      if truthy index then ([QueryVectors query index 3], context)
      else ([SearchRelevantContent query 3], context)
  | None => ([SearchRelevantContent query 3], context)
  end.

(** [response.choices[0].message.content], then the evaluation of
    [patientResponse?.substring(0, 100)] for the log, which throws on a
    value that is neither a string nor [null] nor [undefined]. *)
Definition patient_response (response : json) : result (option json) :=
  match get "choices" response with
  | Throw e => Throw e
  | Ok choices =>
      match index0 choices with
      | Throw e => Throw e
      | Ok first =>
          match get_opt "message" first with
          | Throw e => Throw e
          | Ok message =>
              match get_opt "content" message with
              | Throw e => Throw e
              | Ok None => Ok None
              | Ok (Some JNull) => Ok (Some JNull)
              | Ok (Some (JStr s)) => Ok (Some (JStr s))
              | Ok (Some _) =>
                  Throw (TypeError "patientResponse?.substring is not a function")
              end
          end
      end
  end.

Definition patient_error : Exn :=
  Error "Erreur lors de la génération de la réponse du patient".

(** [retrieved] is what the vector index answers, [answer] what the
    completion API answers. *)
Definition getPatientResponse (userMessage scenario : json)
           (conversationHistory : option json)
           (retrieved : result (list string)) (answer : result json)
  : Run (option json) :=
  match scenario with
  | JNull => ([], Throw patient_error)
  | _ =>
      let '(calls, relevantContext) := retrieve userMessage scenario retrieved in
      match history_lines conversationHistory with
      | Throw _ => (calls, Throw patient_error)
      | Ok context_lines =>
          let conversationContext := join newline context_lines in
          let '(calls', response) :=
            createCompletion
              (mkParams "gpt-4o"
                 [("system", JStr (systemPrompt scenario relevantContext
                                     conversationContext userMessage));
                  ("user", userMessage)]
                 (Some (7 # 10)) (Some 300))
              answer in
          (calls ++ calls',
           match response with
           | Throw _ => Throw patient_error
           | Ok r =>
               match patient_response r with
               | Throw _ => Throw patient_error
               | Ok content => Ok content
               end
           end)
      end
  end.

End Services.

End Backend.

(** ** Server side: the routes *)

Module Routes.

Import Backend.

Definition ADMIN_EMAILS : list string :=
  ["cherubindavid@gmail.com";
   "colombemadoungou@gmail.com";
   "colombemadoungou.com";
   "romain.guillevic@gmail.com";
   "romainguillevic@gmail.com"].

(** What [res.status(...).json(...)] sends. *)
Record Reply : Type := mkReply { status : nat; body : json }.

Definition forbidden : Reply :=
  mkReply 403 (JObj [("message", JStr "Accès non autorisé")]).

Definition missing_fields (message : string) : Reply :=
  mkReply 400 (JObj [("message", JStr message); ("error", JStr "Missing required fields")]).

(** A member whose value may be [undefined]. *)
Definition members (l : list (string * option json)) : list (string * json) :=
  flat_map (fun kv => member (fst kv) (snd kv)) l.

(** [obj.k = v] on an object literal. *)
Fixpoint set_field (k : string) (v : json) (fields : list (string * json))
  : list (string * json) :=
  match fields with
  | [] => [(k, v)]
  | (k', v') :: rest =>
      if String.eqb k k' then (k', v) :: rest else (k', v') :: set_field k v rest
  end.

(** *** The session store: a [Map] from numbers to session objects *)

Record ChatMessage : Type := mkChatMessage {
  role : string;
  content : option json;
  timestamp : Z
}.

Record Session : Type := mkSession {
  id : Z;
  email : string;
  scenarioId : Z;
  session_status : string;
  startTime : Z;
  session_messages : list ChatMessage
}.

Definition Store : Type := list (Z * Session).

Fixpoint Map_get (k : Z) (m : Store) : option Session :=
  match m with
  | [] => None
  | (k', v) :: rest => if k =? k' then Some v else Map_get k rest
  end.

Fixpoint Map_set (k : Z) (v : Session) (m : Store) : Store :=
  match m with
  | [] => [(k, v)]
  | (k', v') :: rest => if k =? k' then (k', v) :: rest else (k', v') :: Map_set k v rest
  end.

(** [Number.isInteger(q)], with the integer. *)
Definition as_integer (q : Q) : option Z :=
  if (Qnum q mod Z.pos (Qden q)) =? 0 then Some (Qnum q / Z.pos (Qden q)) else None.

(** The key of the store that a value read from a request can be equal
    to. *)
Definition Map_key (key : option json) : option Z :=
  match key with
  | Some (JNum q) => as_integer q
  | _ => None
  end.

(** [ecosSessions.get(key)] for a key read from a request, with the key of
    the entry found. *)
Definition Map_get_value (key : option json) (m : Store) : option (Z * Session) :=
  match Map_key key with
  | Some k =>
      match Map_get k m with
      | Some session => Some (k, session)
      | None => None
      end
  | None => None
  end.

(** *** The in-memory users: a [Map] from emails to users *)

Definition Users : Type := list (string * (string * Z)).

Fixpoint Users_get (email : string) (m : Users) : option (string * Z) :=
  match m with
  | [] => None
  | (k, v) :: rest => if String.eqb email k then Some v else Users_get email rest
  end.

Section Handlers.

(** [String.prototype.toLowerCase] and [trim]. *)
Variable toLowerCase : string -> string.
Variable trim : string -> string.
(** The test of [z.string().email()]. *)
Variable is_email : string -> bool.
(** [parseInt]; [None] is [NaN]. *)
Variable parseInt : string -> option Z.
(** The conversion of a string to a number; [None] is [NaN]. *)
Variable StringToNumber : string -> option Q.
Variable ToString_other : json -> string.
(** [Date.prototype.toISOString]. *)
Variable toISOString : Z -> string.
(** [decodeURIComponent], which throws on a malformed escape. *)
Variable decodeURIComponent : string -> result string.
(** [v.length] as [Math.ceil(v.length / 1000)] needs it; [None] where the
    result is [NaN]. *)
Variable js_length : json -> option Z.
(** [process.env.NODE_ENV === 'development']. *)
Variable development : bool.

Definition isAdminAuthorized (email : option json) : bool :=
  match email with
  | Some (JStr s) =>
      if String.eqb s EmptyString then false
      else existsb (String.eqb (trim (toLowerCase s)))
                   (map (fun adminEmail => trim (toLowerCase adminEmail)) ADMIN_EMAILS)
  | _ => false
  end.

(** [!email || !isAdminAuthorized(email)]. *)
Definition denied (email : option json) : bool :=
  negb (truthy_opt email) || negb (isAdminAuthorized email).

(** *** [findOrCreateStudent]

    [selected] and [inserted] are what the database answers, [fresh_db] and
    [fresh_mem] the two identifiers the function may generate, [now] the
    value of [new Date()]. *)
Definition findOrCreateStudent (email : string)
           (selected : result (list string)) (inserted : result unit)
           (fresh_db fresh_mem : string) (now : Z) (inMemoryUsers : Users)
  : Users * list Call * (string * bool) :=
  let fallback (calls : list Call) :=
    match Users_get email inMemoryUsers with
    | Some user => (inMemoryUsers, calls, (fst user, false))
    | None => (inMemoryUsers ++ [(email, (fresh_mem, now))], calls, (fresh_mem, true))
    end in
  match selected with
  | Ok (existing :: _) => (inMemoryUsers, [SelectUser email], (existing, false))
  | Ok [] =>
      match inserted with
      | Ok _ => (inMemoryUsers, [SelectUser email; InsertUser fresh_db email], (fresh_db, true))
      | Throw _ => fallback [SelectUser email; InsertUser fresh_db email]
      end
  | Throw _ => fallback [SelectUser email]
  end.

(** *** The administration routes *)

Definition server_error (message : string) (e : Exn) (more : list (string * json)) : Reply :=
  mkReply 500 (JObj ([("message", JStr message); ("error", JStr (JS.message e))] ++ more)).

(** [POST /api/admin/indexes/switch]. *)
Definition switch_index (body : json) (answer : result unit) : list Call * Reply :=
  let failed e := server_error "Erreur lors du changement d'index" e [("success", JBool false)] in
  match get "indexName" body, get "email" body with
  | Ok indexName, Ok email =>
      if negb (truthy_opt indexName) || negb (truthy_opt email) then
        ([], missing_fields "Index name and email are required")
      else if negb (isAdminAuthorized email) then ([], forbidden)
      else
        ([SwitchIndex (match indexName with Some v => v | None => JNull end)],
         match answer with
         | Ok _ =>
             mkReply 200
               (JObj ([("message", JStr ("Index changé vers: " ++ template ToString_other indexName)%string)]
                      ++ member "currentIndex" indexName
                      ++ [("success", JBool true)]))
         | Throw e => failed e
         end)
  | Throw e, _ | _, Throw e => ([], failed e)
  end.

(** [POST /api/admin/indexes]. *)
Definition create_index (body : json) (answer : result unit) : list Call * Reply :=
  let failed e := server_error "Erreur lors de la création de l'index" e [("success", JBool false)] in
  match get "name" body, get "dimension" body, get "email" body with
  | Ok name, Ok dimension, Ok email =>
      if negb (truthy_opt name) || negb (truthy_opt dimension) || negb (truthy_opt email) then
        ([], missing_fields "Name, dimension and email are required")
      else if negb (isAdminAuthorized email) then ([], forbidden)
      else
        ([CreateIndex (match name with Some v => v | None => JNull end)
                      (match dimension with Some v => v | None => JNull end)],
         match answer with
         | Ok _ =>
             mkReply 200
               (JObj ([("message",
                        JStr ("Index " ++ dq ++ template ToString_other name ++ dq
                              ++ " créé avec succès")%string)]
                      ++ member "indexName" name
                      ++ [("success", JBool true)]))
         | Throw e => failed e
         end)
  | Throw e, _, _ | _, Throw e, _ | _, _, Throw e => ([], failed e)
  end.

(** [Math.ceil(content.length / 1000)] as [JSON.stringify] shows it. *)
Definition chunks_created (content : json) : json :=
  match js_length content with
  | Some n => JNum (inject_Z ((n + 999) / 1000))
  | None => JNull
  end.

(** [POST /api/admin/documents]. *)
Definition add_document (body : json) (answer : result unit) : list Call * Reply :=
  let failed e := server_error "Erreur lors de l'ajout du document" e [] in
  match get "title" body, get "content" body, get "category" body, get "email" body with
  | Ok title, Ok (Some content), Ok category, Ok email =>
      if negb (truthy_opt title) || negb (truthy content) || negb (truthy_opt email) then
        ([], missing_fields "Title, content and email are required")
      else if negb (isAdminAuthorized email) then ([], forbidden)
      else
        ([ProcessPDFContent content
            (match title with Some v => v | None => JNull end)
            (match category with
             | Some c => if truthy c then c else JStr "general"
             | None => JStr "general"
             end)],
         match answer with
         | Ok _ =>
             mkReply 200
               (JObj ([("message", JStr "Document ajouté avec succès")]
                      ++ member "document_title" title
                      ++ [("chunks_created", chunks_created content)]))
         | Throw e => failed e
         end)
  | Ok _, Ok None, Ok _, Ok _ =>
      ([], missing_fields "Title, content and email are required")
  | Throw e, _, _, _ | _, Throw e, _, _ | _, _, Throw e, _ | _, _, _, Throw e =>
      ([], failed e)
  end.

(** [DELETE /api/admin/documents/:id]; the identifier is decoded before
    the caller is checked. *)
Definition delete_document (email : option json) (id : string) (answer : result unit)
  : list Call * Reply :=
  let failed e := server_error "Erreur lors de la suppression du document" e [] in
  match decodeURIComponent id with
  | Throw e => ([], failed e)
  | Ok documentId =>
      if denied email then ([], forbidden)
      else
        ([DeleteDocument documentId],
         match answer with
         | Ok _ => mkReply 200 (JObj [("message", JStr "Document supprimé avec succès")])
         | Throw e => failed e
         end)
  end.

(** [GET /api/admin/documents]. *)
Definition get_documents (email : option json) (answer : result json) : list Call * Reply :=
  if denied email then ([], forbidden)
  else
    ([GetAllSources],
     match answer with
     | Ok sources =>
         mkReply 200 (JObj [("sources", sources);
                            ("message", JStr "Documents récupérés avec succès")])
     | Throw e =>
         server_error "Erreur lors de la récupération des documents" e [("sources", JArr [])]
     end).

(** [GET /api/admin/indexes]. *)
Definition list_indexes (email : option json) (answer : result json) : list Call * Reply :=
  if denied email then ([], forbidden)
  else
    ([ListIndexes],
     match answer with
     | Ok indexes =>
         mkReply 200 (JObj [("indexes", indexes);
                            ("message", JStr "Index récupérés avec succès")])
     | Throw e => server_error "Erreur lors de la récupération des index Pinecone" e []
     end).

(** [POST /api/admin/sync-scenarios]. *)
Definition sync_scenarios (email : option json) (answer : result unit) : list Call * Reply :=
  if denied email then ([], forbidden)
  else
    ([SyncScenariosFromPinecone],
     match answer with
     | Ok _ =>
         mkReply 200
           (JObj [("message", JStr "Synchronisation des scénarios terminée avec succès")])
     | Throw _ =>
         mkReply 500
           (JObj [("message", JStr "Erreur lors de la synchronisation des scénarios")])
     end).

(** [GET /api/teacher/scenarios]. *)
Definition teacher_scenarios (email : option json) (answer : result json) : list Call * Reply :=
  if denied email then ([], forbidden)
  else
    ([GetAvailableScenarios],
     match answer with
     | Ok scenarios =>
         mkReply 200 (JObj [("scenarios", scenarios);
                            ("connected", JBool true);
                            ("source", JStr "database")])
     | Throw e =>
         server_error "Erreur de connexion à la base de données" e [("connected", JBool false)]
     end).

(** *** The simulation sessions *)

(** The issues [schema.parse] reports for a body it rejects. *)
Variable zod_issues : json -> json.

Definition invalid_data (body : json) : Reply :=
  mkReply 400 (JObj [("message", JStr "Données invalides"); ("errors", zod_issues body)]).

Definition ChatMessage_json (m : ChatMessage) : json :=
  JObj ([("role", JStr (role m))]
        ++ member "content" (content m)
        ++ [("timestamp", JStr (toISOString (timestamp m)))]).

Definition Session_json (s : Session) : json :=
  JObj [("id", JNum (inject_Z (id s)));
        ("sessionId", JNum (inject_Z (id s)));
        ("email", JStr (email s));
        ("scenarioId", JNum (inject_Z (scenarioId s)));
        ("status", JStr (session_status s));
        ("startTime", JStr (toISOString (startTime s)));
        ("messages", JArr (map ChatMessage_json (session_messages s)))].

(** The schema of [POST /api/ecos/sessions]: an object with an [email]
    that is an email address and a [scenarioId] that is a positive
    integer. *)
Definition parse_session_request (body : json) : option (string * Z) :=
  match body with
  | JObj fields =>
      match assoc "email" fields, assoc "scenarioId" fields with
      | Some (JStr e), Some (JNum q) =>
          match as_integer q with
          | Some n => if is_email e && (0 <? n) then Some (e, n) else None
          | None => None
          end
      | _, _ => None
      end
  | _ => None
  end.

(** [POST /api/ecos/sessions]: [now] is [Date.now()], [started] is
    [new Date()]. *)
Definition create_session (body : json) (now started : Z) (ecosSessions : Store)
  : Store * Reply :=
  match parse_session_request body with
  | None => (ecosSessions, invalid_data body)
  | Some (e, n) =>
      let session := mkSession now e n "in_progress" started [] in
      (Map_set now session ecosSessions,
       mkReply 200 (JObj [("message", JStr "Session ECOS créée avec succès");
                          ("sessionId", JNum (inject_Z now));
                          ("session", Session_json session)]))
  end.

(** [EcosService.getScenarios]; [t1] and [t2] are the two values of
    [new Date()]. *)
Definition getScenarios (t1 t2 : Z) : list json :=
  [JObj [("id", JStr "1"); ("title", JStr "ECOS Scénario 1"); ("type", JStr "clinical");
         ("status", JStr "active"); ("createdAt", JStr (toISOString t1));
         ("exchanges", JNum 5); ("pineconeIndex", JStr "infirmierbeaujon")];
   JObj [("id", JStr "2"); ("title", JStr "ECOS Scénario 2"); ("type", JStr "emergency");
         ("status", JStr "active"); ("createdAt", JStr (toISOString t2));
         ("exchanges", JNum 8); ("pineconeIndex", JStr "infirmierbeaujon")]].

(** [id == scenarioId] for a number [scenarioId]. *)
Definition loose_eq (id : option json) (scenarioId : Z) : bool :=
  let same (n : option Q) :=
    match n with
    | Some q => Qeq_bool q (inject_Z scenarioId)
    | None => false
    end in
  match id with
  | None | Some JNull => false
  | Some (JNum q) => same (Some q)
  | Some (JBool b) => same (Some (if b then 1%Q else 0%Q))
  | Some (JStr s) => same (StringToNumber s)
  | Some v => same (StringToNumber (ToString_other v))
  end.

(** [scenarios.find(s => s.id == scenarioId)]. *)
Fixpoint find_scenario (scenarioId : Z) (scenarios : list json) : result (option json) :=
  match scenarios with
  | [] => Ok None
  | s :: rest =>
      match get "id" s with
      | Throw e => Throw e
      | Ok i => if loose_eq i scenarioId then Ok (Some s) else find_scenario scenarioId rest
      end
  end.

(** [getScenarioById]; [None] is [null]. *)
Definition getScenarioById (scenarioId : Z) (available : result (list json)) (t1 t2 : Z)
  : list Call * option json :=
  ([GetAvailableScenarios],
   match available with
   | Throw _ => None
   | Ok scenarios =>
       match find_scenario scenarioId scenarios with
       | Throw _ => None
       | Ok (Some (JObj fields)) =>
           if truthy_opt (assoc "pineconeIndex" fields) then Some (JObj fields)
           else Some (JObj (set_field "pineconeIndex" (JStr "infirmierbeaujon") fields))
       | Ok _ =>
           match find_scenario scenarioId (getScenarios t1 t2) with
           | Ok (Some mockScenario) => Some mockScenario
           | _ => None
           end
       end
   end).

Definition not_found (message : string) : Reply :=
  mkReply 404 (JObj [("message", JStr message)]).

(** [GET /api/ecos/sessions/:sessionId/scenario]. *)
Definition session_scenario (sessionId : string) (ecosSessions : Store)
           (available : result (list json)) (t1 t2 : Z) : list Call * Reply :=
  match match parseInt sessionId with
        | Some k => Map_get k ecosSessions
        | None => None
        end with
  | None => ([], not_found "Session non trouvée")
  | Some session =>
      let '(calls, found) := getScenarioById (scenarioId session) available t1 t2 in
      (calls,
       match found with
       | None => not_found "Scénario non trouvé"
       | Some scenario =>
           mkReply 200
             (JObj [("scenario",
                     JObj (member "id" (field "id" scenario)
                           ++ member "title" (field "title" scenario)
                           ++ [("duration",
                                match field "duration" scenario with
                                | Some d => if truthy d then d else JNum 20
                                | None => JNum 20
                                end)]))])
       end)
  end.

(** What the outside answers during one chat request, and the clock. *)
Record ChatEnv : Type := mkChatEnv {
  available : result (list json);
  retrieved : result (list string);
  answer : result json;
  mock_t1 : Z;
  mock_t2 : Z;
  user_time : Z;
  assistant_time : Z
}.

Definition chat_failed (e : Exn) : Reply :=
  mkReply 500
    (JObj ([("message", JStr "Erreur lors de la génération de la réponse du patient")]
           ++ member "error" (if development then Some (JStr (JS.message e)) else None))).

(** [POST /api/ecos/chat].  The two messages are pushed on the stored
    session before the reply is logged, and logging takes a substring of
    the reply. *)
Definition chat (body : json) (env : ChatEnv) (ecosSessions : Store)
  : Store * list Call * Reply :=
  match get "message" body, get "sessionId" body, get "conversationHistory" body with
  | Ok message, Ok sessionId, Ok conversationHistory =>
      match message with
      | None => (ecosSessions, [], mkReply 400 (JObj [("message", JStr "Message et ID de session requis")]))
      | Some userMessage =>
          if negb (truthy userMessage) || negb (truthy_opt sessionId) then
            (ecosSessions, [],
             mkReply 400 (JObj [("message", JStr "Message et ID de session requis")]))
          else
            match Map_get_value sessionId ecosSessions with
            | None => (ecosSessions, [], not_found "Session ECOS non trouvée")
            | Some (key, session) =>
                let '(calls, found) :=
                  getScenarioById (scenarioId session) (available env)
                    (mock_t1 env) (mock_t2 env) in
                match found with
                | None => (ecosSessions, calls, not_found "Scénario non trouvé")
                | Some scenario =>
                    let '(calls', patientResponse) :=
                      getPatientResponse ToString_other userMessage scenario
                        conversationHistory (retrieved env) (answer env) in
                    match patientResponse with
                    | Throw e => (ecosSessions, calls ++ calls', chat_failed e)
                    | Ok reply =>
                        let pushed :=
                          mkSession (id session) (email session) (scenarioId session)
                            (session_status session) (startTime session)
                            (session_messages session
                             ++ [mkChatMessage "user" (Some userMessage) (user_time env);
                                 mkChatMessage "assistant" reply (assistant_time env)]) in
                        (Map_set key pushed ecosSessions,
                         calls ++ calls',
                         match reply with
                         | Some (JStr text) =>
                             mkReply 200
                               (JObj ([("response", JStr text)]
                                      ++ member "sessionId" sessionId
                                      ++ [("message", JStr "Réponse générée avec succès")]))
                         | Some _ =>
                             chat_failed (TypeError "Cannot read properties of null (reading 'substring')")
                         | None =>
                             chat_failed (TypeError "Cannot read properties of undefined (reading 'substring')")
                         end)
                    end
                end
            end
      end
  | Throw e, _, _ | _, Throw e, _ | _, _, Throw e => (ecosSessions, [], chat_failed e)
  end.

End Handlers.

End Routes.

(** ** A reference [JSON.parse] for a fragment of JSON

    The components take [JSON.parse] as a parameter.  The parser below
    instantiates it on concrete frames.  It reads objects, arrays, strings
    with the one-letter escapes, the three keywords and decimal numbers
    without exponent; on every other input it answers [None]. *)

Module JSONFragment.

Definition dquote : ascii := "034"%char.
Definition backslash : ascii := "\"%char.

Definition is_ws (c : ascii) : bool :=
  Ascii.eqb c " " || Ascii.eqb c "009" || Ascii.eqb c "010" || Ascii.eqb c "013".

Fixpoint skip_ws (s : string) : string :=
  match s with
  | String c rest => if is_ws c then skip_ws rest else s
  | EmptyString => s
  end.

Definition digit (c : ascii) : option Z :=
  let n := Z.of_nat (nat_of_ascii c) in
  if (48 <=? n) && (n <=? 57) then Some (n - 48) else None.

(** Reads a run of digits: its value, its length and the rest. *)
Fixpoint digits (s : string) (acc : Z) (count : nat) : Z * nat * string :=
  match s with
  | String c rest =>
      match digit c with
      | Some d => digits rest (10 * acc + d) (S count)
      | None => (acc, count, s)
      end
  | EmptyString => (acc, count, s)
  end.

Definition leading_zero (s : string) (count : nat) : bool :=
  match s, count with
  | String c _, S (S _) => Ascii.eqb c "0"
  | _, _ => false
  end.

Definition number (s : string) : option (json * string) :=
  let '(negative, s1) :=
    match s with
    | String c rest => if Ascii.eqb c "-" then (true, rest) else (false, s)
    | EmptyString => (false, s)
    end in
  let sign (q : Q) := if negative then Qopp q else q in
  match digits s1 0 0 with
  | (_, O, _) => None
  | (n, S k, rest) =>
      if leading_zero s1 (S k) then None
      else
        match rest with
        | String c rest' =>
            if Ascii.eqb c "." then
              match digits rest' 0 0 with
              | (_, O, _) => None
              | (f, S j, rest'') =>
                  let scale := 10 ^ Z.of_nat (S j) in
                  Some (JNum (sign (Qmake (n * scale + f) (Z.to_pos scale))), rest'')
              end
            else Some (JNum (sign (inject_Z n)), rest)
        | EmptyString => Some (JNum (sign (inject_Z n)), rest)
        end
  end.

Definition unescape (c : ascii) : option ascii :=
  if Ascii.eqb c dquote then Some dquote
  else if Ascii.eqb c backslash then Some backslash
  else if Ascii.eqb c "/" then Some "/"%char
  else if Ascii.eqb c "b" then Some "008"%char
  else if Ascii.eqb c "f" then Some "012"%char
  else if Ascii.eqb c "n" then Some "010"%char
  else if Ascii.eqb c "r" then Some "013"%char
  else if Ascii.eqb c "t" then Some "009"%char
  else None.

(** The characters of a string literal after its opening quote. *)
Fixpoint string_body (s : string) : option (string * string) :=
  match s with
  | EmptyString => None
  | String c rest =>
      if Ascii.eqb c dquote then Some (EmptyString, rest)
      else if Ascii.eqb c backslash then
        match rest with
        | String e rest' =>
            match unescape e, string_body rest' with
            | Some d, Some (body, r) => Some (String d body, r)
            | _, _ => None
            end
        | EmptyString => None
        end
      else if (nat_of_ascii c <? 32)%nat then None
      else
        match string_body rest with
        | Some (body, r) => Some (String c body, r)
        | None => None
        end
  end.

Fixpoint drop (n : nat) (s : string) : string :=
  match n, s with
  | S n', String _ rest => drop n' rest
  | _, _ => s
  end.

Definition keyword (k : string) (v : json) (s : string) : option (json * string) :=
  if String.prefix k s then Some (v, drop (String.length k) s) else None.

(** The elements of an array after its opening bracket. *)
Fixpoint elements (value : string -> option (json * string)) (fuel : nat) (s : string)
  : option (list json * string) :=
  match fuel with
  | O => None
  | S fuel' =>
      match value s with
      | Some (v, rest) =>
          match skip_ws rest with
          | String c r =>
              if Ascii.eqb c "," then
                match elements value fuel' r with
                | Some (vs, r') => Some (v :: vs, r')
                | None => None
                end
              else if Ascii.eqb c "]" then Some ([v], r)
              else None
          | EmptyString => None
          end
      | None => None
      end
  end.

(** The members of an object after its opening brace. *)
Fixpoint members (value : string -> option (json * string)) (fuel : nat) (s : string)
  : option (list (string * json) * string) :=
  match fuel with
  | O => None
  | S fuel' =>
      match skip_ws s with
      | String q rest =>
          if Ascii.eqb q dquote then
            match string_body rest with
            | Some (k, rest1) =>
                match skip_ws rest1 with
                | String colon rest2 =>
                    if Ascii.eqb colon ":" then
                      match value rest2 with
                      | Some (v, rest3) =>
                          match skip_ws rest3 with
                          | String c r =>
                              if Ascii.eqb c "," then
                                match members value fuel' r with
                                | Some (kvs, r') => Some ((k, v) :: kvs, r')
                                | None => None
                                end
                              else if Ascii.eqb c "}" then Some ([(k, v)], r)
                              else None
                          | EmptyString => None
                          end
                      | None => None
                      end
                    else None
                | EmptyString => None
                end
            | None => None
            end
          else None
      | EmptyString => None
      end
  end.

(** A repeated key keeps its first position and takes the last value. *)
Fixpoint put (k : string) (v : json) (fields : list (string * json))
  : list (string * json) :=
  match fields with
  | [] => [(k, v)]
  | (k', v') :: rest =>
      if String.eqb k k' then (k', v) :: rest else (k', v') :: put k v rest
  end.

Definition object_of (kvs : list (string * json)) : json :=
  JObj (fold_left (fun fields kv => put (fst kv) (snd kv) fields) kvs []).

Fixpoint value (fuel : nat) (s : string) : option (json * string) :=
  match fuel with
  | O => None
  | S fuel' =>
      match skip_ws s with
      | EmptyString => None
      | String c rest =>
          if Ascii.eqb c "n" then keyword "ull" JNull rest
          else if Ascii.eqb c "t" then keyword "rue" (JBool true) rest
          else if Ascii.eqb c "f" then keyword "alse" (JBool false) rest
          else if Ascii.eqb c dquote then
            match string_body rest with
            | Some (body, r) => Some (JStr body, r)
            | None => None
            end
          else if Ascii.eqb c "[" then
            match skip_ws rest with
            | String c' r =>
                if Ascii.eqb c' "]" then Some (JArr [], r)
                else
                  match elements (value fuel') fuel' rest with
                  | Some (vs, r') => Some (JArr vs, r')
                  | None => None
                  end
            | EmptyString => None
            end
          else if Ascii.eqb c "{" then
            match skip_ws rest with
            | String c' r =>
                if Ascii.eqb c' "}" then Some (JObj [], r)
                else
                  match members (value fuel') fuel' rest with
                  | Some (kvs, r') => Some (object_of kvs, r')
                  | None => None
                  end
            | EmptyString => None
            end
          else number (String c rest)
      end
  end.

Definition JSON_parse (s : string) : option json :=
  match value (S (String.length s)) s with
  | Some (v, rest) =>
      match skip_ws rest with
      | EmptyString => Some v
      | String _ _ => None
      end
  | None => None
  end.

(** [quoted s] is [s] between double quotes. *)
Definition quoted (s : string) : string :=
  (String dquote s ++ String dquote EmptyString)%string.

(** An error event with type, error and message members, well formed. *)
Definition error_frame : string :=
  ("{" ++ quoted "type" ++ ":" ++ quoted "error" ++ ","
       ++ quoted "error" ++ ":{" ++ quoted "message" ++ ":" ++ quoted "boom" ++ "}}")%string.

(** A transcript event cut in the middle of its second member name. *)
Definition truncated_frame : string :=
  ("{" ++ quoted "type" ++ ":" ++ quoted "response.audio_transcript.done" ++ ","
       ++ String dquote "transc")%string.

End JSONFragment.

(** ** Vocabulary of the properties *)

(** The event types of [handleRealtimeEvent] whose case is a bare
    [updateState], with the state each one sets. *)
Definition unconditional_transitions : list (string * VoiceChat.VoiceChatState) :=
  [("input_audio_buffer.speech_started", VoiceChat.listening);
   ("input_audio_buffer.speech_stopped", VoiceChat.connected);
   ("response.audio.delta", VoiceChat.speaking)].

Definition is_ChannelClose (e : Effect) : bool :=
  match e with
  | ChannelClose _ => true
  | _ => false
  end.

Definition is_Call_onTranscript (e : Effect) : bool :=
  match e with
  | Call_onTranscript _ _ => true
  | _ => false
  end.

(** The effects that release a resource: closing the control channel,
    closing the peer connection, stopping a track, pausing the playback
    element. *)
Definition is_release (e : Effect) : bool :=
  match e with
  | ChannelClose _ | ConnectionClose _ | TrackStop _ | AudioPause _ => true
  | _ => false
  end.

Definition releases (t : list Effect) : list Effect := filter is_release t.

(** The effect made on a ref that may be empty. *)
Definition on_ref {A} (f : A -> Effect) (r : option A) : list Effect :=
  match r with
  | Some a => [f a]
  | None => []
  end.

Definition tracks_of (r : option MediaStream) : list Track :=
  match r with
  | Some stream => getTracks stream
  | None => []
  end.


Definition is_NewPeerConnection (e : Effect) : bool :=
  match e with
  | NewPeerConnection _ _ => true
  | _ => false
  end.

Definition is_CreateDataChannel (e : Effect) : bool :=
  match e with
  | CreateDataChannel _ _ _ _ => true
  | _ => false
  end.

Definition is_CreateOffer (e : Effect) : bool :=
  match e with
  | CreateOffer _ _ => true
  | _ => false
  end.

(** The effects of the offer/answer exchange: sending the offer to the
    remote endpoint and applying the answer. *)
Definition is_exchange (e : Effect) : bool :=
  match e with
  | PostOffer _ _ _ | SetRemoteDescription _ _ => true
  | _ => false
  end.

Definition channels (t : list Effect) : list Effect := filter is_CreateDataChannel t.
Definition offers (t : list Effect) : list Effect := filter is_CreateOffer t.

(** One channel is created, on the peer connection made just before, it
    is ordered and reliable, and no offer is generated before it: an offer,
    if any, comes later and is made on the same peer connection. *)
Definition channel_before_offer (t : list Effect) : Prop :=
  exists pre post pc servers dc label init,
    t = pre ++ CreateDataChannel pc dc label init :: post
    /\ In (NewPeerConnection pc servers) pre
    /\ channels pre = [] /\ offers pre = []
    /\ channels post = []
    /\ (offers post = [] \/ exists options, offers post = [CreateOffer pc options])
    /\ is_ordered init = true /\ is_reliable init = true.



(** The [onopen] handlers installed during a run, with their targets. *)
Definition open_listeners (t : list Effect) : list (nat * Listener) :=
  flat_map (fun e =>
              match e with
              | Listen target (VoiceChat_onopen token) =>
                  [(target, VoiceChat_onopen token)]
              | Listen target (VoiceCommand_onopen instructions) =>
                  [(target, VoiceCommand_onopen instructions)]
              | _ => []
              end) t.

(** [v.k1.k2...] on a parsed value; [None] when a step is missing. *)
Fixpoint path (keys : list string) (v : json) : option json :=
  match keys with
  | [] => Some v
  | k :: rest =>
      match v with
      | JObj fields =>
          match assoc k fields with
          | Some v' => path rest v'
          | None => None
          end
      | _ => None
      end
  end.


(** The environment with another reply to the credential request. *)
Definition with_token (env : Env) (r : Response json) : Env :=
  mkEnv r (user_media env) (fresh_pc env) (fresh_dc env) (offer env)
        (set_local env) (sdp_response env) (set_remote env).

(** The credential with another expiry. *)
Definition with_expiry (c : Server.Credential) (e : Z) : Server.Credential :=
  Server.mkCredential (Server.client_secret c) (Server.instructions c)
    (Server.sessionType c) (Server.userId c) (Server.scenarioId c) e.

(** *** Sample inputs *)

Module Samples.

Definition chat_props : VoiceChat.Props :=
  VoiceChat.mkProps "student@example.org" (Some "7") VoiceChat.ecos_simulation true true.

Definition cmd_props : VoiceCommand.Props :=
  VoiceCommand.mkProps "student@example.org" (Some "7") VoiceChat.ecos_simulation true.

(** A reply of the credential endpoint, as [response.json()] reads it. *)
Definition credential : json :=
  JObj [("client_secret", JStr "sk-test");
        ("instructions", JStr Server.ecos_instructions);
        ("sessionType", JStr "ecos_simulation");
        ("userId", JStr "student@example.org");
        ("scenarioId", JStr "7");
        ("expiresAt", JStr "2026-01-01T01:00:00.000Z")].

(** Every awaited operation succeeds; the microphone has one track. *)
Definition all_fine : Env :=
  mkEnv (Responded true "OK" (Ok credential))
        (Ok (mkStream [3%nat]))
        1%nat 2%nat
        (Ok "v=0 offer") (Ok tt)
        (Responded true "OK" (Ok "v=0 answer")) (Ok tt).

(** The credential is fetched, then [getUserMedia] rejects. *)
Definition no_microphone : Env :=
  mkEnv (Responded true "OK" (Ok credential))
        (Throw (mkExn "NotFoundError" "Requested device not found"))
        1%nat 2%nat
        (Ok "v=0 offer") (Ok tt)
        (Responded true "OK" (Ok "v=0 answer")) (Ok tt).

(** A finished remote transcript, as it arrives on the control channel. *)
Definition done_frame : string :=
  ("{" ++ JSONFragment.quoted "type" ++ ":"
       ++ JSONFragment.quoted "response.audio_transcript.done" ++ ","
       ++ JSONFragment.quoted "transcript" ++ ":"
       ++ JSONFragment.quoted "Je comprends vos symptômes." ++ "}")%string.

(** A finished transcription of the user's speech. *)
Definition user_frame : string :=
  ("{" ++ JSONFragment.quoted "type" ++ ":"
       ++ JSONFragment.quoted "conversation.item.input_audio_transcription.completed" ++ ","
       ++ JSONFragment.quoted "transcript" ++ ":"
       ++ JSONFragment.quoted "Bonjour" ++ "}")%string.

Definition typed_frame (type : string) : string :=
  ("{" ++ JSONFragment.quoted "type" ++ ":" ++ JSONFragment.quoted type ++ "}")%string.

End Samples.

(** *** Vocabulary of the further properties *)

(** [v.k], with [None] also where the read throws. *)
Definition prop (k : string) (v : json) : option json :=
  match get k v with
  | Ok r => r
  | Throw _ => None
  end.

(** The event types for which [handleRealtimeEvent] does something. *)
Definition active_event_types : list string :=
  ["response.audio_transcript.done";
   "conversation.item.input_audio_transcription.completed";
   "response.audio.delta";
   "input_audio_buffer.speech_started";
   "input_audio_buffer.speech_stopped";
   "error"].

(** Effects that only inform: console output and calls of the parent's
    callbacks. *)
Definition is_notification (e : Effect) : bool :=
  match e with
  | ConsoleLog _ | ConsoleError _ _ | Call_onStateChange _ | Call_onTranscript _ _ => true
  | _ => false
  end.

(** The transcript entry an event contributes, read off the wire format:
    a finished remote transcript or a finished user transcription whose
    [transcript] member is truthy gives one entry, stamped with the time of
    arrival and attributed to the user exactly for the latter type. *)
Definition appended_entry (now : Z) (event : json) : list VoiceChat.Entry :=
  match prop "transcript" event with
  | Some v =>
      if (is_str "response.audio_transcript.done" (prop "type" event)
          || is_str "conversation.item.input_audio_transcription.completed"
               (prop "type" event))
         && truthy v
      then [VoiceChat.mkEntry v
              (is_str "conversation.item.input_audio_transcription.completed"
                 (prop "type" event)) now]
      else []
  | None => []
  end.

(** Two states of [VoiceChat] that hold the same browser objects and the
    same mute flags. *)
Definition same_handles (c1 c2 : VoiceChat.Component) : Prop :=
  VoiceChat.peerConnectionRef c1 = VoiceChat.peerConnectionRef c2
  /\ VoiceChat.localStreamRef c1 = VoiceChat.localStreamRef c2
  /\ VoiceChat.audioOutputRef c1 = VoiceChat.audioOutputRef c2
  /\ VoiceChat.dataChannelRef c1 = VoiceChat.dataChannelRef c2
  /\ VoiceChat.isMuted c1 = VoiceChat.isMuted c2
  /\ VoiceChat.isOutputMuted c1 = VoiceChat.isOutputMuted c2.

(** The texts reported to the parent during a run. *)
Definition reports (t : list Effect) : list Effect := filter is_Call_onTranscript t.

Definition reports_truthy (e : Effect) : bool :=
  match e with
  | Call_onTranscript v _ => truthy v
  | _ => true
  end.

(** The message of the first step of [startVoiceChat] that fails, in the
    order of the steps: credential request, microphone, offer, local
    description.  [None] when every step succeeds. *)
Definition startVoiceChat_failure (env : Env) : option string :=
  match token_response env with
  | NetworkError e => Some (message e)
  | Responded false statusText _ => Some ("Failed to get RTC token: " ++ statusText)%string
  | Responded true _ (Throw e) => Some (message e)
  | Responded true _ (Ok _) =>
      match user_media env with
      | Throw e => Some ("Failed to access microphone: " ++ Exn_toString e)%string
      | Ok _ =>
          match offer env with
          | Throw e => Some (message e)
          | Ok _ =>
              match set_local env with
              | Throw e => Some (message e)
              | Ok _ => None
              end
          end
      end
  end.

Definition is_ok {A} (r : result A) : bool :=
  match r with
  | Ok _ => true
  | Throw _ => false
  end.

(** A reply with a success status whose body could be read. *)
Definition replied {B} (r : Response B) : option B :=
  match r with
  | Responded true _ (Ok b) => Some b
  | _ => None
  end.

(** Every step of [startVoice] succeeds: the credential is a JSON value
    other than [null], the microphone, the offer and the local description
    succeed, the remote endpoint answers, and the answer is accepted. *)
Definition startVoice_succeeds (env : Env) : bool :=
  match replied (token_response env), replied (sdp_response env) with
  | Some credential, Some _ =>
      match credential with
      | JNull => false
      | _ => is_ok (user_media env) && is_ok (offer env)
             && is_ok (set_local env) && is_ok (set_remote env)
      end
  | _, _ => false
  end.

Definition is_ConsoleError (e : Effect) : bool :=
  match e with
  | ConsoleError _ _ => true
  | _ => false
  end.

(** The browser objects a run created or attached. *)
Definition created_connections (t : list Effect) : list PeerConnection :=
  flat_map (fun e => match e with NewPeerConnection pc _ => [pc] | _ => [] end) t.

Definition created_channels (t : list Effect) : list DataChannel :=
  flat_map (fun e => match e with CreateDataChannel _ dc _ _ => [dc] | _ => [] end) t.

Definition added_tracks (t : list Effect) : list Track :=
  flat_map (fun e => match e with AddTrack _ tr => [tr] | _ => [] end) t.

(** A component that references no browser object. *)
Definition chat_holds_nothing (c : VoiceChat.Component) : Prop :=
  VoiceChat.peerConnectionRef c = None
  /\ VoiceChat.localStreamRef c = None
  /\ VoiceChat.audioOutputRef c = None.

Definition cmd_holds_nothing (c : VoiceCommand.Component) : Prop :=
  VoiceCommand.pcRef c = None
  /\ VoiceCommand.micStreamRef c = None
  /\ VoiceCommand.dcRef c = None.

(** The message shown for a remote error event: [event.error?.message]
    when it is truthy, and a fixed text otherwise. *)
Definition remote_error_message (event : json) : json :=
  match path ["error"; "message"] event with
  | Some m => if truthy m then m else JStr "Unknown error"
  | None => JStr "Unknown error"
  end.

(** What [VoiceCommand] reports for the event types that carry text: the
    member read, the speaker it is attributed to, and how many times the
    same text is reported. *)
Definition report_table : list (string * (string * (bool * nat))) :=
  [("response.text.delta", ("delta", (false, 1%nat)));
   ("response.output_text.delta", ("delta", (false, 1%nat)));
   ("response.text.done", ("text", (false, 1%nat)));
   ("response.output_text.done", ("text", (false, 1%nat)));
   ("response.audio_transcript.done", ("transcript", (false, 1%nat)));
   ("conversation.item.input_audio_transcription.completed",
    ("transcript", (true, 3%nat)))].

(** Successive admissions of one text by one speaker; each arrival is the
    generated identifier and the time of the report. *)
Definition admit_all (text : string) (isUser : bool) (arrivals : list (string * Z))
           (prev : list PatientSimulator.Message) : list PatientSimulator.Message :=
  fold_left (fun log a => PatientSimulator.onTranscript (fst a) (snd a) text isUser log)
            arrivals prev.

Definition speaker (isUser : bool) : PatientSimulator.Sender :=
  if isUser then PatientSimulator.user else PatientSimulator.bot.

(** The text of the bot message that closes an exchange: the reply's text,
    or [None] when the request fails, the status is not a success, the body
    cannot be read or is [null]. *)
Definition reply_text (as_content : json -> string) (reply : Response json) : option string :=
  match replied reply with
  | Some data =>
      match PatientSession.response_content as_content data with
      | Ok text => Some text
      | Throw _ => None
      end
  | None => None
  end.

(** What holds of the simulator at every moment: the progress is a
    percentage, at most one exchange is under way (a request in flight or a
    reply waiting for its timer) and exactly then the form is loading, the
    log still starts with the welcome message, and no time is left to count
    down while the scenario request is pending. *)
Definition simulator_invariant {Number} (w : PatientSession.World Number) : Prop :=
  0 <= PatientSession.progress (PatientSession.state w) <= 100
  /\ (PatientSession.in_flight w + List.length (PatientSession.timers w))%nat
     = (if PatientSession.isLoading (PatientSession.state w) then 1%nat else 0%nat)
  /\ (exists welcome rest,
         PatientSession.messages (PatientSession.state w) = welcome :: rest
         /\ PatientSimulator.id welcome = "welcome")
  /\ (if PatientSession.scenario_pending w
      then PatientSession.timeRemaining (PatientSession.state w) = None
      else True).

(** Reading a decimal numeral back. *)
Definition Number_parse (s : string) : option Z :=
  option_map Z.of_int (DecimalString.NilZero.int_of_string s).

(** What the countdown uses of the arithmetic of doubles: on the whole
    numbers from 1 to 2^53, which doubles hold exactly, subtracting one is
    exact and the comparisons with one and with zero are those of the whole
    numbers. *)
Definition counts_exactly {Number} (Number_of_Z : Z -> Number)
           (Number_sub : Number -> Number -> Number)
           (Number_le Number_lt : Number -> Number -> bool) : Prop :=
  forall n,
    1 <= n <= 2 ^ 53 ->
    Number_sub (Number_of_Z n) (Number_of_Z 1) = Number_of_Z (n - 1)
    /\ Number_le (Number_of_Z n) (Number_of_Z 1) = (n <=? 1)
    /\ Number_lt (Number_of_Z 0) (Number_of_Z n) = true.

(** What the time display uses of the arithmetic of doubles: on the whole
    numbers from 0 to 2^53, the floor of the quotient by sixty and the
    remainder by sixty are those of the whole numbers, and the conversion
    to a string gives the decimal numeral. *)
Definition divides_exactly {Number} (Number_of_Z : Z -> Number)
           (Number_div Number_rem : Number -> Number -> Number)
           (Math_floor : Number -> Number) (toString : Number -> string) : Prop :=
  forall a,
    0 <= a <= 2 ^ 53 ->
    Math_floor (Number_div (Number_of_Z a) (Number_of_Z 60)) = Number_of_Z (a / 60)
    /\ Number_rem (Number_of_Z a) (Number_of_Z 60) = Number_of_Z (a mod 60)
    /\ toString (Number_of_Z a) = PatientSession.Number_toString a.

(** *** Vocabulary of the properties of a start with a stop meanwhile *)



(** A start that creates no peer connection, no channel and no offer. *)
Definition no_transport (t : list Effect) : Prop :=
  existsb is_NewPeerConnection t = false /\ channels t = [] /\ offers t = [].
(** *** Vocabulary of the server-side properties *)

Definition is_completion (c : Backend.Call) : bool :=
  match c with
  | Backend.ChatCompletionsCreate _ => true
  | _ => false
  end.

(** The completion requests among the calls made. *)
Definition completions (calls : list Backend.Call) : list Backend.Call :=
  filter is_completion calls.

(** The request of the patient service: the model, the sampling
    temperature and the length bound it names, and two messages, the
    second one the student's message. *)
Definition patient_request (userMessage : json) (c : Backend.Call) : Prop :=
  match c with
  | Backend.ChatCompletionsCreate r =>
      Backend.model r = "gpt-4o"
      /\ Backend.temperature r = 7 # 10
      /\ Backend.max_tokens r = 300
      /\ exists prompt, Backend.messages r = [("system", JStr prompt); ("user", userMessage)]
  | _ => False
  end.

(** The search in the default index. *)
Definition is_default_search (c : Backend.Call) : bool :=
  match c with
  | Backend.SearchRelevantContent _ _ => true
  | _ => false
  end.

(** The database did not serve the registration: the selection failed, or
    it found nobody and the insertion failed. *)
Definition database_failed (selected : result (list string)) (inserted : result unit) : bool :=
  match selected, inserted with
  | Throw _, _ => true
  | Ok [], Throw _ => true
  | _, _ => false
  end.

(** A request that was turned away: no service was called, and the
    status of the reply is not 200. *)
Definition refused (out : list Backend.Call * Routes.Reply) : bool :=
  match fst out with
  | [] => negb (Routes.status (snd out) =? 200)%nat
  | _ => false
  end.

(** The session after one more exchange was pushed on its messages. *)
Definition pushed (session : Routes.Session) (userMessage : json) (reply : option json)
           (user_time assistant_time : Z) : Routes.Session :=
  Routes.mkSession (Routes.id session) (Routes.email session) (Routes.scenarioId session)
    (Routes.session_status session) (Routes.startTime session)
    (Routes.session_messages session
     ++ [Routes.mkChatMessage "user" (Some userMessage) user_time;
         Routes.mkChatMessage "assistant" reply assistant_time]).

(** The messages of a session go by pairs: a user message with a truthy
    content, then the assistant's. *)
Fixpoint alternating (l : list Routes.ChatMessage) : bool :=
  match l with
  | [] => true
  | u :: a :: rest =>
      String.eqb (Routes.role u) "user" && truthy_opt (Routes.content u)
      && String.eqb (Routes.role a) "assistant" && alternating rest
  | _ => false
  end.

(** The requests that touch the session store. *)
Inductive Request : Type :=
| CreateSession (body : json) (now started : Z)
| Chat (body : json) (env : Routes.ChatEnv).

Section ServerRuns.

Variable is_email : string -> bool.
Variable StringToNumber : string -> option Q.
Variable ToString_other : json -> string.
Variable toISOString : Z -> string.
Variable zod_issues : json -> json.
Variable development : bool.

Definition serve (ecosSessions : Routes.Store) (r : Request) : Routes.Store :=
  match r with
  | CreateSession body now started =>
      fst (Routes.create_session is_email toISOString zod_issues body now started
                                 ecosSessions)
  | Chat body env =>
      fst (fst (Routes.chat StringToNumber ToString_other toISOString development
                            body env ecosSessions))
  end.

(** The store after a sequence of requests to a server that starts with
    no session. *)
Definition serve_all (requests : list Request) : Routes.Store :=
  fold_left serve requests [].

(** What holds of every stored session: it is stored under its own
    identifier, no identifier is stored twice, its email and scenario
    passed the validation, it is in progress, and its messages go by
    pairs. *)
Definition store_invariant (ecosSessions : Routes.Store) : Prop :=
  NoDup (map fst ecosSessions)
  /\ Forall (fun entry =>
               Routes.id (snd entry) = fst entry
               /\ is_email (Routes.email (snd entry)) = true
               /\ 0 < Routes.scenarioId (snd entry)
               /\ Routes.session_status (snd entry) = "in_progress"
               /\ alternating (Routes.session_messages (snd entry)) = true)
            ecosSessions.

End ServerRuns.

(** [typeof v === 'string'] for a value that may be [undefined]. *)
Definition is_str_value (v : option json) : bool :=
  match v with
  | Some (JStr _) => true
  | _ => false
  end.


(** The chat route's calls, in order: the scenario store, then the vector
    index of the scenario, then one completion; a prefix of these when it
    stops early. *)
Definition chat_calls (calls : list Backend.Call) : Prop :=
  calls = []
  \/ calls = [Backend.GetAvailableScenarios]
  \/ exists query index,
      truthy index = true
      /\ (calls = [Backend.GetAvailableScenarios; Backend.QueryVectors query index 3]
          \/ exists request,
              calls = [Backend.GetAvailableScenarios; Backend.QueryVectors query index 3;
                       Backend.ChatCompletionsCreate request]).

(** *** Vocabulary of the properties across the endpoint and the components *)

(** What [response.json()] reads from the credential endpoint's reply
    with status 200; [None] for another status. *)
Definition served_credential (OPENAI_API_KEY : option string) (now : Z) (iso : Z -> string)
           (request : json) : option json :=
  match Server.rtc_token OPENAI_API_KEY now request with
  | Server.Status200 c => Some (Server.Credential_json iso c)
  | _ => None
  end.

Definition instructions_for (t : VoiceChat.SessionType) : string :=
  match t with
  | VoiceChat.ecos_simulation => Server.ecos_instructions
  | VoiceChat.chat => Server.chat_instructions
  end.

(** The bearer of every posted offer is [key], and every open handler
    installed holds [instructions]. *)
Definition carries (key instructions : string) (e : Effect) : Prop :=
  match e with
  | PostOffer _ bearer _ => bearer = Some (JStr key)
  | Listen _ (VoiceCommand_onopen i) => i = Some (JStr instructions)
  | _ => True
  end.

(** * Properties *)

(** ** Transcript admission (PatientSimulator) *)

Section Admission.

Import PatientSimulator.

Lemma Sender_eqb_eq (a b : Sender) : Sender_eqb a b = true <-> a = b.
Proof. destruct a, b; simpl; split; congruence. Qed.

Lemma matches_spec text message msg :
  matches text message msg = true <->
  content msg = text /\ sender msg = sender message
  /\ Z.abs (timestamp msg - timestamp message) < 2000.
Proof.
  unfold matches.
  rewrite !andb_true_iff, String.eqb_eq, Sender_eqb_eq, Z.ltb_lt.
  tauto.
Qed.

Lemma isDuplicate_spec prev text message :
  isDuplicate prev text message = true <->
  exists msg, In msg prev /\ content msg = text /\ sender msg = sender message
              /\ Z.abs (timestamp msg - timestamp message) < 2000.
Proof.
  unfold isDuplicate. rewrite existsb_exists.
  split; intros [msg [Hin H]]; exists msg; split; auto; now apply matches_spec.
Qed.

End Admission.

Section AdmissionRule.

Import PatientSimulator.

Lemma snoc_neq {A} (l : list A) (x : A) : l ++ [x] <> l.
Proof.
  intros H. apply (f_equal (@List.length A)) in H.
  rewrite length_app in H. simpl in H. lia.
Qed.

(** Two admissions of the same text by the same speaker, [d] ms apart,
    into a log that holds no entry with that text and speaker. *)
Lemma admit_twice (prev : list Message) (id1 id2 : string) (t d : Z)
      (text : string) (isUser : bool) :
  (forall msg, In msg prev ->
     ~ (content msg = text /\ sender msg = (if isUser then user else bot))) ->
  0 <= d ->
  onTranscript id2 (t + d) text isUser (onTranscript id1 t text isUser prev) =
  if d <? 2000
  then prev ++ [mkMessage id1 text (if isUser then user else bot) t]
  else prev ++ [mkMessage id1 text (if isUser then user else bot) t;
                mkMessage id2 text (if isUser then user else bot) (t + d)].
Proof.
  intros Hfresh Hd.
  set (who := if isUser then user else bot) in *.
  assert (Hnone : forall now id,
             isDuplicate prev text (mkMessage id text who now) = false).
  { intros now id. destruct (isDuplicate _ _ _) eqn:E; auto.
    apply isDuplicate_spec in E. destruct E as [msg [Hin [Hc [Hs _]]]].
    exfalso. apply (Hfresh msg Hin). simpl in Hs. auto. }
  unfold onTranscript at 2. fold who. rewrite Hnone.
  unfold onTranscript. fold who.
  unfold isDuplicate. rewrite existsb_app. fold (isDuplicate prev text (mkMessage id2 text who (t + d))).
  rewrite Hnone. simpl.
  unfold matches. simpl.
  rewrite String.eqb_refl.
  replace (Sender_eqb who who) with true by (destruct who; reflexivity).
  simpl. rewrite orb_false_r.
  replace (Z.abs (t - (t + d))) with d by lia.
  destruct (d <? 2000); auto.
  rewrite <- app_assoc. reflexivity.
Qed.

(** C4. The admission rule of the conversation log discards a candidate
    exactly when an entry already in the log has the same text, the same
    speaker and a timestamp less than 2000 ms away; otherwise the candidate
    is appended.  In particular ("Bonjour", user, t) then ("Bonjour", user,
    t+500) leaves one entry, and ("Bonjour", user, t) then ("Bonjour",
    user, t+5000) leaves two. *)
Theorem dedup_rule :
  forall (prev : list Message) (fresh_id : string) (now : Z)
         (text : string) (isUser : bool),
    let message := mkMessage fresh_id text (if isUser then user else bot) now in
    let duplicate :=
      exists msg, In msg prev /\ content msg = text
                  /\ sender msg = (if isUser then user else bot)
                  /\ Z.abs (timestamp msg - now) < 2000 in
    (onTranscript fresh_id now text isUser prev = prev <-> duplicate)
    /\ (onTranscript fresh_id now text isUser prev = prev ++ [message] <-> ~ duplicate)
    /\ (forall t id1 id2,
          onTranscript id2 (t + 500) "Bonjour" true (onTranscript id1 t "Bonjour" true [])
          = [mkMessage id1 "Bonjour" user t])
    /\ (forall t id1 id2,
          onTranscript id2 (t + 5000) "Bonjour" true (onTranscript id1 t "Bonjour" true [])
          = [mkMessage id1 "Bonjour" user t; mkMessage id2 "Bonjour" user (t + 5000)]).
Proof.
  intros prev fresh_id now text isUser message duplicate.
  assert (Hdup : isDuplicate prev text message = true <-> duplicate)
    by apply isDuplicate_spec.
  split; [| split; [| split]].
  - unfold onTranscript. fold message.
    destruct (isDuplicate prev text message) eqn:E.
    + tauto.
    + split.
      * intros Heq. exfalso. now apply snoc_neq in Heq.
      * intros D. apply Hdup in D. discriminate.
  - unfold onTranscript. fold message.
    destruct (isDuplicate prev text message) eqn:E.
    + split.
      * intros Heq. exfalso. symmetry in Heq. now apply snoc_neq in Heq.
      * intros N. exfalso. apply N, Hdup. reflexivity.
    + split; auto.
      intros _ D. apply Hdup in D. discriminate.
  - intros t id1 id2.
    rewrite (admit_twice [] id1 id2 t 500 "Bonjour" true); simpl; auto; lia.
  - intros t id1 id2.
    rewrite (admit_twice [] id1 id2 t 5000 "Bonjour" true); simpl; auto; lia.
Qed.

End AdmissionRule.

(** ** Event dispatch (VoiceChat) *)

Section Dispatch.

Import VoiceChat.

Lemma updateState_run props newState c :
  updateState props newState c =
  (setState newState c,
   if onStateChange props
   then [Call_onStateChange (VoiceChatState_str newState)] else [],
   Ok tt).
Proof.
  unfold updateState, bind, modify, when, emit, ret.
  destruct (onStateChange props); reflexivity.
Qed.

(** C9. The dispatcher sets the session state from the event type alone:
    whatever the current state (idle, connecting and error included), an
    event of type input_audio_buffer.speech_started yields listening, one
    of type input_audio_buffer.speech_stopped yields connected, and one of
    type response.audio.delta yields speaking; nothing else in the
    component changes and the handler does not throw. *)
Theorem dispatch_ignores_current_state :
  forall (props : Props) (now : Z) (c : Component) (event : json)
         (type : string) (target : VoiceChatState),
    In (type, target) unconditional_transitions ->
    get "type" event = Ok (Some (JStr type)) ->
    let out := handleRealtimeEvent props now event c in
    state (final out) = target
    /\ final out = setState target c
    /\ outcome out = Ok tt.
Proof.
  intros props now c event type target Hin Hty out.
  assert (Hout : out = (setState target c,
                        if onStateChange props
                        then [Call_onStateChange (VoiceChatState_str target)] else [],
                        Ok tt)).
  { subst out. unfold handleRealtimeEvent, bind at 1, await. rewrite Hty.
    simpl in Hin.
    destruct Hin as [E | [E | [E | []]]]; inversion E; subst; simpl;
      rewrite updateState_run; reflexivity. }
  rewrite Hout. unfold final, outcome. simpl. auto.
Qed.

Lemma dispatch_ignores_current_state_witness :
  state (final (handleRealtimeEvent (mkProps "u1" None chat true true) 0
                  (JObj [("type", JStr "input_audio_buffer.speech_started")])
                  (setState error initial))) = listening.
Proof.
  apply (dispatch_ignores_current_state (mkProps "u1" None chat true true) 0
           (setState error initial)
           (JObj [("type", JStr "input_audio_buffer.speech_started")])
           "input_audio_buffer.speech_started" listening).
  - simpl. left. reflexivity.
  - reflexivity.
Defined.

End Dispatch.

Section ParserExamples.

Import JSONFragment.

Example parse_error_frame :
  JSON_parse error_frame =
  Some (JObj [("type", JStr "error"); ("error", JObj [("message", JStr "boom")])]).
Proof. vm_compute. reflexivity. Qed.

Example parse_truncated_frame : JSON_parse truncated_frame = None.
Proof. vm_compute. reflexivity. Qed.

Example parse_number : JSON_parse "[0.5, -12, true, null]" =
  Some (JArr [JNum (5 # 10); JNum (-12); JBool true; JNull]).
Proof. vm_compute. reflexivity. Qed.

End ParserExamples.

(** ** Malformed frames *)

Section MalformedFrames.

Variable JSON_parse : string -> option json.

(** C5. A control-channel frame that [JSON.parse] rejects is logged and
    dropped, in both components: the handler returns normally, the
    component (session state, transcript log, refs) is what it was, and the
    only effect is one [console.error]; in particular the channel is not
    closed and no transcript is reported to the parent. *)
Theorem malformed_frame_discarded :
  forall (data : string) (now : Z)
         (chat_props : VoiceChat.Props) (chat : VoiceChat.Component)
         (cmd_props : VoiceCommand.Props) (cmd : VoiceCommand.Component),
    JSON_parse data = None ->
    let out1 := VoiceChat.dataChannel_onmessage chat_props JSON_parse now data chat in
    let out2 := VoiceCommand.dc_onmessage cmd_props JSON_parse data cmd in
    (final out1 = chat
     /\ VoiceChat.state (final out1) = VoiceChat.state chat
     /\ VoiceChat.transcript (final out1) = VoiceChat.transcript chat
     /\ outcome out1 = Ok tt
     /\ (exists text e, trace out1 = [ConsoleError text e])
     /\ existsb is_ChannelClose (trace out1) = false)
    /\ (final out2 = cmd
        /\ VoiceCommand.status (final out2) = VoiceCommand.status cmd
        /\ outcome out2 = Ok tt
        /\ (exists text e, trace out2 = [ConsoleError text e])
        /\ existsb is_ChannelClose (trace out2) = false
        /\ existsb is_Call_onTranscript (trace out2) = false).
Proof.
  intros data now chat_props chat cmd_props cmd Hparse out1 out2.
  subst out1 out2.
  unfold VoiceChat.dataChannel_onmessage, VoiceCommand.dc_onmessage.
  rewrite Hparse.
  unfold try_catch, throw, emit, final, outcome, trace. simpl.
  repeat split; eauto.
Qed.

End MalformedFrames.

Lemma malformed_frame_discarded_witness :
  JSONFragment.JSON_parse JSONFragment.truncated_frame = None
  /\ final (VoiceChat.dataChannel_onmessage
              (VoiceChat.mkProps "u1" None VoiceChat.chat true true)
              JSONFragment.JSON_parse 0 JSONFragment.truncated_frame
              (VoiceChat.setState VoiceChat.listening VoiceChat.initial))
     = VoiceChat.setState VoiceChat.listening VoiceChat.initial.
Proof.
  split.
  - vm_compute. reflexivity.
  - apply (malformed_frame_discarded JSONFragment.JSON_parse
             JSONFragment.truncated_frame 0
             (VoiceChat.mkProps "u1" None VoiceChat.chat true true)
             (VoiceChat.setState VoiceChat.listening VoiceChat.initial)
             (VoiceCommand.mkProps "u1" None VoiceChat.chat true)
             VoiceCommand.initial).
    vm_compute. reflexivity.
Defined.

(** ** Stopping a session *)

Section Stop.


Lemma forEach_emit {S B} (f : B -> Effect) (l : list B) (s : S) :
  forEach (fun x => emit (f x)) l s = (s, map f l, Ok tt).
Proof.
  induction l as [| x l IH]; simpl.
  - reflexivity.
  - unfold bind.
    change (emit (f x) s) with (s, [f x], @Ok unit tt).
    cbv iota. rewrite IH. reflexivity.
Qed.

Lemma stopVoiceChat_run (props : VoiceChat.Props) (c : VoiceChat.Component) :
  VoiceChat.stopVoiceChat props c =
  (VoiceChat.mkComponent VoiceChat.idle (VoiceChat.isMuted c)
     (VoiceChat.isOutputMuted c) (VoiceChat.transcript c) (VoiceChat.errorState c)
     None None None (VoiceChat.dataChannelRef c),
   on_ref ConnectionClose (VoiceChat.peerConnectionRef c)
   ++ map TrackStop (tracks_of (VoiceChat.localStreamRef c))
   ++ on_ref AudioPause (VoiceChat.audioOutputRef c)
   ++ (if VoiceChat.onStateChange props then [Call_onStateChange "idle"] else []),
   Ok tt).
Proof.
  destruct c as [st m om tr er pc ls au dc].
  unfold VoiceChat.stopVoiceChat, VoiceChat.updateState.
  destruct pc as [pc |], ls as [ls |], au as [au |],
    (VoiceChat.onStateChange props);
    unfold bind, read, modify, ret, when; simpl;
    rewrite ?forEach_emit; simpl; rewrite ?app_nil_r; reflexivity.
Qed.

Lemma stopVoice_run (c : VoiceCommand.Component) :
  VoiceCommand.stopVoice c =
  (VoiceCommand.mkComponent false "idle" None None None,
   on_ref ChannelClose (VoiceCommand.dcRef c)
   ++ on_ref ConnectionClose (VoiceCommand.pcRef c)
   ++ map TrackStop (tracks_of (VoiceCommand.micStreamRef c)),
   Ok tt).
Proof.
  destruct c as [act st pc ms dc].
  unfold VoiceCommand.stopVoice.
  destruct pc as [pc |], ms as [ms |], dc as [dc |];
    unfold bind, read, modify, ret; simpl;
    rewrite ?forEach_emit; simpl; rewrite ?app_nil_r; reflexivity.
Qed.

End Stop.

Section StopProperties.

Lemma releases_app (t1 t2 : list Effect) :
  releases (t1 ++ t2) = releases t1 ++ releases t2.
Proof. apply filter_app. Qed.

Lemma releases_TrackStop (ts : list Track) :
  releases (map TrackStop ts) = map TrackStop ts.
Proof.
  unfold releases.
  induction ts as [| t ts IH]; simpl; [reflexivity |].
  rewrite IH. reflexivity.
Qed.

Lemma releases_on_ref {A} (f : A -> Effect) (r : option A) :
  (forall a, is_release (f a) = true) ->
  releases (on_ref f r) = on_ref f r.
Proof.
  intros Hf. unfold releases. destruct r as [a |]; simpl; [| reflexivity].
  rewrite Hf. reflexivity.
Qed.

Lemma releases_stopVoiceChat (props : VoiceChat.Props) (c : VoiceChat.Component) :
  releases (trace (VoiceChat.stopVoiceChat props c)) =
  on_ref ConnectionClose (VoiceChat.peerConnectionRef c)
  ++ map TrackStop (tracks_of (VoiceChat.localStreamRef c))
  ++ on_ref AudioPause (VoiceChat.audioOutputRef c).
Proof.
  rewrite stopVoiceChat_run. unfold trace. simpl.
  rewrite !releases_app, releases_TrackStop.
  rewrite !releases_on_ref by reflexivity.
  destruct (VoiceChat.onStateChange props); simpl; rewrite app_nil_r; reflexivity.
Qed.

Lemma releases_stopVoice (c : VoiceCommand.Component) :
  releases (trace (VoiceCommand.stopVoice c)) =
  on_ref ChannelClose (VoiceCommand.dcRef c)
  ++ on_ref ConnectionClose (VoiceCommand.pcRef c)
  ++ map TrackStop (tracks_of (VoiceCommand.micStreamRef c)).
Proof.
  rewrite stopVoice_run. unfold trace. simpl.
  rewrite !releases_app, releases_TrackStop.
  rewrite !releases_on_ref by reflexivity.
  reflexivity.
Qed.

Lemma bind_ext {S A B} (m : M S A) (k1 k2 : A -> M S B) (s : S) :
  (forall a s', k1 a s' = k2 a s') -> bind m k1 s = bind m k2 s.
Proof.
  intros H. unfold bind. destruct (m s) as [[s1 t1] [a | e]]; [| reflexivity].
  now rewrite H.
Qed.

Lemma meanwhile_nothing {S A} (k : unit -> M S A) (s : S) :
  bind (meanwhile (fun c => (c, []))) k s = k tt s.
Proof.
  unfold bind, meanwhile. destruct (k tt s) as [[s2 t2] r]. reflexivity.
Qed.

(** The start with nothing happening meanwhile is the start. *)
Lemma startVoiceChat_while_nothing (props : VoiceChat.Props) (env : Env)
      (c : VoiceChat.Component) :
  VoiceChat.startVoiceChat_while props (fun c' => (c', [])) env c
  = VoiceChat.startVoiceChat props env c.
Proof.
  unfold VoiceChat.startVoiceChat_while, VoiceChat.startVoiceChat, try_catch.
  match goal with
  | |- match ?a with _ => _ end = match ?b with _ => _ end =>
      assert (a = b) as E; [| rewrite E; reflexivity]
  end.
  apply bind_ext. intros _ s1. apply bind_ext. intros _ s2.
  unfold bind at 1 3.
  assert (VoiceChat.getRTCToken_while props (fun c' => (c', [])) env s2
          = VoiceChat.getRTCToken props env s2) as ->; [| reflexivity].
  unfold VoiceChat.getRTCToken_while, VoiceChat.getRTCToken.
  apply bind_ext. intros _ s3. apply meanwhile_nothing.
Qed.

Lemma startVoice_while_nothing (props : VoiceCommand.Props) (env : Env)
      (c : VoiceCommand.Component) :
  VoiceCommand.startVoice_while props (fun c' => (c', [])) env c
  = VoiceCommand.startVoice props env c.
Proof.
  unfold VoiceCommand.startVoice_while, VoiceCommand.startVoice, try_catch.
  match goal with
  | |- match ?a with _ => _ end = match ?b with _ => _ end =>
      assert (a = b) as E; [| rewrite E; reflexivity]
  end.
  apply bind_ext. intros _ s1. apply bind_ext. intros _ s2.
  apply meanwhile_nothing.
Qed.










Lemma NoDup_TrackStop (ts : list Track) : NoDup ts -> NoDup (map TrackStop ts).
Proof.
  induction 1 as [| t ts Hnot _ IH]; simpl; constructor; auto.
  rewrite in_map_iff. intros [t' [E Hin]]. inversion E; subst. contradiction.
Qed.

Lemma NoDup_on_ref {A} (f : A -> Effect) (r : option A) : NoDup (on_ref f r).
Proof.
  destruct r; simpl; repeat constructor. intros [].
Qed.

Lemma NoDup_release_sequence (dc pc : option nat) (ts : list Track) (a : option nat) :
  NoDup ts ->
  NoDup (on_ref ChannelClose dc ++ on_ref ConnectionClose pc
         ++ map TrackStop ts ++ on_ref AudioPause a).
Proof.
  intros Hts.
  repeat apply NoDup_app;
    try apply NoDup_on_ref; try (apply NoDup_TrackStop; assumption).
  - intros e Hin. rewrite in_map_iff in Hin. destruct Hin as [t [E _]]. subst e.
    destruct a; simpl; intuition discriminate.
  - intros e Hin Hin'.
    destruct pc; simpl in Hin; [| contradiction].
    destruct Hin as [E | []]. subst e.
    rewrite in_app_iff, in_map_iff in Hin'.
    destruct Hin' as [[t [E _]] | Hin']; [discriminate |].
    destruct a; simpl in Hin'; intuition discriminate.
  - intros e Hin Hin'.
    destruct dc; simpl in Hin; [| contradiction].
    destruct Hin as [E | []]. subst e.
    rewrite !in_app_iff, in_map_iff in Hin'.
    destruct Hin' as [Hin' | [[t [E _]] | Hin']]; [| discriminate |].
    + destruct pc; simpl in Hin'; intuition discriminate.
    + destruct a; simpl in Hin'; intuition discriminate.
Qed.

(** C6. Stopping is idempotent in both components.  From any state, two
    stops in succession both return normally and leave the session idle;
    the second stop changes nothing and releases nothing, so over the two
    calls no resource is closed, stopped or paused twice (the tracks of a
    stream being distinct). *)
Theorem stop_idempotent :
  forall (chat_props : VoiceChat.Props) (chat : VoiceChat.Component)
         (cmd : VoiceCommand.Component),
    NoDup (tracks_of (VoiceChat.localStreamRef chat)) ->
    NoDup (tracks_of (VoiceCommand.micStreamRef cmd)) ->
    let a1 := VoiceChat.stopVoiceChat chat_props chat in
    let a2 := VoiceChat.stopVoiceChat chat_props (final a1) in
    let b1 := VoiceCommand.stopVoice cmd in
    let b2 := VoiceCommand.stopVoice (final b1) in
    (outcome a1 = Ok tt /\ outcome a2 = Ok tt
     /\ VoiceChat.state (final a2) = VoiceChat.idle
     /\ final a2 = final a1
     /\ releases (trace a2) = []
     /\ NoDup (releases (trace a1 ++ trace a2)))
    /\ (outcome b1 = Ok tt /\ outcome b2 = Ok tt
        /\ VoiceCommand.status (final b2) = "idle"
        /\ final b2 = final b1
        /\ trace b2 = []
        /\ NoDup (releases (trace b1 ++ trace b2))).
Proof.
  intros chat_props chat cmd Hchat Hcmd a1 a2 b1 b2.
  split.
  - assert (Hrel2 : releases (trace a2) = []).
    { subst a2. rewrite releases_stopVoiceChat.
      subst a1. rewrite stopVoiceChat_run. reflexivity. }
    repeat split.
    + subst a1. rewrite stopVoiceChat_run. reflexivity.
    + subst a2. rewrite stopVoiceChat_run. reflexivity.
    + subst a2. rewrite stopVoiceChat_run. reflexivity.
    + subst a2 a1. rewrite !stopVoiceChat_run. reflexivity.
    + exact Hrel2.
    + rewrite releases_app, Hrel2, app_nil_r.
      subst a1. rewrite releases_stopVoiceChat.
      apply (NoDup_release_sequence None); assumption.
  - assert (Htr2 : trace b2 = []).
    { subst b2 b1. rewrite !stopVoice_run. reflexivity. }
    repeat split.
    + subst b1. rewrite stopVoice_run. reflexivity.
    + subst b2. rewrite stopVoice_run. reflexivity.
    + subst b2. rewrite stopVoice_run. reflexivity.
    + subst b2 b1. rewrite !stopVoice_run. reflexivity.
    + exact Htr2.
    + rewrite Htr2, app_nil_r.
      subst b1. rewrite releases_stopVoice.
      pose proof (NoDup_release_sequence (VoiceCommand.dcRef cmd)
                    (VoiceCommand.pcRef cmd) _ None Hcmd) as H.
      simpl in H. rewrite app_nil_r in H. exact H.
Qed.

Lemma stop_idempotent_witness :
  let props := VoiceChat.mkProps "u1" None VoiceChat.chat true true in
  let chat :=
    VoiceChat.mkComponent VoiceChat.speaking false false [] None
      (Some 1%nat) (Some (mkStream [3%nat; 5%nat])) (Some 4%nat) (Some 2%nat) in
  NoDup [3%nat; 5%nat]
  /\ final (VoiceChat.stopVoiceChat props (final (VoiceChat.stopVoiceChat props chat)))
     = final (VoiceChat.stopVoiceChat props chat).
Proof.
  cbv zeta.
  assert (H : NoDup [3%nat; 5%nat]).
  { repeat constructor; simpl; intuition discriminate. }
  split; [exact H |].
  apply (stop_idempotent (VoiceChat.mkProps "u1" None VoiceChat.chat true true)
           (VoiceChat.mkComponent VoiceChat.speaking false false [] None
              (Some 1%nat) (Some (mkStream [3%nat; 5%nat])) (Some 4%nat) (Some 2%nat))
           (VoiceCommand.mkComponent true "connected"
              (Some 1%nat) (Some (mkStream [3%nat; 5%nat])) (Some 2%nat))).
  - exact H.
  - exact H.
Defined.

End StopProperties.

(** ** Starting a session *)

Section StartVoiceChat.

Import VoiceChat.

(** C1, as the code has it.  When the credential has been fetched and
    acquiring the microphone fails with [e], [initializeAudio] raises
    "Failed to access microphone: e" and [startVoiceChat] catches it: the
    start operation returns normally, the session state is error (not
    idle), the message is stored in the error cell, and no peer connection
    and no data channel are created. *)
Theorem start_without_microphone :
  forall (props : Props) (env : Env) (c : Component)
         (statusText : string) (token : json) (e : Exn),
    token_response env = Responded true statusText (Ok token) ->
    user_media env = Throw e ->
    let out := startVoiceChat props env c in
    outcome (initializeAudio env c)
    = Throw (Error ("Failed to access microphone: " ++ Exn_toString e)%string)
    /\ outcome out = Ok tt
    /\ state (final out) = error
    /\ errorState (final out)
       = Some (JStr ("Failed to access microphone: " ++ Exn_toString e)%string)
    /\ peerConnectionRef (final out) = peerConnectionRef c
    /\ dataChannelRef (final out) = dataChannelRef c
    /\ localStreamRef (final out) = localStreamRef c
    /\ existsb is_NewPeerConnection (trace out) = false
    /\ existsb is_CreateDataChannel (trace out) = false.
Proof.
  intros props env c statusText token e Htoken Hmedia out.
  subst out.
  unfold startVoiceChat, initializeAudio, getRTCToken, createPeerConnection,
    updateState, await_fetch.
  rewrite Htoken, Hmedia.
  destruct (onStateChange props);
    unfold try_catch, bind, when, await, throw, modify, emit, ret,
      outcome, final, trace; simpl; repeat split; reflexivity.
Qed.

End StartVoiceChat.

Section StartVoiceChatExamples.

Import VoiceChat.

Lemma start_without_microphone_witness :
  let out := startVoiceChat Samples.chat_props Samples.no_microphone initial in
  state (final out) = error
  /\ existsb is_NewPeerConnection (trace out) = false.
Proof.
  cbv zeta.
  pose proof (start_without_microphone Samples.chat_props Samples.no_microphone
                initial "OK" Samples.credential
                (mkExn "NotFoundError" "Requested device not found")
                eq_refl eq_refl) as H.
  cbv zeta in H. tauto.
Defined.

(** C1 as stated fails: with the credential fetched and no microphone,
    the start operation returns normally instead of raising, and the
    session state it leaves is error, not idle. *)
Lemma start_without_microphone_counterexample :
  let out := startVoiceChat Samples.chat_props Samples.no_microphone initial in
  outcome out = Ok tt
  /\ state (final out) = error
  /\ state (final out) <> idle.
Proof.
  cbv zeta. repeat split.
  vm_compute. discriminate.
Qed.

(** C8 at the failing input.  When every step of [startVoiceChat]
    succeeds, the session is reported connected although the offer was
    never sent to the remote endpoint and no remote description was
    applied: the offer is only logged. *)
Theorem startVoiceChat_connected_without_exchange :
  forall (props : Props) (c : Component) (statusText : string) (token : json)
         (stream : MediaStream) (pc : PeerConnection) (dc : DataChannel)
         (sdp : string) (sdp_response : Response string) (set_remote : result unit),
    let env := mkEnv (Responded true statusText (Ok token)) (Ok stream) pc dc
                     (Ok sdp) (Ok tt) sdp_response set_remote in
    let out := startVoiceChat props env c in
    outcome out = Ok tt
    /\ state (final out) = connected
    /\ existsb is_exchange (trace out) = false
    /\ In (SetLocalDescription pc sdp) (trace out)
    /\ In (ConsoleLog ("SDP Offer: " ++ sdp)%string) (trace out).
Proof.
  intros props c statusText token stream pc dc sdp sdp_response set_remote env out.
  subst out env.
  unfold startVoiceChat, initializeAudio, getRTCToken, createPeerConnection,
    updateState, await_fetch.
  destruct (onStateChange props);
    unfold try_catch, bind, when, await, throw, modify, ret; simpl;
    rewrite forEach_emit; simpl;
    unfold outcome, final, trace; simpl;
    rewrite ?existsb_app; simpl.
  all: repeat split.
  all: try (induction (getTracks stream); simpl; auto; fail).
  all: rewrite ?in_app_iff; simpl; intuition.
Qed.

End StartVoiceChatExamples.

(** ** The control channel and the offer *)

Section ChannelBeforeOffer.

Lemma filter_AddTrack (f : Effect -> bool) (pc : PeerConnection) (ts : list Track) :
  (forall t, f (AddTrack pc t) = false) ->
  filter f (map (AddTrack pc) ts) = [].
Proof.
  intros Hf. induction ts as [| t ts IH]; simpl; [reflexivity |].
  rewrite Hf. exact IH.
Qed.

Ltac before_channel t :=
  lazymatch t with
  | CreateDataChannel _ _ _ _ :: _ => constr:(@nil Effect)
  | ?a :: ?rest => let p := before_channel rest in constr:(a :: p)
  end.

Ltac after_channel t :=
  lazymatch t with
  | CreateDataChannel _ _ _ _ :: ?rest => constr:(rest)
  | _ :: ?rest => after_channel rest
  end.

Ltac filtered :=
  unfold channels, offers; simpl;
  rewrite ?filter_app, ?filter_AddTrack by reflexivity; simpl.

Ltac split_at_channel :=
  lazymatch goal with
  | |- channel_before_offer ?t =>
      let pre := before_channel t in
      let post := after_channel t in
      exists pre, post; do 5 eexists;
      split; [reflexivity |];
      split; [simpl; eauto 10 |];
      split; [reflexivity |];
      split; [reflexivity |];
      split; [filtered; reflexivity |];
      split; [filtered; first [left; reflexivity | right; eexists; reflexivity] |];
      split; reflexivity
  end.

Ltac transport_or_none :=
  lazymatch goal with
  | |- channel_before_offer _ => split_at_channel
  | |- no_transport _ => repeat split; reflexivity
  end.

Lemma startVoiceChat_channel (props : VoiceChat.Props) (env : Env) (c : VoiceChat.Component) :
  let t := trace (VoiceChat.startVoiceChat props env c) in
  match replied (token_response env), user_media env with
  | Some _, Ok _ => channel_before_offer t
  | _, _ => no_transport t
  end.
Proof.
  destruct env as [tr um pc dc ofr sl sr srm].
  unfold VoiceChat.startVoiceChat, VoiceChat.initializeAudio, VoiceChat.getRTCToken,
    VoiceChat.createPeerConnection, VoiceChat.updateState, await_fetch.
  destruct tr as [e1 | [|] st [tok | e1]], um as [[ts] | e2], ofr as [sdp | e3],
    sl as [[] | e4], (VoiceChat.onStateChange props);
    unfold try_catch, bind, when, await, throw, modify, ret; simpl;
    rewrite ?forEach_emit; simpl; unfold trace; simpl;
    transport_or_none.
Qed.

Lemma startVoice_channel (props : VoiceCommand.Props) (env : Env) (c : VoiceCommand.Component) :
  let t := trace (VoiceCommand.startVoice props env c) in
  match replied (token_response env) with
  | None | Some JNull => no_transport t
  | Some _ => channel_before_offer t
  end.
Proof.
  destruct env as [tr um pc dc ofr sl sr srm].
  unfold VoiceCommand.startVoice, await_fetch, trace.
  unfold try_catch, bind, when, await, throw, modify, ret.
  destruct tr as [e1 | [|] st [[| b | q | s | l | fields] | e1]]; simpl;
    try (repeat split; reflexivity);
    (destruct um as [[ts] | e2]; simpl; rewrite ?forEach_emit; simpl;
     [destruct ofr as [sdp | e3]; simpl;
      [destruct sl as [[] | e4]; simpl;
       [destruct sr as [e5 | [|] st' [answer | e5]]; simpl;
        try destruct srm as [[] | e6]; simpl | ] | ] | ]);
    split_at_channel.
Qed.

(** C7. In either component a start makes its transport exactly when it
    gets that far: [VoiceChat] when the credential is fetched and the
    microphone acquired, [VoiceCommand] when the credential is fetched and
    is not [null].  Then exactly one control channel is created during the
    start; it is created on the peer connection made just before, it is
    ordered and reliable, and it is created before any offer is generated:
    no offer precedes it, and the one offer that may follow is made on the
    same peer connection.  Otherwise the start makes no peer connection, no
    channel and no offer; so no offer is ever generated without the one
    channel before it. *)
Theorem single_channel_before_offer :
  forall (chat_props : VoiceChat.Props) (cmd_props : VoiceCommand.Props)
         (env : Env) (chat : VoiceChat.Component) (cmd : VoiceCommand.Component),
    (let t := trace (VoiceChat.startVoiceChat chat_props env chat) in
     match replied (token_response env), user_media env with
     | Some _, Ok _ => channel_before_offer t
     | _, _ => no_transport t
     end)
    /\ (let t := trace (VoiceCommand.startVoice cmd_props env cmd) in
        match replied (token_response env) with
        | None | Some JNull => no_transport t
        | Some _ => channel_before_offer t
        end).
Proof.
  intros chat_props cmd_props env chat cmd.
  split.
  - apply startVoiceChat_channel.
  - apply startVoice_channel.
Qed.

End ChannelBeforeOffer.

(** ** The session-control message *)

Section SessionControl.

Lemma open_listeners_app (t1 t2 : list Effect) :
  open_listeners (t1 ++ t2) = open_listeners t1 ++ open_listeners t2.
Proof. apply flat_map_app. Qed.

Lemma open_listeners_AddTrack (pc : PeerConnection) (ts : list Track) :
  open_listeners (map (AddTrack pc) ts) = [].
Proof. induction ts as [| t ts IH]; simpl; auto. Qed.

Lemma created_channels_AddTrack (pc : PeerConnection) (ts : list Track) :
  created_channels (map (AddTrack pc) ts) = [].
Proof. induction ts as [| t ts IH]; simpl; auto. Qed.

Ltac listed :=
  unfold open_listeners, created_channels; simpl;
  rewrite ?flat_map_app; fold open_listeners; fold created_channels;
  rewrite ?open_listeners_AddTrack, ?created_channels_AddTrack; simpl.







End SessionControl.

(** ** The offer/answer exchange *)

Section Exchange.

Ltac before_local t :=
  lazymatch t with
  | SetLocalDescription _ _ :: _ => constr:(@nil Effect)
  | ?a :: ?rest => let p := before_local rest in constr:(a :: p)
  | map ?f ?l ++ ?rest => let p := before_local rest in constr:(map f l ++ p)
  end.

Ltac after_local t :=
  lazymatch t with
  | SetLocalDescription _ _ :: _ :: _ :: ?rest => constr:(rest)
  | _ :: ?rest => after_local rest
  | map _ _ ++ ?rest => after_local rest
  end.

(** The sibling path: [VoiceCommand.startVoice] reports the session
    connected only after it has applied the local offer, posted that offer
    to the remote endpoint with the credential as bearer, and applied the
    answer it received as remote description, in this order. *)
Lemma startVoice_connected_after_exchange
      (props : VoiceCommand.Props) (env : Env) (c : VoiceCommand.Component) :
  let out := VoiceCommand.startVoice props env c in
  VoiceCommand.status (final out) = "connected" ->
  exists pre post sdp statusText answer bearer,
    offer env = Ok sdp
    /\ sdp_response env = Responded true statusText (Ok answer)
    /\ trace out =
       pre ++ [SetLocalDescription (fresh_pc env) sdp;
               PostOffer VoiceCommand.realtime_url bearer sdp;
               SetRemoteDescription (fresh_pc env) answer] ++ post
    /\ existsb is_exchange pre = false.
Proof.
  destruct env as [tr um pc dc ofr sl sr srm].
  unfold VoiceCommand.startVoice, await_fetch, trace, final.
  unfold try_catch, bind, when, await, throw, modify, ret.
  destruct tr as [e1 | [|] st [[| b | q | s | l | fields] | e1]]; simpl;
    try (intros H; discriminate H);
    (destruct um as [[ts] | e2]; simpl; rewrite ?forEach_emit; simpl;
     [destruct ofr as [sdp | e3]; simpl;
      [destruct sl as [[] | e4]; simpl;
       [destruct sr as [e5 | [|] st' [answer | e5]]; simpl;
        try destruct srm as [[] | e6]; simpl | ] | ] | ]);
    try (intros H; discriminate H); intros _;
    lazymatch goal with
    | |- exists pre post _ _ _ _, _ /\ _ /\ ?t = _ /\ _ =>
        let pre := before_local t in
        let post := after_local t in
        exists pre, post; do 4 eexists;
        split; [reflexivity |];
        split; [reflexivity |];
        split; [simpl; rewrite <- ?app_assoc; reflexivity |];
        simpl; rewrite ?existsb_app; simpl;
        induction ts; simpl; auto
    end.
Qed.

End Exchange.

(** ** The credential endpoint *)

Section CredentialEndpoint.

Import Server.

(** C10, as the code has it.  With an API key configured, every request
    whose [userId] is truthy is answered with status 200 and the same
    secret, the configured key itself, whatever the other fields of the
    request and whatever the time; [expiresAt] is the request time plus
    3 600 000 ms.  The expiry plays no part afterwards: the start of
    [VoiceCommand] runs the same for any two expiry values, and so does the
    open handler of [VoiceChat].  The two guards of the handler come first,
    in this order: a request whose [userId] is missing or falsy is answered
    with status 400, whether a key is configured or not; a request whose
    [userId] is truthy is answered with status 500 when no key, or an empty
    one, is configured.  Neither reply holds a secret. *)
Theorem credential_is_process_key :
  forall (key : string) (now1 now2 : Z) (fields1 fields2 : list (string * json)),
    key <> EmptyString ->
    truthy_opt (assoc "userId" fields1) = true ->
    truthy_opt (assoc "userId" fields2) = true ->
    (exists c1 c2,
        rtc_token (Some key) now1 (JObj fields1) = Status200 c1
        /\ rtc_token (Some key) now2 (JObj fields2) = Status200 c2
        /\ client_secret c1 = key /\ client_secret c2 = key
        /\ expiresAt c1 = now1 + 3600000
        /\ expiresAt c2 = now2 + 3600000)
    /\ (forall (iso : Z -> string) (c : Credential) (e1 e2 : Z)
               (props : VoiceCommand.Props) (env : Env) (statusText : string)
               (cmd : VoiceCommand.Component),
          VoiceCommand.startVoice props
            (with_token env (Responded true statusText
                               (Ok (Credential_json iso (with_expiry c e1))))) cmd
          = VoiceCommand.startVoice props
              (with_token env (Responded true statusText
                                 (Ok (Credential_json iso (with_expiry c e2))))) cmd)
    /\ (forall (iso : Z -> string) (c : Credential) (e1 e2 : Z)
               (dc : DataChannel) (chat : VoiceChat.Component),
          VoiceChat.dataChannel_onopen (Credential_json iso (with_expiry c e1)) dc chat
          = VoiceChat.dataChannel_onopen (Credential_json iso (with_expiry c e2)) dc chat)
    /\ (forall (OPENAI_API_KEY : option string) (now : Z) (fields : list (string * json)),
          truthy_opt (assoc "userId" fields) = false ->
          rtc_token OPENAI_API_KEY now (JObj fields) = Status400 "userId is required")
    /\ (forall (now : Z) (fields : list (string * json)),
          truthy_opt (assoc "userId" fields) = true ->
          rtc_token None now (JObj fields)
          = Status500 "OpenAI API key not configured" None
          /\ rtc_token (Some EmptyString) now (JObj fields)
             = Status500 "OpenAI API key not configured" None).
Proof.
  intros key now1 now2 fields1 fields2 Hkey H1 H2.
  split; [| split; [| split; [| split]]].
  - unfold rtc_token. simpl.
    rewrite H1, H2. simpl.
    destruct (String.eqb_spec key EmptyString) as [E | _]; [contradiction |].
    do 2 eexists. repeat split.
  - intros. unfold VoiceCommand.startVoice, with_token, Credential_json, with_expiry.
    simpl. reflexivity.
  - intros. unfold VoiceChat.dataChannel_onopen, Credential_json, with_expiry.
    simpl. destruct (scenarioId c); reflexivity.
  - intros OPENAI_API_KEY now fields F. unfold rtc_token. simpl.
    rewrite F. reflexivity.
  - intros now fields T. unfold rtc_token. simpl.
    rewrite T. split; reflexivity.
Qed.

Lemma credential_is_process_key_witness :
  exists c1 c2,
    rtc_token (Some "sk-live") 0 (JObj [("userId", JStr "alice")]) = Status200 c1
    /\ rtc_token (Some "sk-live") 7200000
         (JObj [("userId", JStr "bob"); ("sessionType", JStr "ecos_simulation")])
       = Status200 c2
    /\ client_secret c1 = "sk-live" /\ client_secret c2 = "sk-live"
    /\ expiresAt c1 = 0 + 3600000
    /\ expiresAt c2 = 7200000 + 3600000.
Proof.
  apply (credential_is_process_key "sk-live" 0 7200000
           [("userId", JStr "alice")]
           [("userId", JStr "bob"); ("sessionType", JStr "ecos_simulation")]).
  - discriminate.
  - reflexivity.
  - reflexivity.
Defined.

(** C10 as stated fails for a request whose [userId] is empty: it is
    refused with status 400 and no secret, while the same process hands
    the key to a request that names a user.  Without a configured key no
    request gets a secret: one that names a user gets status 500, one that
    names none gets status 400. *)
Lemma credential_counterexample :
  rtc_token (Some "sk-live") 0 (JObj [("userId", JStr EmptyString)])
  = Status400 "userId is required"
  /\ (exists c, rtc_token (Some "sk-live") 0 (JObj [("userId", JStr "alice")])
                = Status200 c /\ client_secret c = "sk-live")
  /\ rtc_token None 0 (JObj [("userId", JStr "alice")])
     = Status500 "OpenAI API key not configured" None
  /\ rtc_token None 0 (JObj []) = Status400 "userId is required".
Proof.
  split; [reflexivity |]. split; [| split; reflexivity].
  eexists. split; reflexivity.
Qed.

End CredentialEndpoint.

(** ** Scenarios *)

Section Scenarios.

Import JSONFragment.

(** A finished remote transcript adds one entry attributed to the remote
    side and leaves the session listening. *)
Example remote_transcript_scenario :
  let out := VoiceChat.dataChannel_onmessage Samples.chat_props JSON_parse 1000
               Samples.done_frame
               (VoiceChat.setState VoiceChat.connected VoiceChat.initial) in
  VoiceChat.transcript (final out)
  = [VoiceChat.mkEntry (JStr "Je comprends vos symptômes.") false 1000]
  /\ VoiceChat.state (final out) = VoiceChat.listening.
Proof. vm_compute. split; reflexivity. Qed.

(** Speech started, then speech stopped: connected, listening, connected. *)
Example speech_lifecycle_scenario :
  let c0 := VoiceChat.setState VoiceChat.connected VoiceChat.initial in
  let c1 := final (VoiceChat.dataChannel_onmessage Samples.chat_props JSON_parse 0
                     (Samples.typed_frame "input_audio_buffer.speech_started") c0) in
  let c2 := final (VoiceChat.dataChannel_onmessage Samples.chat_props JSON_parse 3000
                     (Samples.typed_frame "input_audio_buffer.speech_stopped") c1) in
  VoiceChat.state c1 = VoiceChat.listening /\ VoiceChat.state c2 = VoiceChat.connected.
Proof. vm_compute. split; reflexivity. Qed.

(** One finished user transcription reaches the parent three times through
    [VoiceCommand]: by its exact type, by the input_audio_transcription
    test and by the generic transcript test. *)
Example user_transcript_reported_thrice :
  trace (VoiceCommand.dc_onmessage Samples.cmd_props JSON_parse Samples.user_frame
           VoiceCommand.initial)
  = [ConsoleLog "EVENT";
     Call_onTranscript (JStr "Bonjour") true;
     Call_onTranscript (JStr "Bonjour") true;
     Call_onTranscript (JStr "Bonjour") true].
Proof. vm_compute. reflexivity. Qed.

(** The three reports, admitted at the same instant, leave one entry. *)
Example three_reports_one_entry :
  PatientSimulator.onTranscript "c" 5000 "Bonjour" true
    (PatientSimulator.onTranscript "b" 5000 "Bonjour" true
       (PatientSimulator.onTranscript "a" 5000 "Bonjour" true []))
  = [PatientSimulator.mkMessage "a" "Bonjour" PatientSimulator.user 5000].
Proof. vm_compute. reflexivity. Qed.

(** The effects of a start of [VoiceCommand] in which every step succeeds. *)
Example startVoice_all_fine :
  VoiceCommand.startVoice Samples.cmd_props Samples.all_fine VoiceCommand.initial
  = (VoiceCommand.mkComponent true "connected"
       (Some 1%nat) (Some (mkStream [3%nat])) (Some 2%nat),
     [FetchToken "/api/rtc-token"
        (JObj [("userId", JStr "student@example.org");
               ("scenarioId", JStr "7");
               ("sessionType", JStr "ecos_simulation")]);
      NewPeerConnection 1%nat [];
      Listen 1%nat VoiceCommand_ontrack;
      CreateDataChannel 1%nat 2%nat "oai-events" (mkInit None None None);
      Listen 2%nat VoiceCommand_onmessage;
      GetUserMedia VoiceCommand.audio_constraints;
      AddTrack 1%nat 3%nat;
      CreateOffer 1%nat VoiceCommand.offer_options;
      SetLocalDescription 1%nat "v=0 offer";
      PostOffer VoiceCommand.realtime_url (Some (JStr "sk-test")) "v=0 offer";
      SetRemoteDescription 1%nat "v=0 answer";
      Listen 2%nat (VoiceCommand_onopen (Some (JStr Server.ecos_instructions)))],
     Ok tt).
Proof. vm_compute. reflexivity. Qed.

(** The effects of a start of [VoiceChat] in which every step succeeds. *)
Example startVoiceChat_all_fine :
  VoiceChat.startVoiceChat Samples.chat_props Samples.all_fine VoiceChat.initial
  = (VoiceChat.mkComponent VoiceChat.connected false false [] None
       (Some 1%nat) (Some (mkStream [3%nat])) None (Some 2%nat),
     [Call_onStateChange "connecting";
      FetchToken "/api/rtc-token"
        (JObj [("userId", JStr "student@example.org");
               ("scenarioId", JStr "7");
               ("sessionType", JStr "ecos_simulation")]);
      GetUserMedia VoiceChat.audio_constraints;
      NewPeerConnection 1%nat VoiceChat.rtcConfiguration;
      CreateDataChannel 1%nat 2%nat "events" (mkInit (Some true) None None);
      Listen 2%nat (VoiceChat_onopen Samples.credential);
      Listen 2%nat VoiceChat_onmessage;
      Listen 1%nat VoiceChat_ontrack;
      Listen 1%nat VoiceChat_onconnectionstatechange;
      AddTrack 1%nat 3%nat;
      CreateOffer 1%nat VoiceChat.offer_options;
      SetLocalDescription 1%nat "v=0 offer";
      ConsoleLog "SDP Offer: v=0 offer";
      Call_onStateChange "connected"],
     Ok tt).
Proof. vm_compute. reflexivity. Qed.

(** In [VoiceCommand] a start without microphone ends in error with the
    peer connection and the channel already created and still referenced. *)
Example startVoice_no_microphone :
  let out := VoiceCommand.startVoice Samples.cmd_props Samples.no_microphone
               VoiceCommand.initial in
  final out = VoiceCommand.mkComponent false "error" (Some 1%nat) None (Some 2%nat)
  /\ existsb is_release (trace out) = false.
Proof. vm_compute. split; reflexivity. Qed.

End Scenarios.

(** * Further properties *)

(** ** Incoming events (VoiceChat) *)

Section IncomingEvents.

Import VoiceChat.

Lemma json_null_dec (v : json) : {v = JNull} + {v <> JNull}.
Proof. destruct v; (left; reflexivity) || (right; discriminate). Qed.

Lemma is_str_true (s : string) (v : option json) :
  is_str s v = true -> v = Some (JStr s).
Proof.
  destruct v as [[| | | s' | |] |]; simpl; try discriminate.
  intros H. apply String.eqb_eq in H. now subst.
Qed.

Ltac by_type fields :=
  repeat match goal with
         | |- context [is_str ?lit (assoc "type" fields)] =>
             let E := fresh "E" in
             destruct (is_str lit (assoc "type" fields)) eqn:E;
             [apply is_str_true in E; rewrite E in *; simpl |]
         end.

(** X1. An event whose type is none of the six the dispatcher acts on
    (a missing type and the partial remote transcript included) changes
    nothing and has no effect. *)
Theorem unknown_event_ignored :
  forall (props : Props) (now : Z) (c : Component) (event : json)
         (type : option json),
    get "type" event = Ok type ->
    forallb (fun s => negb (is_str s type)) active_event_types = true ->
    handleRealtimeEvent props now event c = (c, [], Ok tt).
Proof.
  intros props now c event type Hty Hnone.
  unfold handleRealtimeEvent, bind at 1, await. rewrite Hty.
  simpl in Hnone.
  repeat (apply andb_true_iff in Hnone; destruct Hnone as [?H Hnone]).
  repeat match goal with
         | H : negb _ = true |- _ => apply negb_true_iff in H; rewrite H
         end.
  destruct (is_str "response.audio_transcript.delta" type); reflexivity.
Qed.

Lemma unknown_event_ignored_witness :
  handleRealtimeEvent Samples.chat_props 0
    (JObj [("type", JStr "response.created")])
    (setState speaking initial)
  = (setState speaking initial, [], Ok tt).
Proof.
  apply (unknown_event_ignored Samples.chat_props 0 (setState speaking initial)
           (JObj [("type", JStr "response.created")])
           (Some (JStr "response.created"))).
  - reflexivity.
  - reflexivity.
Defined.

Lemma handleRealtimeEvent_null (props : Props) (now : Z) (c : Component) :
  final (handleRealtimeEvent props now JNull c) = c
  /\ trace (handleRealtimeEvent props now JNull c) = [].
Proof. split; reflexivity. Qed.

Lemma handleRealtimeEvent_shape (props : Props) (now : Z) (event : json) (c : Component) :
  event <> JNull ->
  let out := handleRealtimeEvent props now event c in
  same_handles (final out) c
  /\ transcript (final out) = transcript c ++ appended_entry now event
  /\ forallb is_notification (trace out) = true
  /\ outcome out = Ok tt.
Proof.
  intros Hnull out. subst out.
  unfold same_handles, appended_entry, prop.
  destruct event as [| b | q | s | l | fields]; try contradiction;
    try (unfold handleRealtimeEvent, bind, await, ret, final, trace, outcome; simpl;
         rewrite app_nil_r; repeat split; reflexivity).
  unfold handleRealtimeEvent, updateState, addTranscript.
  unfold bind, await, ret, when, modify, emit, final, trace, outcome. simpl.
  by_type fields;
    repeat match goal with
           | |- context [match assoc ?k ?f with _ => _ end] =>
               let v := fresh "v" in
               destruct (assoc k f) as [v |]; simpl
           | |- context [truthy ?v] => destruct (truthy v); simpl
           | |- context [onStateChange props] => destruct (onStateChange props); simpl
           | |- context [onTranscript props] => destruct (onTranscript props); simpl
           | |- context [match ?v with JNull => _ | _ => _ end] => destruct v; simpl
           end;
    rewrite ?app_nil_r; repeat split; reflexivity.
Qed.

(** X2. Whatever arrives on the control channel, the message handler of
    [VoiceChat] returns normally and only informs: the peer connection, the
    stream, the playback element, the channel and the mute flags are what
    they were, and every effect is console output or a call of a parent
    callback; nothing is sent, closed or stopped. *)
Theorem incoming_frame_confined :
  forall (props : Props) (JSON_parse : string -> option json)
         (now : Z) (data : string) (c : Component),
    let out := dataChannel_onmessage props JSON_parse now data c in
    outcome out = Ok tt
    /\ same_handles (final out) c
    /\ forallb is_notification (trace out) = true.
Proof.
  intros props JSON_parse now data c out. subst out.
  unfold dataChannel_onmessage.
  destruct (JSON_parse data) as [event |].
  - destruct (json_null_dec event) as [-> | Hnull].
    + unfold same_handles. repeat split; reflexivity.
    + destruct (handleRealtimeEvent_shape props now event c Hnull)
        as [Hh [_ [Hn Ho]]].
      unfold try_catch, final, trace, outcome in *.
      destruct (handleRealtimeEvent props now event c) as [[s1 t1] r].
      simpl in *. subst r. auto.
  - unfold same_handles. repeat split; reflexivity.
Qed.

(** X3. The transcript of [VoiceChat] only grows at its end, by at most
    one entry per frame: after any frame it is the old transcript followed
    by the entry the event contributes, which exists only for a finished
    remote transcript or a finished user transcription with a truthy
    [transcript] member, carries the arrival time, and is attributed to the
    user exactly for the user transcription. *)
Theorem transcript_append_only :
  forall (props : Props) (JSON_parse : string -> option json)
         (now : Z) (data : string) (c : Component),
    transcript (final (dataChannel_onmessage props JSON_parse now data c))
    = transcript c
      ++ match JSON_parse data with
         | Some event => appended_entry now event
         | None => []
         end.
Proof.
  intros props JSON_parse now data c.
  unfold dataChannel_onmessage.
  destruct (JSON_parse data) as [event |].
  - destruct (json_null_dec event) as [-> | Hnull].
    + simpl. rewrite app_nil_r. reflexivity.
    + destruct (handleRealtimeEvent_shape props now event c Hnull)
        as [_ [Ht [_ Ho]]].
      unfold try_catch, final, outcome in *.
      destruct (handleRealtimeEvent props now event c) as [[s1 t1] r].
      simpl in *. subst r. exact Ht.
  - simpl. rewrite app_nil_r. reflexivity.
Qed.

End IncomingEvents.

(** ** Incoming events (VoiceCommand) *)

Section IncomingMessages.

Import VoiceCommand.

Ltac crunch props :=
  repeat match goal with
         | |- context [match assoc ?k ?f with _ => _ end] =>
             let v := fresh "v" in
             destruct (assoc k f) as [v |]; simpl
         end;
  repeat match goal with
         | |- context [truthy ?v] =>
             let E := fresh "E" in destruct (truthy v) eqn:E; simpl
         end;
  try (let E := fresh "E" in destruct (onTranscript props) eqn:E; simpl);
  rewrite ?andb_true_r, ?andb_false_r; simpl;
  repeat match goal with
         | |- context [if ?b then _ else _] => destruct b; simpl
         end;
  repeat split; simpl;
  repeat match goal with
         | H : _ = _ |- _ => rewrite H
         end;
  first [reflexivity | lia | auto].

Lemma handle_message_object (props : Props) (fields : list (string * json)) (c : Component) :
  let out := try_catch (handle_message props (JObj fields))
               (fun error => emit (ConsoleError "Error parsing message:" error)) c in
  outcome out = Ok tt
  /\ final out = c
  /\ forallb is_notification (trace out) = true
  /\ forallb reports_truthy (trace out) = true
  /\ (List.length (reports (trace out)) <= 3)%nat
  /\ (onTranscript props = true \/ reports (trace out) = []).
Proof.
  unfold handle_message, report, type_includes, reports.
  unfold try_catch, bind, await, ret, when, emit, throw, final, trace, outcome. simpl.
  destruct (assoc "type" fields) as [[| b | q | s | l | fs] |]; simpl.
  - crunch props.
  - crunch props.
  - crunch props.
  - repeat match goal with
           | |- context [String.eqb s ?lit] =>
               destruct (String.eqb_spec s lit); [subst s; simpl |]
           end;
      crunch props.
  - crunch props.
  - crunch props.
  - crunch props.
Qed.

(** X4. Whatever arrives on the control channel, the message handler of
    [VoiceCommand] returns normally and leaves the component as it was; its
    only effects are console output and reports to the parent.  It makes at
    most three reports per frame, each with a truthy text, and none when
    the parent gave no [onTranscript] callback. *)
Theorem incoming_message_confined :
  forall (props : Props) (JSON_parse : string -> option json)
         (data : string) (c : Component),
    let out := dc_onmessage props JSON_parse data c in
    outcome out = Ok tt
    /\ final out = c
    /\ forallb is_notification (trace out) = true
    /\ forallb reports_truthy (trace out) = true
    /\ (List.length (reports (trace out)) <= 3)%nat
    /\ (onTranscript props = true \/ reports (trace out) = []).
Proof.
  intros props JSON_parse data c out. subst out.
  unfold dc_onmessage.
  destruct (JSON_parse data) as [[| b | q | s | l | fields] |];
    try apply handle_message_object;
    unfold handle_message, report, type_includes, reports;
    unfold try_catch, bind, await, ret, when, emit, throw, final, trace, outcome;
    simpl; repeat split; first [reflexivity | lia | auto].
Qed.

End IncomingMessages.

(** ** Outcome of a start *)

Section StartOutcome.

(** X5. [startVoiceChat] never raises.  It ends connected, with the error
    cell cleared, when the credential request, the microphone, the offer
    and the local description all succeed; otherwise it ends in error with
    the message of the first failing step in the error cell.  The
    transcript is not touched. *)
Theorem startVoiceChat_outcome :
  forall (props : VoiceChat.Props) (env : Env) (c : VoiceChat.Component),
    let out := VoiceChat.startVoiceChat props env c in
    outcome out = Ok tt
    /\ VoiceChat.state (final out)
       = match startVoiceChat_failure env with
         | None => VoiceChat.connected
         | Some _ => VoiceChat.error
         end
    /\ VoiceChat.errorState (final out) = option_map JStr (startVoiceChat_failure env)
    /\ VoiceChat.transcript (final out) = VoiceChat.transcript c.
Proof.
  intros props env c out. subst out.
  destruct env as [tr um pc dc ofr sl sr srm].
  unfold VoiceChat.startVoiceChat, VoiceChat.initializeAudio, VoiceChat.getRTCToken,
    VoiceChat.createPeerConnection, VoiceChat.updateState, await_fetch,
    startVoiceChat_failure.
  destruct tr as [e1 | [|] st [tok | e1]], um as [[ts] | e2], ofr as [sdp | e3],
    sl as [[] | e4], (VoiceChat.onStateChange props);
    unfold try_catch, bind, when, await, throw, modify, ret; simpl;
    rewrite ?forEach_emit; simpl; repeat split; reflexivity.
Qed.

(** X6. [startVoice] never raises.  It ends with status connected and
    the component active exactly when every step succeeds; otherwise the
    status is error, the component is inactive, and the failure is logged
    once on the console. *)
Theorem startVoice_outcome :
  forall (props : VoiceCommand.Props) (env : Env) (c : VoiceCommand.Component),
    let out := VoiceCommand.startVoice props env c in
    outcome out = Ok tt
    /\ VoiceCommand.status (final out)
       = (if startVoice_succeeds env then "connected" else "error")
    /\ VoiceCommand.isActive (final out) = startVoice_succeeds env
    /\ List.length (filter is_ConsoleError (trace out))
       = (if startVoice_succeeds env then 0%nat else 1%nat).
Proof.
  intros props env c out. subst out.
  destruct env as [tr um pc dc ofr sl sr srm].
  unfold VoiceCommand.startVoice, await_fetch, trace, final, outcome,
    startVoice_succeeds, replied.
  unfold try_catch, bind, when, await, throw, modify, ret.
  destruct tr as [e1 | [|] st [[| b | q | s | l | fields] | e1]]; simpl;
    try (destruct sr as [e5 | [|] st' [answer | e5]]; repeat split; reflexivity);
    (destruct um as [[ts] | e2]; simpl; rewrite ?forEach_emit; simpl;
     [destruct ofr as [sdp | e3]; simpl;
      [destruct sl as [[] | e4]; simpl;
       [destruct sr as [e5 | [|] st' [answer | e5]]; simpl;
        try destruct srm as [[] | e6]; simpl | ] | ] | ]);
    try (destruct sr as [e5 | [|] st' [answer | e5]]; simpl);
    try (destruct srm as [[] | e6]; simpl);
    rewrite ?filter_app, ?filter_AddTrack by reflexivity; simpl;
    rewrite ?andb_false_r; repeat split; reflexivity.
Qed.

End StartOutcome.

(** ** A start followed by a stop *)

Section StartThenStop.

Lemma flat_map_AddTrack {B} (f : Effect -> list B) (pc : PeerConnection) (ts : list Track) :
  (forall t, f (AddTrack pc t) = []) ->
  flat_map f (map (AddTrack pc) ts) = [].
Proof.
  intros Hf. induction ts as [| t ts IH]; simpl; [reflexivity |].
  rewrite Hf. exact IH.
Qed.

Lemma added_tracks_AddTrack (pc : PeerConnection) (ts : list Track) :
  added_tracks (map (AddTrack pc) ts) = ts.
Proof.
  unfold added_tracks. induction ts as [| t ts IH]; simpl; [reflexivity |].
  rewrite IH. reflexivity.
Qed.

Ltac created :=
  unfold created_connections, created_channels; simpl;
  rewrite ?flat_map_app, ?flat_map_AddTrack by reflexivity; simpl;
  unfold added_tracks; simpl;
  rewrite ?flat_map_app; fold added_tracks;
  rewrite ?added_tracks_AddTrack; simpl; rewrite ?app_nil_r.

Lemma startVoice_then_stop (props : VoiceCommand.Props) (env : Env)
      (c : VoiceCommand.Component) :
  cmd_holds_nothing c ->
  let started := VoiceCommand.startVoice props env c in
  trace (VoiceCommand.stopVoice (final started))
  = map ChannelClose (created_channels (trace started))
    ++ map ConnectionClose (created_connections (trace started))
    ++ map TrackStop (added_tracks (trace started)).
Proof.
  destruct c as [act st0 pcr msr dcr]. intros [Hp [Hm Hd]]. simpl in Hp, Hm, Hd.
  subst pcr msr dcr. cbv zeta.
  rewrite stopVoice_run.
  destruct env as [tr um pc dc ofr sl sr srm].
  unfold VoiceCommand.startVoice, await_fetch, trace, final.
  unfold try_catch, bind, when, await, throw, modify, ret.
  destruct tr as [e1 | [|] st [[| b | q | s | l | fields] | e1]]; simpl;
    try reflexivity;
    (destruct um as [[ts] | e2]; simpl; rewrite ?forEach_emit; simpl;
     [destruct ofr as [sdp | e3]; simpl;
      [destruct sl as [[] | e4]; simpl;
       [destruct sr as [e5 | [|] st' [answer | e5]]; simpl;
        try destruct srm as [[] | e6]; simpl | ] | ] | ]);
    created; reflexivity.
Qed.

Lemma startVoiceChat_then_stop (props : VoiceChat.Props) (env : Env)
      (c : VoiceChat.Component) :
  chat_holds_nothing c ->
  let started := VoiceChat.startVoiceChat props env c in
  releases (trace (VoiceChat.stopVoiceChat props (final started)))
  = map ConnectionClose (created_connections (trace started))
    ++ map TrackStop (added_tracks (trace started)).
Proof.
  destruct c as [st0 m om tr0 er pcr lsr aur dcr]. intros [Hp [Hl Ha]].
  simpl in Hp, Hl, Ha. subst pcr lsr aur. cbv zeta.
  rewrite releases_stopVoiceChat.
  destruct env as [tr um pc dc ofr sl sr srm].
  unfold VoiceChat.startVoiceChat, VoiceChat.initializeAudio, VoiceChat.getRTCToken,
    VoiceChat.createPeerConnection, VoiceChat.updateState, await_fetch.
  destruct tr as [e1 | [|] st [tok | e1]], um as [[ts] | e2], ofr as [sdp | e3],
    sl as [[] | e4], (VoiceChat.onStateChange props);
    unfold try_catch, bind, when, await, throw, modify, ret; simpl;
    rewrite ?forEach_emit; simpl; unfold trace, final; simpl;
    created; reflexivity.
Qed.

(** X7. A stop after a start releases what that start created, whatever
    step the start reached or failed at.  Starting from a component that
    holds nothing, [stopVoice] after [startVoice] closes every data channel
    and every peer connection the start created and stops every track it
    attached, and does nothing else; [stopVoiceChat] after [startVoiceChat]
    closes every peer connection the start created and stops every track it
    attached, and releases nothing else. *)
Theorem stop_releases_what_start_created :
  forall (chat_props : VoiceChat.Props) (cmd_props : VoiceCommand.Props)
         (env : Env) (chat : VoiceChat.Component) (cmd : VoiceCommand.Component),
    chat_holds_nothing chat ->
    cmd_holds_nothing cmd ->
    let a := VoiceChat.startVoiceChat chat_props env chat in
    let b := VoiceCommand.startVoice cmd_props env cmd in
    releases (trace (VoiceChat.stopVoiceChat chat_props (final a)))
    = map ConnectionClose (created_connections (trace a))
      ++ map TrackStop (added_tracks (trace a))
    /\ trace (VoiceCommand.stopVoice (final b))
       = map ChannelClose (created_channels (trace b))
         ++ map ConnectionClose (created_connections (trace b))
         ++ map TrackStop (added_tracks (trace b)).
Proof.
  intros chat_props cmd_props env chat cmd Hchat Hcmd a b.
  split.
  - now apply startVoiceChat_then_stop.
  - now apply startVoice_then_stop.
Qed.

Lemma stop_releases_what_start_created_witness :
  trace (VoiceCommand.stopVoice
           (final (VoiceCommand.startVoice Samples.cmd_props Samples.no_microphone
                     VoiceCommand.initial)))
  = [ChannelClose 2%nat; ConnectionClose 1%nat].
Proof.
  pose proof (stop_releases_what_start_created Samples.chat_props Samples.cmd_props
                Samples.no_microphone VoiceChat.initial VoiceCommand.initial) as H.
  cbv zeta in H.
  destruct H as [_ H].
  - repeat split.
  - repeat split.
  - rewrite H. vm_compute. reflexivity.
Defined.

End StartThenStop.

(** ** Failures after establishment (VoiceChat) *)

Section LateFailures.

Import VoiceChat.

(** X8. A failure reported after establishment only changes the state
    and the message.  A remote error event puts the session in error with
    the message of the event, or a fixed text when the event has none; a
    transport that reports disconnected or failed puts it in error with the
    text Connection lost.  In both cases the component keeps every browser
    object it holds and releases nothing. *)
Theorem late_failure_keeps_resources :
  forall (props : Props) (now : Z) (c : Component)
         (fields : list (string * json)) (connectionState : string),
    assoc "type" fields = Some (JStr "error") ->
    connectionState = "disconnected" \/ connectionState = "failed" ->
    let a := handleRealtimeEvent props now (JObj fields) c in
    let b := pc_onconnectionstatechange props connectionState c in
    (state (final a) = error
     /\ errorState (final a) = Some (remote_error_message (JObj fields))
     /\ same_handles (final a) c
     /\ releases (trace a) = [])
    /\ (state (final b) = error
        /\ errorState (final b) = Some (JStr "Connection lost")
        /\ same_handles (final b) c
        /\ releases (trace b) = []).
Proof.
  intros props now c fields connectionState Hty Hcs a b. subst a b.
  unfold same_handles, remote_error_message. split.
  - unfold handleRealtimeEvent, updateState.
    unfold bind, await, ret, when, modify, emit, final, trace. simpl.
    rewrite Hty. simpl.
    destruct (assoc "error" fields) as [[| b | q | s | l | fs] |]; simpl;
      try destruct (assoc "message" fs) as [m |]; simpl;
      try destruct (truthy m); simpl;
      destruct (onStateChange props); simpl; repeat split; reflexivity.
  - unfold pc_onconnectionstatechange, updateState.
    unfold bind, await, ret, when, modify, emit, final, trace.
    destruct Hcs as [-> | ->]; simpl;
      destruct (onStateChange props); simpl; repeat split; reflexivity.
Qed.

Lemma late_failure_keeps_resources_witness :
  let c := final (startVoiceChat Samples.chat_props Samples.all_fine initial) in
  state (final (pc_onconnectionstatechange Samples.chat_props "failed" c)) = error
  /\ same_handles (final (pc_onconnectionstatechange Samples.chat_props "failed" c)) c.
Proof.
  cbv zeta.
  pose proof (late_failure_keeps_resources Samples.chat_props 0
                (final (startVoiceChat Samples.chat_props Samples.all_fine initial))
                [("type", JStr "error")] "failed" eq_refl (or_intror eq_refl)) as H.
  cbv zeta in H. destruct H as [_ [Hs [_ [Hh _]]]].
  split; [exact Hs | exact Hh].
Defined.

End LateFailures.

(** ** Speaker attribution (VoiceCommand) *)

Section Attribution.

Import VoiceCommand.

(** X9. For the event types that carry text, [VoiceCommand] reports the
    text with a fixed speaker, whatever else the frame holds: the text of a
    remote text delta, of a finished remote text and of a finished remote
    audio transcript is reported once and attributed to the remote side;
    the text of a finished user transcription is attributed to the user and
    reported three times. *)
Theorem report_attribution :
  forall (props : Props) (c : Component) (fields : list (string * json))
         (type key : string) (isUser : bool) (n : nat) (v : json),
    In (type, (key, (isUser, n))) report_table ->
    onTranscript props = true ->
    assoc "type" fields = Some (JStr type) ->
    assoc key fields = Some v ->
    truthy v = true ->
    reports (trace (handle_message props (JObj fields) c))
    = repeat (Call_onTranscript v isUser) n.
Proof.
  intros props c fields type key isUser n v Hin Hcb Hty Hkey Hv.
  unfold handle_message, report, type_includes, reports.
  unfold bind, await, ret, when, emit, trace. simpl.
  rewrite Hty, Hcb.
  simpl in Hin.
  destruct Hin as [E | [E | [E | [E | [E | [E | []]]]]]]; inversion E; subst; simpl;
    rewrite ?Hkey; simpl; rewrite ?Hv; simpl;
    try reflexivity;
    destruct (assoc "transcript" fields) as [t |]; simpl;
    rewrite ?andb_false_r; simpl; reflexivity.
Qed.

Lemma report_attribution_witness :
  reports (trace (handle_message Samples.cmd_props
                    (JObj [("type", JStr "response.audio_transcript.done");
                           ("transcript", JStr "Bonjour")])
                    initial))
  = [Call_onTranscript (JStr "Bonjour") false].
Proof.
  apply (report_attribution Samples.cmd_props initial
           [("type", JStr "response.audio_transcript.done");
            ("transcript", JStr "Bonjour")]
           "response.audio_transcript.done" "transcript" false 1%nat (JStr "Bonjour")).
  - simpl. tauto.
  - reflexivity.
  - reflexivity.
  - reflexivity.
  - reflexivity.
Defined.

End Attribution.

(** ** The conversation log under repeated reports *)

Section Bursts.

Import PatientSimulator.

Lemma onTranscript_cases (fresh_id : string) (now : Z) (text : string) (isUser : bool)
      (prev : list Message) :
  onTranscript fresh_id now text isUser prev = prev
  \/ onTranscript fresh_id now text isUser prev
     = prev ++ [mkMessage fresh_id text (speaker isUser) now].
Proof.
  unfold onTranscript, speaker.
  destruct (isDuplicate _ _ _); auto.
Qed.

Lemma admit_all_after_one (text : string) (isUser : bool) (arrivals : list (string * Z))
      (log : list Message) (m : Message) :
  In m log -> content m = text -> sender m = speaker isUser ->
  (forall a, In a arrivals -> Z.abs (timestamp m - snd a) < 2000) ->
  admit_all text isUser arrivals log = log.
Proof.
  intros Hin Hc Hs. induction arrivals as [| a rest IH]; intros Hnear; simpl.
  - reflexivity.
  - assert (Hdup : onTranscript (fst a) (snd a) text isUser log = log).
    { unfold onTranscript.
      replace (isDuplicate log text _) with true; [reflexivity |].
      symmetry. apply isDuplicate_spec. exists m. simpl.
      repeat split; auto. apply Hnear. now left. }
    rewrite Hdup. apply IH. intros b Hb. apply Hnear. now right.
Qed.

(** X10. A burst of reports of one text by one speaker, any two of them
    less than 2000 ms apart, adds at most one entry to the log, whatever
    the log holds: the log afterwards is the log before, followed by
    nothing or by one entry with that text and speaker taken from one of
    the reports. *)
Theorem burst_adds_at_most_one :
  forall (text : string) (isUser : bool) (arrivals : list (string * Z))
         (prev : list Message),
    (forall a b, In a arrivals -> In b arrivals -> Z.abs (snd a - snd b) < 2000) ->
    admit_all text isUser arrivals prev = prev
    \/ exists a, In a arrivals
                 /\ admit_all text isUser arrivals prev
                    = prev ++ [mkMessage (fst a) text (speaker isUser) (snd a)].
Proof.
  intros text isUser arrivals.
  induction arrivals as [| a rest IH]; intros prev Hnear; simpl.
  - now left.
  - destruct (onTranscript_cases (fst a) (snd a) text isUser prev) as [E | E];
      rewrite E.
    + destruct (IH prev) as [H | [b [Hb H]]].
      * intros x y Hx Hy. apply Hnear; now right.
      * now left.
      * right. exists b. split; [now right | exact H].
    + right. exists a. split; [now left |].
      apply (admit_all_after_one text isUser rest _
               (mkMessage (fst a) text (speaker isUser) (snd a))).
      * apply in_or_app. right. now left.
      * reflexivity.
      * reflexivity.
      * intros b Hb. simpl. apply Hnear; [now left | now right].
Qed.

Lemma burst_adds_at_most_one_witness :
  admit_all "Bonjour" true [("a", 5000); ("b", 5001); ("c", 5003)] []
  = []
  \/ exists a, In a [("a", 5000); ("b", 5001); ("c", 5003)]
               /\ admit_all "Bonjour" true [("a", 5000); ("b", 5001); ("c", 5003)] []
                  = [] ++ [mkMessage (fst a) "Bonjour" (speaker true) (snd a)].
Proof.
  apply (burst_adds_at_most_one "Bonjour" true
           [("a", 5000); ("b", 5001); ("c", 5003)] []).
  intros a b Ha Hb. simpl in Ha, Hb.
  destruct Ha as [<- | [<- | [<- | []]]], Hb as [<- | [<- | [<- | []]]];
    simpl; lia.
Defined.

Lemma Sorted_snoc (l : list Z) (x : Z) :
  Sorted Z.le l -> (forall y, In y l -> y <= x) -> Sorted Z.le (l ++ [x]).
Proof.
  induction 1 as [| y l Hs IH Hhd]; intros Hle; simpl.
  - repeat constructor.
  - constructor.
    + apply IH. intros z Hz. apply Hle. now right.
    + destruct l as [| z l]; simpl.
      * constructor. apply Hle. now left.
      * constructor. now inversion Hhd.
Qed.

(** X11. Admission never rewrites the log and keeps it in time order.
    The log after an admission starts with the log before it, entry for
    entry (so the speaker of an admitted entry is never altered); and if
    the log is ordered by timestamp and no entry is later than the clock,
    it is still ordered afterwards and still no entry is later than the
    clock. *)
Theorem admission_keeps_order :
  forall (fresh_id : string) (now : Z) (text : string) (isUser : bool)
         (prev : list Message),
    Sorted Z.le (map timestamp prev) ->
    (forall m, In m prev -> timestamp m <= now) ->
    let log := onTranscript fresh_id now text isUser prev in
    firstn (List.length prev) log = prev
    /\ Sorted Z.le (map timestamp log)
    /\ (forall m, In m log -> timestamp m <= now).
Proof.
  intros fresh_id now text isUser prev Hsorted Hpast log. subst log.
  destruct (onTranscript_cases fresh_id now text isUser prev) as [E | E]; rewrite E.
  - split; [apply firstn_all | split; assumption].
  - split; [| split].
    + rewrite firstn_app, firstn_all, Nat.sub_diag. simpl. apply app_nil_r.
    + rewrite map_app. simpl. apply Sorted_snoc; [assumption |].
      intros y Hy. apply in_map_iff in Hy. destruct Hy as [m [<- Hm]]. now apply Hpast.
    + intros m Hm. apply in_app_or in Hm. destruct Hm as [Hm | [<- | []]].
      * now apply Hpast.
      * simpl. lia.
Qed.

Lemma admission_keeps_order_witness :
  Sorted Z.le (map timestamp
                 (onTranscript "b" 7000 "Bonjour" true
                    [mkMessage "a" "Bonsoir" bot 1000])).
Proof.
  apply (admission_keeps_order "b" 7000 "Bonjour" true
           [mkMessage "a" "Bonsoir" bot 1000]).
  - repeat constructor.
  - intros m [<- | []]. simpl. lia.
Defined.

End Bursts.

(** ** The simulator: countdown *)

Section Countdown.

Import PatientSession.

Variable Number : Type.
Variable Number_of_Z : Z -> Number.
Variable Number_sub : Number -> Number -> Number.
Variable Number_le : Number -> Number -> bool.
Variable Number_lt : Number -> Number -> bool.

Lemma seconds_stopped (n : nat) (s : State Number) :
  interval_installed Number_of_Z Number_lt s = false ->
  seconds Number_of_Z Number_sub Number_le Number_lt n s = s.
Proof.
  intros H. induction n as [| n IH]; simpl; [reflexivity |].
  unfold second. rewrite H. exact IH.
Qed.

(** X12. The countdown runs down to zero and stops there.  From [T]
    seconds, [T] a whole number from 1 to 2^53 (where subtracting one from
    a double and comparing it with one and with zero are exact), in an
    active session, after [n] periods of the interval the time left is
    [T - n], or zero once [n] reaches [T]; the session is completed exactly
    from period [T] on; the log, the progress and the form are not
    touched. *)
Theorem countdown_reaches_zero :
  forall (n : nat) (s : State Number) (T : Z),
    counts_exactly Number_of_Z Number_sub Number_le Number_lt ->
    timeRemaining s = Some (Number_of_Z T) ->
    1 <= T <= 2 ^ 53 ->
    sessionStatus s = active ->
    let s' := seconds Number_of_Z Number_sub Number_le Number_lt n s in
    timeRemaining s' = Some (Number_of_Z (Z.max 0 (T - Z.of_nat n)))
    /\ sessionStatus s' = (if Z.of_nat n <? T then active else completed)
    /\ messages s' = messages s
    /\ progress s' = progress s
    /\ isLoading s' = isLoading s
    /\ inputValue s' = inputValue s.
Proof.
  intros n s T Exact. revert s T.
  induction n as [| n IH]; intros s T Ht HT Hs; cbv zeta.
  - simpl seconds. rewrite Ht, Hs.
    replace (Z.of_nat 0 <? T) with true by (symmetry; apply Z.ltb_lt; simpl; lia).
    repeat split; try reflexivity. do 2 f_equal. simpl. lia.
  - simpl seconds.
    destruct (Exact T HT) as [Esub [Ele Elt]].
    assert (Hinst : interval_installed Number_of_Z Number_lt s = true).
    { unfold interval_installed. rewrite Ht, Hs. exact Elt. }
    unfold second. rewrite Hinst. unfold tick. rewrite Ht, Ele.
    destruct (Z.leb_spec T 1) as [Hle | Hgt].
    + assert (T = 1) by lia. subst T.
      rewrite seconds_stopped by reflexivity.
      unfold setTimeRemaining, setSessionStatus.
      cbn [timeRemaining sessionStatus messages progress isLoading inputValue].
      replace (Z.of_nat (S n) <? 1) with false
        by (symmetry; apply Z.ltb_ge; lia).
      repeat split; try reflexivity. do 2 f_equal. lia.
    + rewrite Esub.
      destruct (IH (setTimeRemaining (Some (Number_of_Z (T - 1))) s) (T - 1))
        as [H1 [H2 [H3 [H4 [H5 H6]]]]];
        [reflexivity | lia | exact Hs |].
      rewrite H1, H2.
      repeat split; try assumption.
      * do 2 f_equal. lia.
      * destruct (Z.ltb_spec (Z.of_nat n) (T - 1)), (Z.ltb_spec (Z.of_nat (S n)) T);
          try reflexivity; lia.
Qed.

End Countdown.

Lemma countdown_reaches_zero_witness :
  let s := PatientSession.setTimeRemaining (Some 3) (PatientSession.mounted Z 0) in
  let s' := PatientSession.seconds (fun z => z) Z.sub Z.leb Z.ltb 5 s in
  PatientSession.timeRemaining s' = Some (Z.max 0 (3 - Z.of_nat 5))
  /\ PatientSession.sessionStatus s'
     = (if Z.of_nat 5 <? 3 then PatientSession.active else PatientSession.completed).
Proof.
  cbv zeta.
  assert (counts_exactly (fun z => z) Z.sub Z.leb Z.ltb) as Exact.
  { intros n Hn. repeat split. apply Z.ltb_lt. lia. }
  pose proof (countdown_reaches_zero Z (fun z => z) Z.sub Z.leb Z.ltb 5
                (PatientSession.setTimeRemaining (Some 3) (PatientSession.mounted Z 0)) 3
                Exact eq_refl ltac:(lia) eq_refl) as H.
  cbv zeta in H. destruct H as [H1 [H2 _]].
  split; [exact H1 | exact H2].
Defined.

(** ** The simulator: text exchange *)

Section TextExchange.

Import PatientSimulator PatientSession.

Variable sessionId : Z.
Variable trim : string -> string.
Variable as_content : json -> string.
Variable Number : Type.
Variable Number_of_Z : Z -> Number.
Variable ToNumber : json -> Number.
Variable Number_mul : Number -> Number -> Number.
Variable Number_sub : Number -> Number -> Number.
Variable Number_le : Number -> Number -> bool.
Variable Number_lt : Number -> Number -> bool.

(** X13. One text exchange, from the press on Send to the end.  When
    the trimmed input is not empty and nothing is loading, one request is
    made, carrying the trimmed input and the log as it was before.  When
    the exchange is over the log has gained exactly two entries, the user's
    message and then a bot message: the text of the reply (shown after the
    typing delay, with the progress raised by ten up to a hundred), or an
    apology when the request failed, in which case the session is in error
    and the progress is unchanged.  Either way the input is empty and the
    form no longer loading. *)
Theorem exchange_appends_two :
  forall (s : State Number) (id1 now1 id2 now2 : Z) (reply : Response json),
    trim (inputValue s) <> EmptyString ->
    isLoading s = false ->
    let sent := handleSendMessage sessionId trim id1 now1 s in
    let answered := sendMessageToAPI as_content id2 now2 reply (fst sent) in
    let finished := match snd answered with
                    | Some botResponse => typing_delay_elapsed botResponse (fst answered)
                    | None => fst answered
                    end in
    snd sent = Some (chat_request sessionId (trim (inputValue s)) (messages s))
    /\ messages finished
       = messages s
         ++ [mkMessage (Number_toString id1) (trim (inputValue s)) user now1;
             mkMessage (Number_toString (id2 + 1))
               (match reply_text as_content reply with
                | Some text => text
                | None => send_error_text
                end) bot now2]
    /\ progress finished
       = (match reply_text as_content reply with
          | Some _ => Z.min (progress s + 10) 100
          | None => progress s
          end)
    /\ sessionStatus finished
       = (match reply_text as_content reply with
          | Some _ => sessionStatus s
          | None => error
          end)
    /\ isLoading finished = false
    /\ inputValue finished = EmptyString.
Proof.
  intros s id1 now1 id2 now2 reply Hinput Hloading sent answered finished.
  subst finished answered sent.
  unfold handleSendMessage, reply_text, replied.
  rewrite Hloading.
  destruct (String.eqb_spec (trim (inputValue s)) EmptyString) as [E | _];
    [contradiction |].
  cbn [orb fst snd].
  unfold sendMessageToAPI.
  destruct reply as [e | [|] st [data | e]];
    try destruct (response_content as_content data) as [text | e];
    cbn [fst snd];
    unfold typing_delay_elapsed, send_failed, setIsLoading, setInputValue,
      setMessages, setProgress, setSessionStatus;
    cbn [messages progress sessionStatus isLoading inputValue];
    rewrite <- ?app_assoc; repeat split; reflexivity.
Qed.

Lemma simulator_invariant_step (w : World Number) (e : Event) :
  simulator_invariant w ->
  simulator_invariant
    (step sessionId trim as_content Number_of_Z ToNumber Number_mul Number_sub
          Number_le Number_lt w e).
Proof.
  destruct w as [s n ts pending]. unfold simulator_invariant.
  cbn [state in_flight timers scenario_pending].
  intros [Hp [Hone [[welcome [rest [Hm Hid]]] Hpending]]].
  destruct e as [reply | text | id_now now | id_now now reply | | fresh_id now text isUser |];
    cbn [step state in_flight timers scenario_pending].
  - (* ScenarioReplied *)
    destruct pending; cbn [state in_flight timers scenario_pending];
      [| repeat split; try lia; try assumption; eauto].
    unfold fetchScenarioData, scenario_failed.
    destruct reply as [e | [|] st [data | e]];
      try destruct (scenario_duration data) as [duration | e];
      unfold setTimeRemaining, setScenarioDuration; cbn;
      repeat split; try lia; try assumption; eauto.
  - (* Typed *)
    unfold setInputValue; cbn. repeat split; try lia; try assumption. eauto.
  - (* SendPressed *)
    unfold handleSendMessage.
    destruct (String.eqb (trim (inputValue s)) EmptyString || isLoading s) eqn:G;
      cbn [state in_flight timers scenario_pending].
    + repeat split; try lia; try assumption. eauto.
    + apply orb_false_iff in G. destruct G as [_ G]. rewrite G in Hone.
      unfold setIsLoading, setInputValue, setMessages; cbn.
      repeat split; try lia; try assumption.
      exists welcome, (rest ++ [mkMessage (Number_toString id_now)
                                   (trim (inputValue s)) user now]).
      rewrite Hm. split; [reflexivity | assumption].
  - (* ChatReplied *)
    destruct n as [| n]; cbn [state in_flight timers scenario_pending].
    + repeat split; try lia; try assumption. eauto.
    + destruct (isLoading s) eqn:L; [| simpl in Hone; lia].
      assert (n = 0%nat /\ ts = []) as [-> ->].
      { destruct ts; simpl in Hone; [split; [lia | reflexivity] | lia]. }
      unfold sendMessageToAPI.
      destruct reply as [e | [|] st [data | e]];
        try destruct (response_content as_content data) as [text | e];
        cbn [state in_flight timers scenario_pending];
        unfold send_failed, setIsLoading, setMessages, setSessionStatus; cbn;
        rewrite ?L; repeat split; try lia; try assumption;
        try (exists welcome, rest; split; assumption);
        try (eexists welcome, _; rewrite Hm; split; [reflexivity | assumption]).
  - (* TimerFired *)
    destruct ts as [| b ts]; cbn [state in_flight timers scenario_pending].
    + repeat split; try lia; try assumption. eauto.
    + destruct (isLoading s) eqn:L; [| simpl in Hone; lia].
      assert (n = 0%nat /\ ts = []) as [-> ->].
      { destruct ts; simpl in Hone; [split; [lia | reflexivity] | lia]. }
      unfold typing_delay_elapsed, setIsLoading, setProgress, setMessages; cbn.
      repeat split; try lia; try assumption.
      eexists welcome, _. rewrite Hm. split; [reflexivity | assumption].
  - (* VoiceReported *)
    unfold voice_transcript, setMessages; cbn.
    repeat split; try lia; try assumption.
    destruct (onTranscript_cases fresh_id now text isUser (messages s)) as [E | E];
      rewrite E, Hm.
    + eauto.
    + eexists welcome, _. split; [reflexivity | assumption].
  - (* SecondElapsed *)
    unfold second, tick, interval_installed.
    destruct (timeRemaining s) as [prev |] eqn:Tr;
      [| repeat split; try lia; try assumption; eauto; destruct pending; auto].
    assert (pending = false) as ->
        by (destruct pending; [try rewrite Tr in Hpending; discriminate Hpending | reflexivity]).
    destruct (sessionStatus s);
      try (repeat split; try lia; try assumption; eauto; fail).
    destruct (Number_lt (Number_of_Z 0) prev);
      [| repeat split; try lia; try assumption; eauto].
    destruct (Number_le prev (Number_of_Z 1));
      unfold setTimeRemaining, setSessionStatus; cbn;
      repeat split; try lia; try assumption; eauto.
Qed.

(** X14. Whatever the user, the two servers (the reply to the scenario
    request of the mount effect and the replies to the chat requests), the
    timers, the voice channel and the clock do, in whatever order, and
    whatever the arithmetic of the platform makes of the duration and of
    the seconds left, the simulator keeps its progress between 0 and 100,
    has at most one text exchange under way and is loading exactly while
    one is, keeps the welcome message at the head of its log, and does not
    start its countdown before the scenario request is answered. *)
Theorem simulator_invariant_always :
  forall (events : list Event) (now : Z),
    simulator_invariant
      (run sessionId trim as_content Number_of_Z ToNumber Number_mul Number_sub
           Number_le Number_lt (mkWorld (mounted Number now) 0 [] true) events).
Proof.
  intros events now.
  assert (Hinit : simulator_invariant (mkWorld (mounted Number now) 0 [] true)).
  { unfold simulator_invariant. cbn. repeat split; try lia. eauto. }
  revert Hinit. generalize (mkWorld (mounted Number now) 0 [] true) as w.
  unfold run. induction events as [| e events IH]; intros w Hw; simpl.
  - exact Hw.
  - apply IH. now apply simulator_invariant_step.
Qed.

End TextExchange.

Lemma exchange_appends_two_witness :
  let s := PatientSession.setInputValue "J'ai mal a la tete "
             (PatientSession.mounted Z 0) in
  snd (PatientSession.handleSendMessage 42 (fun x => x) 1000 1000 s)
  = Some (PatientSession.chat_request 42 "J'ai mal a la tete "
            [PatientSimulator.mkMessage "welcome" PatientSession.welcome_text
               PatientSimulator.bot 0]).
Proof.
  cbv zeta.
  apply (exchange_appends_two 42 (fun x => x) (fun _ => EmptyString) Z
           (PatientSession.setInputValue "J'ai mal a la tete " (PatientSession.mounted Z 0))
           1000 1000 2000 2000 (NetworkError (Error "offline"))).
  - discriminate.
  - reflexivity.
Defined.

(** ** The simulator: time display *)

Section TimeDisplay.

Import PatientSession.

Variable Number : Type.
Variable Number_of_Z : Z -> Number.
Variable Number_div : Number -> Number -> Number.
Variable Number_rem : Number -> Number -> Number.
Variable Math_floor : Number -> Number.
Variable toString : Number -> string.

Lemma Number_parse_toString (z : Z) : Number_parse (Number_toString z) = Some z.
Proof.
  unfold Number_parse, Number_toString.
  pose proof (DecimalZ.of_to z) as Hz.
  destruct (Z.to_int z) as [[| | | | | | | | | |] | [| | | | | | | | | |]] eqn:E;
    try (rewrite DecimalString.NilZero.isi by discriminate; simpl; now rewrite <- Hz).
  - rewrite DecimalString.NilZero.isi_posnil. simpl. now rewrite <- Hz.
  - rewrite DecimalString.NilZero.isi_negnil. simpl. now rewrite <- Hz.
Qed.

Lemma string_length_append (a b : string) :
  String.length (a ++ b) = (String.length a + String.length b)%nat.
Proof. induction a as [| c a IH]; simpl; [reflexivity | now rewrite IH]. Qed.

Lemma string_append_inj (a b x y : string) :
  String.length a = String.length b ->
  (a ++ x)%string = (b ++ y)%string -> a = b /\ x = y.
Proof.
  revert b. induction a as [| c a IH]; intros [| d b] Hlen H; simpl in *;
    try discriminate.
  - auto.
  - inversion H; subst. inversion Hlen as [Hlen'].
    destruct (IH b Hlen' H2) as [-> ->]. auto.
Qed.

Lemma two_digits (r : Z) :
  0 <= r < 60 ->
  String.length (padStart2 (Number_toString r)) = 2%nat
  /\ Number_parse (padStart2 (Number_toString r)) = Some r.
Proof.
  intros Hr.
  assert (exists n, (n < 60)%nat /\ r = Z.of_nat n) as [n [Hn ->]]
    by (exists (Z.to_nat r); lia).
  clear Hr.
  do 60 (destruct n as [| n]; [vm_compute; split; reflexivity |]).
  lia.
Qed.

(** X15. On the whole numbers of seconds from 0 to 2^53, where the
    division, the remainder and the conversion to a string of doubles are
    those of the whole numbers, the time display is the decimal numeral of
    the minutes, a colon, and exactly two characters that read back as the
    seconds within the minute; so two different such times are never
    displayed alike. *)
Theorem formatTime_faithful :
  forall (a b : Z),
    divides_exactly Number_of_Z Number_div Number_rem Math_floor toString ->
    0 <= a <= 2 ^ 53 ->
    0 <= b <= 2 ^ 53 ->
    (exists ss,
        formatTime Number_of_Z Number_div Number_rem Math_floor toString (Number_of_Z a)
        = (Number_toString (a / 60) ++ ":" ++ ss)%string
        /\ String.length ss = 2%nat
        /\ Number_parse ss = Some (a mod 60))
    /\ (formatTime Number_of_Z Number_div Number_rem Math_floor toString (Number_of_Z a)
        = formatTime Number_of_Z Number_div Number_rem Math_floor toString (Number_of_Z b)
        -> a = b).
Proof.
  intros a b Exact Ha Hb.
  assert (Hshape : forall s, 0 <= s <= 2 ^ 53 ->
            formatTime Number_of_Z Number_div Number_rem Math_floor toString
                       (Number_of_Z s)
            = (Number_toString (s / 60) ++ ":"
               ++ padStart2 (Number_toString (s mod 60)))%string).
  { intros s Hs. unfold formatTime.
    destruct (Exact s Hs) as [Hfloor [Hrem _]].
    rewrite Hfloor, Hrem.
    assert (0 <= s / 60 <= 2 ^ 53) as Hq.
    { split; [apply Z.div_pos; lia |].
      apply Z.le_trans with s; [| lia]. apply Z.div_le_upper_bound; lia. }
    assert (0 <= s mod 60 <= 2 ^ 53) as Hr.
    { pose proof (Z.mod_pos_bound s 60 ltac:(lia)).
      assert (60 <= 2 ^ 53) by (vm_compute; discriminate). lia. }
    destruct (Exact _ Hq) as [_ [_ ->]]. destruct (Exact _ Hr) as [_ [_ ->]].
    reflexivity. }
  assert (Hda : 0 <= a mod 60 < 60) by (apply Z.mod_pos_bound; lia).
  assert (Hdb : 0 <= b mod 60 < 60) by (apply Z.mod_pos_bound; lia).
  destruct (two_digits _ Hda) as [Hla Hpa].
  destruct (two_digits _ Hdb) as [Hlb Hpb].
  split.
  - exists (padStart2 (Number_toString (a mod 60))).
    split; [now apply Hshape | split; assumption].
  - rewrite (Hshape a Ha), (Hshape b Hb). intros H.
    assert (Hlen : String.length (Number_toString (a / 60))
                   = String.length (Number_toString (b / 60))).
    { apply (f_equal String.length) in H.
      rewrite !string_length_append, Hla, Hlb in H. simpl in H. lia. }
    destruct (string_append_inj _ _ _ _ Hlen H) as [Hm Hs].
    inversion Hs as [Hs'].
    assert (Hq : a / 60 = b / 60).
    { apply (f_equal Number_parse) in Hm.
      rewrite !Number_parse_toString in Hm. congruence. }
    assert (Hr : a mod 60 = b mod 60).
    { rewrite Hs' in Hpa. congruence. }
    rewrite (Z.div_mod a 60), (Z.div_mod b 60) by lia.
    now rewrite Hq, Hr.
Qed.

End TimeDisplay.

Lemma formatTime_faithful_witness :
  exists ss,
    PatientSession.formatTime (fun z => z) Z.div Z.modulo (fun z => z)
                              PatientSession.Number_toString 605
    = (PatientSession.Number_toString (605 / 60) ++ ":" ++ ss)%string
    /\ String.length ss = 2%nat
    /\ Number_parse ss = Some (605 mod 60).
Proof.
  assert (divides_exactly (fun z => z) Z.div Z.modulo (fun z => z)
                          PatientSession.Number_toString) as Exact
      by (intros a Ha; repeat split).
  apply (formatTime_faithful Z (fun z => z) Z.div Z.modulo (fun z => z)
           PatientSession.Number_toString 605 0 Exact); vm_compute; split; discriminate.
Defined.

(** ** The patient service (EcosService, OpenAIService) *)

Section PatientService.

Import Backend.

Variable ToString_other : json -> string.

Lemma slice_last_app {A} (old recent : list A) :
  slice_last (List.length recent) (old ++ recent) = recent.
Proof.
  unfold slice_last.
  rewrite length_app.
  replace (List.length old + List.length recent - List.length recent)%nat
    with (List.length old + 0)%nat by lia.
  rewrite skipn_app, Nat.add_0_r, skipn_all.
  replace (List.length old - List.length old)%nat with 0%nat by lia.
  reflexivity.
Qed.

Lemma slice_last_all {A} (l : list A) : slice_last (List.length l) l = l.
Proof. exact (slice_last_app [] l). Qed.

(** X16. Only the last five items of the conversation history reach the
    patient service: with a history of five items [recent] preceded by any
    older items [old] (well formed or not), [getPatientResponse] makes the
    same calls, with the same prompt, and returns the same as with [recent]
    alone. *)
Theorem history_window (userMessage scenario : json) (old recent : list json)
        (retrieved : result (list string)) (answer : result json) :
  List.length recent = 5%nat ->
  getPatientResponse ToString_other userMessage scenario (Some (JArr (old ++ recent)))
                     retrieved answer
  = getPatientResponse ToString_other userMessage scenario (Some (JArr recent))
                       retrieved answer.
Proof.
  intros H.
  unfold getPatientResponse, history_lines.
  rewrite <- H, slice_last_app, slice_last_all.
  reflexivity.
Qed.

(** X17. What the vector index answers never decides the outcome of
    [getPatientResponse]: whether retrieval fails, finds nothing or finds
    documents, the function makes the same number of calls and returns or
    throws the same. *)
Theorem retrieval_never_decides (userMessage scenario : json)
        (conversationHistory : option json)
        (retrieved retrieved' : result (list string)) (answer : result json) :
  snd (getPatientResponse ToString_other userMessage scenario conversationHistory
                          retrieved answer)
  = snd (getPatientResponse ToString_other userMessage scenario conversationHistory
                            retrieved' answer)
  /\ List.length (fst (getPatientResponse ToString_other userMessage scenario
                                          conversationHistory retrieved answer))
     = List.length (fst (getPatientResponse ToString_other userMessage scenario
                                            conversationHistory retrieved' answer)).
Proof.
  unfold getPatientResponse, retrieve, createCompletion.
  destruct scenario; try (split; reflexivity);
    cbn [field];
    repeat match goal with
           | |- context [match assoc ?k ?f with _ => _ end] => destruct (assoc k f)
           | |- context [if truthy ?v then _ else _] => destruct (truthy v)
           end;
    destruct (history_lines ToString_other conversationHistory);
    destruct answer; split; reflexivity.
Qed.

(** X18. [getPatientResponse] never lets an internal error out and asks
    for at most one completion: whatever it is given, it either returns
    after exactly one completion request or throws the one error
    [patient_error]; every completion request it makes names the model
    gpt-4o, temperature 0.7 and 300 tokens, and its second message is the
    student's message. *)
Theorem patient_failures_collapse (userMessage scenario : json)
        (conversationHistory : option json)
        (retrieved : result (list string)) (answer : result json) :
  let out := getPatientResponse ToString_other userMessage scenario conversationHistory
                                retrieved answer in
  match snd out with
  | Ok _ => List.length (completions (fst out)) = 1%nat
  | Throw e => e = patient_error /\ (List.length (completions (fst out)) <= 1)%nat
  end
  /\ Forall (patient_request userMessage) (completions (fst out)).
Proof.
  unfold getPatientResponse, retrieve, createCompletion.
  destruct scenario;
    cbn [field];
    repeat match goal with
           | |- context [match assoc ?k ?f with _ => _ end] => destruct (assoc k f)
           | |- context [if truthy ?v then _ else _] => destruct (truthy v)
           end;
    destruct (history_lines ToString_other conversationHistory);
    try destruct answer as [r | e]; try destruct (patient_response r);
    cbn; repeat split; auto;
    try (constructor; [| constructor]; cbn; repeat split; eauto).
Qed.


End PatientService.

Lemma history_window_witness :
  Backend.getPatientResponse (fun _ => "?") (JStr "Où avez-vous mal ?")
    (JObj [("title", JStr "Douleur thoracique")])
    (Some (JArr ([JNull; JNum 3]
                 ++ [JObj [("role", JStr "user"); ("content", JStr "a")];
                     JObj [("role", JStr "assistant"); ("content", JStr "b")];
                     JObj [("role", JStr "user"); ("content", JStr "c")];
                     JObj [("role", JStr "assistant"); ("content", JStr "d")];
                     JObj [("role", JStr "user"); ("content", JStr "e")]])))
    (Ok []) (Throw (Error "down"))
  = Backend.getPatientResponse (fun _ => "?") (JStr "Où avez-vous mal ?")
      (JObj [("title", JStr "Douleur thoracique")])
      (Some (JArr [JObj [("role", JStr "user"); ("content", JStr "a")];
                   JObj [("role", JStr "assistant"); ("content", JStr "b")];
                   JObj [("role", JStr "user"); ("content", JStr "c")];
                   JObj [("role", JStr "assistant"); ("content", JStr "d")];
                   JObj [("role", JStr "user"); ("content", JStr "e")]]))
      (Ok []) (Throw (Error "down")).
Proof. apply history_window. reflexivity. Defined.

(** ** Registration of students (findOrCreateStudent) *)

Section Registration.

Import Backend Routes.

Lemma Users_get_app_None email entry (users : Users) :
  Users_get email users = None ->
  Users_get email (users ++ [(email, entry)]) = Some entry.
Proof.
  induction users as [| [k v] rest IH]; simpl.
  - now rewrite String.eqb_refl.
  - destruct (String.eqb email k); [discriminate | exact IH].
Qed.

Lemma Users_get_app_Some email other entry found (users : Users) :
  Users_get other users = Some found ->
  Users_get other (users ++ [(email, entry)]) = Some found.
Proof.
  induction users as [| [k v] rest IH]; simpl; [discriminate |].
  destruct (String.eqb other k); auto.
Qed.

(** X20. While the database does not serve registrations, a student keeps
    the identifier of the first registration: a second [findOrCreateStudent]
    for the same email returns the identifier the first one returned, says
    the user is not new, and leaves the in-memory users as the first call
    left them, whatever identifiers and dates the second call could have
    generated. *)
Theorem fallback_registration_stable (email : string)
        (selected selected' : result (list string)) (inserted inserted' : result unit)
        (fresh_db fresh_mem fresh_db' fresh_mem' : string) (now now' : Z)
        (inMemoryUsers : Users) :
  database_failed selected inserted = true ->
  database_failed selected' inserted' = true ->
  let first := findOrCreateStudent email selected inserted fresh_db fresh_mem now
                                   inMemoryUsers in
  let second := findOrCreateStudent email selected' inserted' fresh_db' fresh_mem' now'
                                    (fst (fst first)) in
  snd second = (fst (snd first), false)
  /\ fst (fst second) = fst (fst first).
Proof.
  intros H H'.
  assert (forall s i fd fm t users,
             database_failed s i = true ->
             exists calls,
               findOrCreateStudent email s i fd fm t users
               = match Users_get email users with
                 | Some user => (users, calls, (fst user, false))
                 | None => (users ++ [(email, (fm, t))], calls, (fm, true))
                 end) as fallback.
  { intros s i fd fm t users F. unfold findOrCreateStudent.
    destruct s as [[| x l] | e]; try destruct i; try discriminate; eexists; reflexivity. }
  destruct (fallback _ _ fresh_db fresh_mem now inMemoryUsers H) as [calls ->].
  cbv zeta.
  destruct (Users_get email inMemoryUsers) as [user |] eqn:E; cbn [fst snd].
  - destruct (fallback _ _ fresh_db' fresh_mem' now' inMemoryUsers H') as [calls' ->].
    rewrite E. split; reflexivity.
  - destruct (fallback _ _ fresh_db' fresh_mem' now'
                       (inMemoryUsers ++ [(email, (fresh_mem, now))]) H') as [calls' ->].
    rewrite (Users_get_app_None _ _ _ E). split; reflexivity.
Qed.

(** X21. [findOrCreateStudent] never loses or changes an in-memory
    registration: a user found under an email before the call is found
    unchanged after it, whatever the database answers and whoever the call
    is for. *)
Theorem registrations_kept (email other : string) (found : string * Z)
        (selected : result (list string)) (inserted : result unit)
        (fresh_db fresh_mem : string) (now : Z) (inMemoryUsers : Users) :
  Users_get other inMemoryUsers = Some found ->
  Users_get other
    (fst (fst (findOrCreateStudent email selected inserted fresh_db fresh_mem now
                                   inMemoryUsers)))
  = Some found.
Proof.
  intros H. unfold findOrCreateStudent.
  destruct selected as [[| x l] | e]; try destruct inserted;
    try destruct (Users_get email inMemoryUsers);
    cbn [fst snd]; auto using Users_get_app_Some.
Qed.

End Registration.

Lemma fallback_registration_stable_witness :
  database_failed (Throw (Error "ECONNREFUSED")) (Ok tt) = true
  /\ database_failed (Ok []) (Throw (Error "timeout")) = true
  /\ snd (Routes.findOrCreateStudent "a@example.org" (Ok []) (Throw (Error "timeout"))
            "db2" "mem2" 20
            (fst (fst (Routes.findOrCreateStudent "a@example.org"
                         (Throw (Error "ECONNREFUSED")) (Ok tt) "db1" "mem1" 10 []))))
     = ("mem1", false).
Proof.
  split; [reflexivity | split; [reflexivity |]].
  exact (proj1 (fallback_registration_stable "a@example.org"
                  (Throw (Error "ECONNREFUSED")) (Ok []) (Ok tt) (Throw (Error "timeout"))
                  "db1" "mem1" "db2" "mem2" 10 20 [] eq_refl eq_refl)).
Defined.

Lemma registrations_kept_witness :
  Routes.Users_get "a@example.org"
    (fst (fst (Routes.findOrCreateStudent "b@example.org" (Throw (Error "down")) (Ok tt)
                 "db" "mem" 30 [("a@example.org", ("user_a", 10))])))
  = Some ("user_a", 10).
Proof. apply registrations_kept. reflexivity. Defined.

(** ** The administration routes *)

Section AdminRoutes.

Import Backend Routes.

Variable toLowerCase : string -> string.
Variable trim : string -> string.
Variable ToString_other : json -> string.
Variable decodeURIComponent : string -> result string.
Variable js_length : json -> option Z.

(** X22. The administration routes for the synchronisation of
    scenarios, the teacher's scenarios, the indexes (list, switch, creation)
    and the documents (list, addition, deletion) serve no caller who is not
    an administrator: when the email of the request (in the body or in the
    query) is not authorized, each of these eight routes replies with a
    status other than 200 and calls no service, whatever else the request
    holds and whatever the services would have answered. *)
Theorem admin_guard (request : json) (email : option json) (id : string)
        (done : result unit) (listed : result json) :
  isAdminAuthorized toLowerCase trim (prop "email" request) = false ->
  isAdminAuthorized toLowerCase trim email = false ->
  refused (switch_index toLowerCase trim ToString_other request done) = true
  /\ refused (create_index toLowerCase trim ToString_other request done) = true
  /\ refused (add_document toLowerCase trim js_length request done) = true
  /\ refused (delete_document toLowerCase trim decodeURIComponent email id done) = true
  /\ refused (get_documents toLowerCase trim email listed) = true
  /\ refused (list_indexes toLowerCase trim email listed) = true
  /\ refused (sync_scenarios toLowerCase trim email done) = true
  /\ refused (teacher_scenarios toLowerCase trim email listed) = true.
Proof.
  intros Hbody Hquery.
  assert (denied toLowerCase trim email = true) as D
      by (unfold denied; rewrite Hquery; apply orb_true_r).
  unfold prop in Hbody.
  repeat split.
  - unfold switch_index.
    destruct (get "email" request) as [e |] eqn:E;
      destruct (get "indexName" request) as [i |]; try reflexivity.
    rewrite Hbody.
    destruct (negb (truthy_opt i) || negb (truthy_opt e)); reflexivity.
  - unfold create_index.
    destruct (get "email" request) as [e |] eqn:E;
      destruct (get "name" request) as [n |];
      destruct (get "dimension" request) as [d |]; try reflexivity.
    rewrite Hbody.
    destruct (negb (truthy_opt n) || negb (truthy_opt d) || negb (truthy_opt e));
      reflexivity.
  - unfold add_document.
    destruct (get "email" request) as [e |] eqn:E;
      destruct (get "title" request) as [t |];
      destruct (get "content" request) as [[c |] |];
      destruct (get "category" request) as [g |]; try reflexivity.
    rewrite Hbody.
    destruct (negb (truthy_opt t) || negb (truthy c) || negb (truthy_opt e));
      reflexivity.
  - unfold delete_document.
    destruct (decodeURIComponent id); [rewrite D |]; reflexivity.
  - unfold get_documents. rewrite D. reflexivity.
  - unfold list_indexes. rewrite D. reflexivity.
  - unfold sync_scenarios. rewrite D. reflexivity.
  - unfold teacher_scenarios. rewrite D. reflexivity.
Qed.

End AdminRoutes.

Lemma admin_guard_witness :
  refused (Routes.switch_index (fun s => s) (fun s => s) (fun _ => "?")
             (JObj [("indexName", JStr "cardio"); ("email", JStr "student@example.org")])
             (Ok tt)) = true.
Proof.
  refine (proj1 (admin_guard (fun s => s) (fun s => s) (fun _ => "?") (fun s => Ok s)
                   (fun _ => None)
                   (JObj [("indexName", JStr "cardio"); ("email", JStr "student@example.org")])
                   (Some (JStr "student@example.org")) "doc" (Ok tt) (Ok JNull) _ _));
    reflexivity.
Defined.

(** ** The session store and the chat route *)

Section StoreLemmas.

Import Backend Routes.

Lemma Map_get_set (k k' : Z) (v : Session) (m : Store) :
  Map_get k (Map_set k' v m) = if k =? k' then Some v else Map_get k m.
Proof.
  induction m as [| [k0 v0] rest IH]; simpl.
  - destruct (k =? k'); reflexivity.
  - destruct (Z.eqb_spec k' k0) as [-> | N]; simpl.
    + destruct (k =? k0); reflexivity.
    + rewrite IH. destruct (Z.eqb_spec k k0) as [-> | N'].
      * destruct (Z.eqb_spec k0 k'); [congruence | reflexivity].
      * reflexivity.
Qed.

Lemma Map_get_In (k : Z) (v : Session) (m : Store) :
  Map_get k m = Some v -> In (k, v) m.
Proof.
  induction m as [| [k0 v0] rest IH]; simpl; [discriminate |].
  destruct (Z.eqb_spec k k0) as [-> | N].
  - intros [= ->]. now left.
  - intros H. right. auto.
Qed.

Lemma Map_set_keys (k : Z) (v v' : Session) (m : Store) :
  Map_get k m = Some v' -> map fst (Map_set k v m) = map fst m.
Proof.
  induction m as [| [k0 v0] rest IH]; simpl; [discriminate |].
  destruct (Z.eqb_spec k k0) as [-> | N]; simpl.
  - reflexivity.
  - intros H. now rewrite IH.
Qed.

Lemma Map_set_fresh (k : Z) (v : Session) (m : Store) :
  Map_get k m = None -> Map_set k v m = m ++ [(k, v)].
Proof.
  induction m as [| [k0 v0] rest IH]; simpl; [reflexivity |].
  destruct (k =? k0); [discriminate |].
  intros H. now rewrite IH.
Qed.

Lemma Map_get_None_keys (k : Z) (m : Store) :
  Map_get k m = None -> ~ In k (map fst m).
Proof.
  induction m as [| [k0 v0] rest IH]; simpl; [tauto |].
  destruct (Z.eqb_spec k k0) as [-> | N]; [discriminate |].
  intros H [E | I]; [congruence | exact (IH H I)].
Qed.

Lemma Map_set_Forall (P : Z * Session -> Prop) (k : Z) (v : Session) (m : Store) :
  P (k, v) -> Forall P m -> Forall P (Map_set k v m).
Proof.
  intros Pv. induction 1 as [| [k0 v0] rest P0 F IH]; simpl.
  - auto.
  - destruct (Z.eqb_spec k k0) as [-> | N]; constructor; auto.
Qed.

Lemma Map_get_value_found key (k : Z) (session : Session) (m : Store) :
  Map_get_value key m = Some (k, session) -> Map_get k m = Some session.
Proof.
  unfold Map_get_value.
  destruct (Map_key key) as [k' |]; [| discriminate].
  destruct (Map_get k' m) eqn:E; [| discriminate].
  intros [= <- <-]. exact E.
Qed.

Lemma Map_set_NoDup (k : Z) (v : Session) (m : Store) :
  NoDup (map fst m) -> NoDup (map fst (Map_set k v m)).
Proof.
  intros N.
  destruct (Map_get k m) as [v' |] eqn:E.
  - now rewrite (Map_set_keys k v v' m E).
  - rewrite (Map_set_fresh k v m E), map_app. simpl.
    apply NoDup_app; auto.
    + constructor; [simpl; tauto | constructor].
    + intros x I [<- | []]. exact (Map_get_None_keys _ _ E I).
Qed.

Lemma alternating_app (l l' : list ChatMessage) :
  alternating l = true -> alternating (l ++ l') = alternating l'.
Proof.
  assert (forall n (m : list ChatMessage),
             (List.length m <= n)%nat ->
             alternating m = true -> alternating (m ++ l') = alternating l') as H.
  { induction n as [| n IH]; intros [| u [| a rest]] L A; simpl in *;
      try reflexivity; try discriminate; try lia.
    rewrite !andb_true_iff in A. destruct A as [[[A1 A2] A3] A4].
    rewrite A1, A2, A3. simpl. apply IH; [lia | exact A4]. }
  apply (H (List.length l)). lia.
Qed.

Lemma assoc_set_field (k : string) (v : json) (fields : list (string * json)) :
  assoc k (set_field k v fields) = Some v.
Proof.
  induction fields as [| [k' v'] rest IH]; simpl.
  - now rewrite String.eqb_refl.
  - destruct (String.eqb k k') eqn:E; simpl; rewrite E; auto.
Qed.

End StoreLemmas.

Section Sessions.

Import Backend Routes.

Variable is_email : string -> bool.
Variable StringToNumber : string -> option Q.
Variable ToString_other : json -> string.
Variable toISOString : Z -> string.
Variable zod_issues : json -> json.
Variable development : bool.

(** X23. A created session is found under the identifier the reply
    gives, empty and in progress, and sessions under other identifiers are
    untouched; a session created at a time stamp already in use takes the
    place of the earlier one.  A body that fails the validation (email,
    positive integer scenario) leaves the store as it was and is answered
    with status 400. *)
Theorem session_created_is_found (request : json) (now started : Z) (ecosSessions : Store) :
  let out := create_session is_email toISOString zod_issues request now started
                            ecosSessions in
  match parse_session_request is_email request with
  | Some (e, n) =>
      status (snd out) = 200%nat
      /\ prop "sessionId" (body (snd out)) = Some (JNum (inject_Z now))
      /\ is_email e = true
      /\ 0 < n
      /\ forall k,
          Map_get k (fst out)
          = if k =? now then Some (mkSession now e n "in_progress" started [])
            else Map_get k ecosSessions
  | None => fst out = ecosSessions /\ status (snd out) = 400%nat
  end.
Proof.
  cbv zeta. unfold create_session.
  destruct (parse_session_request is_email request) as [[e n] |] eqn:P;
    [| split; reflexivity].
  cbn [fst snd status body].
  assert (is_email e = true /\ 0 < n) as [He Hn].
  { unfold parse_session_request in P.
    destruct request as [| | | | | fields]; try discriminate.
    destruct (assoc "email" fields) as [[| | | s | |] |]; try discriminate.
    destruct (assoc "scenarioId" fields) as [[| | q | | |] |]; try discriminate.
    destruct (as_integer q) as [z |]; try discriminate.
    destruct (is_email s) eqn:Es; try discriminate.
    destruct (Z.ltb_spec 0 z); try discriminate.
    injection P as <- <-. split; [exact Es | assumption]. }
  repeat split; auto.
  intros k. apply Map_get_set.
Qed.

(** What the chat route does to the store: nothing, or one exchange
    pushed on a session that is found under the key. *)
Lemma chat_store_cases (request : json) (env : ChatEnv) (ecosSessions : Store) :
  let out := chat StringToNumber ToString_other toISOString development request env
                  ecosSessions in
  (fst (fst out) = ecosSessions /\ (status (snd out) =? 200)%nat = false)
  \/ exists key session userMessage reply,
      Map_get_value (prop "sessionId" request) ecosSessions = Some (key, session)
      /\ prop "message" request = Some userMessage
      /\ truthy userMessage = true
      /\ fst (fst out)
         = Map_set key (pushed session userMessage reply (user_time env) (assistant_time env))
                   ecosSessions
      /\ match reply with
         | Some (JStr text) =>
             status (snd out) = 200%nat
             /\ prop "response" (body (snd out)) = Some (JStr text)
         | _ => status (snd out) = 500%nat
         end.
Proof.
  cbv zeta. unfold chat, prop.
  destruct (get "message" request) as [message |] eqn:Em;
    destruct (get "sessionId" request) as [sessionId |] eqn:Es;
    destruct (get "conversationHistory" request) as [history |] eqn:Eh;
    try (left; split; reflexivity).
  destruct message as [userMessage |]; [| left; split; reflexivity].
  destruct (truthy userMessage) eqn:Tm; [| left; split; reflexivity].
  destruct (truthy_opt sessionId); [| left; split; reflexivity].
  cbn [negb orb].
  destruct (Map_get_value sessionId ecosSessions) as [[key session] |] eqn:G;
    [| left; split; reflexivity].
  destruct (getScenarioById StringToNumber ToString_other toISOString
              (scenarioId session) (available env) (mock_t1 env) (mock_t2 env))
    as [calls [scenario |]]; [| left; split; reflexivity].
  destruct (getPatientResponse ToString_other userMessage scenario history
              (retrieved env) (answer env)) as [calls' [reply | e]];
    [| left; split; reflexivity].
  right. exists key, session, userMessage, reply.
  cbn [fst snd].
  repeat split; auto.
  destruct reply as [[| | | text | |] |]; try reflexivity.
  split; reflexivity.
Qed.

(** X24. The chat route records an exchange exactly where it reports
    one: it never adds, removes or reorders sessions; a reply with status
    200 means that the user's message and the text of the response were
    pushed, in this order, on the session named by the request; a reply with
    status 400 or 404 means that the store is as it was. *)
Theorem chat_records_what_it_reports (request : json) (env : ChatEnv) (ecosSessions : Store) :
  let out := chat StringToNumber ToString_other toISOString development request env
                  ecosSessions in
  map fst (fst (fst out)) = map fst ecosSessions
  /\ if (status (snd out) =? 200)%nat then
       exists key session userMessage text,
         Map_get_value (prop "sessionId" request) ecosSessions = Some (key, session)
         /\ prop "message" request = Some userMessage
         /\ prop "response" (body (snd out)) = Some (JStr text)
         /\ fst (fst out)
            = Map_set key
                (pushed session userMessage (Some (JStr text))
                        (user_time env) (assistant_time env))
                ecosSessions
     else if (status (snd out) =? 500)%nat then True
     else fst (fst out) = ecosSessions.
Proof.
  cbv zeta.
  destruct (chat_store_cases request env ecosSessions)
    as [[Same Not200] | (key & session & userMessage & reply & G & M & T & S & R)];
    cbv zeta in *.
  - rewrite Same, Not200. split; [reflexivity |].
    destruct (status _ =? 500)%nat; auto.
  - rewrite S. split.
    + eapply Map_set_keys, Map_get_value_found, G.
    + destruct reply as [[| | | text | |] |];
        try (rewrite R; exact I).
      destruct R as [R1 R2]. rewrite R1. cbn [Nat.eqb].
      exists key, session, userMessage, text. auto.
Qed.

(** X25. The chat route pushes the exchange before it looks at the
    reply: whenever the patient service returns for a request with a
    message, a session and a scenario, the user's message and the reply are
    on the session afterwards, also when the reply is [null] or missing and
    the route answers with status 500. *)
Theorem chat_failure_after_push (request : json) (env : ChatEnv) (ecosSessions : Store)
        (key : Z) (session : Session) (userMessage scenario : json) (reply : option json) :
  prop "message" request = Some userMessage ->
  truthy userMessage = true ->
  truthy_opt (prop "sessionId" request) = true ->
  Map_get_value (prop "sessionId" request) ecosSessions = Some (key, session) ->
  snd (getScenarioById StringToNumber ToString_other toISOString (scenarioId session)
                       (available env) (mock_t1 env) (mock_t2 env)) = Some scenario ->
  snd (getPatientResponse ToString_other userMessage scenario
                          (prop "conversationHistory" request)
                          (retrieved env) (answer env)) = Ok reply ->
  let out := chat StringToNumber ToString_other toISOString development request env
                  ecosSessions in
  Map_get key (fst (fst out))
  = Some (pushed session userMessage reply (user_time env) (assistant_time env))
  /\ status (snd out) = (if is_str_value reply then 200 else 500)%nat.
Proof.
  intros M T Ts G Sc R. cbv zeta. unfold chat.
  unfold prop in *.
  destruct (get "message" request) as [message |] eqn:Em; [| discriminate].
  destruct (get "sessionId" request) as [sessionId |] eqn:Es; [| discriminate].
  destruct (get "conversationHistory" request) as [history |] eqn:Eh.
  2:{ destruct request; try discriminate. }
  subst message. rewrite T, Ts. cbn [negb orb]. rewrite G.
  destruct (getScenarioById StringToNumber ToString_other toISOString
              (scenarioId session) (available env) (mock_t1 env) (mock_t2 env))
    as [calls found].
  cbn [snd] in Sc. subst found.
  destruct (getPatientResponse ToString_other userMessage scenario history
              (retrieved env) (answer env)) as [calls' r].
  cbn [snd] in R. subst r.
  cbn [fst snd]. rewrite Map_get_set, Z.eqb_refl.
  split; [reflexivity |].
  destruct reply as [[| | | text | |] |]; reflexivity.
Qed.

End Sessions.

Lemma chat_failure_after_push_witness :
  let request := JObj [("message", JStr "Bonjour"); ("sessionId", JNum 1000)] in
  let session := Routes.mkSession 1000 "a@example.org" 1 "in_progress" 999 [] in
  let env :=
    Routes.mkChatEnv
      (Ok [JObj [("id", JNum 1); ("title", JStr "Douleur thoracique")]])
      (Ok [])
      (Ok (JObj [("choices", JArr [JObj [("message", JObj [("content", JNull)])]])]))
      0 0 1001 1002 in
  let out := Routes.chat (fun _ => None) (fun _ => "?") (fun _ => "date") false
                         request env [(1000, session)] in
  Routes.Map_get 1000 (fst (fst out))
  = Some (pushed session (JStr "Bonjour") (Some JNull) 1001 1002)
  /\ Routes.status (snd out) = 500%nat.
Proof.
  cbv zeta.
  refine (chat_failure_after_push (fun _ => None) (fun _ => "?") (fun _ => "date") false
            (JObj [("message", JStr "Bonjour"); ("sessionId", JNum 1000)])
            (Routes.mkChatEnv
               (Ok [JObj [("id", JNum 1); ("title", JStr "Douleur thoracique")]])
               (Ok [])
               (Ok (JObj [("choices", JArr [JObj [("message", JObj [("content", JNull)])]])]))
               0 0 1001 1002)
            [(1000, Routes.mkSession 1000 "a@example.org" 1 "in_progress" 999 [])]
            1000 (Routes.mkSession 1000 "a@example.org" 1 "in_progress" 999 [])
            (JStr "Bonjour")
            (JObj [("id", JNum 1); ("title", JStr "Douleur thoracique");
                   ("pineconeIndex", JStr "infirmierbeaujon")])
            (Some JNull) _ _ _ _ _ _);
    reflexivity.
Defined.

Section ServerInvariant.

Import Backend Routes.

Variable is_email : string -> bool.
Variable StringToNumber : string -> option Q.
Variable ToString_other : json -> string.
Variable toISOString : Z -> string.
Variable zod_issues : json -> json.
Variable development : bool.

Lemma parse_session_request_valid (request : json) (e : string) (n : Z) :
  parse_session_request is_email request = Some (e, n) -> is_email e = true /\ 0 < n.
Proof.
  unfold parse_session_request.
  destruct request as [| | | | | fields]; try discriminate.
  destruct (assoc "email" fields) as [[| | | s | |] |]; try discriminate.
  destruct (assoc "scenarioId" fields) as [[| | q | | |] |]; try discriminate.
  destruct (as_integer q) as [z |]; try discriminate.
  destruct (is_email s) eqn:Es; try discriminate.
  destruct (Z.ltb_spec 0 z); try discriminate.
  intros [= <- <-]. split; [exact Es | assumption].
Qed.

Lemma store_invariant_step (ecosSessions : Store) (r : Request) :
  store_invariant is_email ecosSessions ->
  store_invariant is_email
    (serve is_email StringToNumber ToString_other toISOString zod_issues development
           ecosSessions r).
Proof.
  intros [N F]. destruct r as [request now started | request env]; simpl.
  - unfold create_session.
    destruct (parse_session_request is_email request) as [[e n] |] eqn:P; simpl;
      [| split; assumption].
    destruct (parse_session_request_valid _ _ _ P) as [He Hn].
    split; [now apply Map_set_NoDup |].
    apply Map_set_Forall; [| exact F].
    simpl. auto.
  - destruct (chat_store_cases StringToNumber ToString_other toISOString development
                               request env ecosSessions)
      as [[Same _] | (key & session & userMessage & reply & G & M & T & S & R)];
      cbv zeta in *.
    + rewrite Same. split; assumption.
    + rewrite S. split; [now apply Map_set_NoDup |].
      apply Map_set_Forall; [| exact F].
      apply Map_get_value_found, Map_get_In in G.
      rewrite Forall_forall in F. specialize (F _ G). simpl in F.
      destruct F as (F1 & F2 & F3 & F4 & F5).
      simpl. repeat split; auto.
      rewrite (alternating_app _ _ F5). simpl. rewrite T. reflexivity.
Qed.

(** X26. Whatever requests create sessions and chat, in whatever order
    and with whatever answers from the services, every stored session is
    stored under its own identifier, no identifier is stored twice, its
    email and scenario passed the validation, it is still in progress, and
    its messages go by pairs of a user message with a truthy content and an
    assistant message. *)
Theorem store_invariant_always (requests : list Request) :
  store_invariant is_email
    (serve_all is_email StringToNumber ToString_other toISOString zod_issues development
               requests).
Proof.
  unfold serve_all.
  assert (store_invariant is_email []) as Init
      by (split; [constructor | constructor]).
  revert Init. generalize (@nil (Z * Session)).
  induction requests as [| r rest IH]; intros store Inv; simpl.
  - exact Inv.
  - apply IH, store_invariant_step, Inv.
Qed.

(** A scenario that [getScenarioById] returns names a vector index. *)
Lemma getScenarioById_index (scenarioId : Z) (available : result (list json))
      (t1 t2 : Z) (scenario : json) :
  snd (getScenarioById StringToNumber ToString_other toISOString scenarioId available t1 t2)
  = Some scenario ->
  exists fields,
    scenario = JObj fields /\ truthy_opt (assoc "pineconeIndex" fields) = true.
Proof.
  unfold getScenarioById. cbn [snd].
  assert (forall r,
             match find_scenario StringToNumber ToString_other scenarioId
                                 (getScenarios toISOString t1 t2) with
             | Ok (Some mockScenario) => Some mockScenario
             | _ => None
             end = Some r ->
             exists fields,
               r = JObj fields /\ truthy_opt (assoc "pineconeIndex" fields) = true) as Mock.
  { intros r. unfold getScenarios, find_scenario. cbn [get assoc String.eqb Ascii.eqb Bool.eqb].
    repeat match goal with
           | |- context [if loose_eq ?a ?b ?c ?d then _ else _] => destruct (loose_eq a b c d)
           end;
      intros [= <-]; eexists; split; reflexivity. }
  destruct available as [scenarios | e]; [| discriminate].
  destruct (find_scenario StringToNumber ToString_other scenarioId scenarios)
    as [[[| | | | | fields] |] | e]; try apply Mock; try discriminate.
  destruct (truthy_opt (assoc "pineconeIndex" fields)) eqn:T; intros [= <-].
  - eauto.
  - eexists. split; [reflexivity |]. now rewrite assoc_set_field.
Qed.

(** X27. The chat route never searches the default index: its calls are
    the scenario store, then the vector index that the scenario names (the
    scenario's own, or the one [getScenarioById] fills in), then one
    completion, or a prefix of these; the branch of [getPatientResponse]
    for a scenario without an index is never taken from this route. *)
Theorem chat_never_searches_default_index (request : json) (env : ChatEnv)
        (ecosSessions : Store) :
  let calls := snd (fst (chat StringToNumber ToString_other toISOString development
                              request env ecosSessions)) in
  existsb is_default_search calls = false /\ chat_calls calls.
Proof.
  cbv zeta.
  assert (forall calls, chat_calls calls -> existsb is_default_search calls = false) as Shape.
  { intros calls [-> | [-> | (q & i & _ & [-> | [r ->]])]]; reflexivity. }
  match goal with |- _ /\ chat_calls ?c => assert (chat_calls c); [| auto] end.
  unfold chat.
  destruct (get "message" request) as [message |];
    destruct (get "sessionId" request) as [sessionId |];
    destruct (get "conversationHistory" request) as [history |];
    try (left; reflexivity).
  destruct message as [userMessage |]; [| left; reflexivity].
  destruct (negb (truthy userMessage) || negb (truthy_opt sessionId)); [left; reflexivity |].
  destruct (Map_get_value sessionId ecosSessions) as [[key session] |];
    [| left; reflexivity].
  pose proof (getScenarioById_index (scenarioId session) (available env)
                                    (mock_t1 env) (mock_t2 env)) as I.
  destruct (getScenarioById StringToNumber ToString_other toISOString
              (scenarioId session) (available env) (mock_t1 env) (mock_t2 env))
    as [calls found] eqn:G.
  assert (calls = [GetAvailableScenarios]) as ->
      by (unfold getScenarioById in G; now injection G as <- _).
  destruct found as [scenario |]; [| right; left; reflexivity].
  destruct (I scenario eq_refl) as (fields & -> & T).
  unfold getPatientResponse, retrieve, createCompletion. cbn [field].
  destruct (assoc "pineconeIndex" fields) as [index |]; [| discriminate].
  cbn [truthy_opt] in T. rewrite T.
  right. right. eexists _, index. split; [exact T |].
  destruct (history_lines ToString_other history); cbn [fst snd app].
  - right. eexists.
    destruct (answer env) as [r | e]; [destruct (patient_response r) |]; reflexivity.
  - left. reflexivity.
Qed.

End ServerInvariant.

(** ** The credential, from the endpoint to the components *)

Section CredentialFlow.

Lemma served_credential_fields (OPENAI_API_KEY : option string) (now : Z) (iso : Z -> string)
      (userId : string) (scenarioId : option string) (sessionType : VoiceChat.SessionType)
      (credential : json) :
  served_credential OPENAI_API_KEY now iso
    (JObj (member "userId" (Some (JStr userId))
           ++ member "scenarioId" (option_map JStr scenarioId)
           ++ member "sessionType" (Some (JStr (VoiceChat.SessionType_str sessionType)))))
  = Some credential ->
  exists key,
    OPENAI_API_KEY = Some key
    /\ get "client_secret" credential = Ok (Some (JStr key))
    /\ get "instructions" credential = Ok (Some (JStr (instructions_for sessionType)))
    /\ get "token" credential = Ok None.
Proof.
  unfold served_credential, Server.rtc_token.
  destruct scenarioId as [scenario |], sessionType; cbn;
    (destruct (String.eqb userId EmptyString); cbn; [discriminate |]);
    (destruct OPENAI_API_KEY as [key |]; [| discriminate]);
    (destruct (String.eqb key EmptyString); [discriminate |]);
    intros [= <-]; exists key; repeat split; reflexivity.
Qed.

(** X28. The API key of the server process is what the browser presents
    to the remote endpoint: when VoiceCommand's start receives the reply
    that the credential endpoint gives to the component's own request, every
    offer it posts has that key as bearer, and every open handler it
    installs holds the instructions that the endpoint chose for the
    component's session type. *)
Theorem process_key_reaches_browser (props : VoiceCommand.Props)
        (OPENAI_API_KEY : option string) (now : Z) (iso : Z -> string)
        (credential : json) (statusText : string) (env : Env)
        (c : VoiceCommand.Component) :
  served_credential OPENAI_API_KEY now iso (VoiceCommand.token_request_body props)
  = Some credential ->
  token_response env = Responded true statusText (Ok credential) ->
  exists key,
    OPENAI_API_KEY = Some key
    /\ Forall (carries key (instructions_for (VoiceCommand.sessionType props)))
              (trace (VoiceCommand.startVoice props env c)).
Proof.
  intros Served Reply.
  destruct (served_credential_fields _ _ _ _ _ _ _ Served) as (key & -> & Ks & Ki & _).
  exists key. split; [reflexivity |].
  destruct env as [tr um pc dc ofr sl sr srm]. simpl in Reply. subst tr.
  unfold VoiceCommand.startVoice, await_fetch, trace.
  unfold try_catch, bind, when, await, throw, modify, ret.
  simpl. rewrite Ks. simpl. rewrite Ki. simpl.
  destruct um as [[ts] | e2]; simpl; rewrite ?forEach_emit; simpl;
    [destruct ofr as [sdp | e3]; simpl;
     [destruct sl as [[] | e4]; simpl;
      [destruct sr as [e5 | [|] st' [answer | e5]]; simpl;
       try destruct srm as [[] | e6]; simpl | ] | ] | ];
    repeat first
      [ apply Forall_nil
      | apply Forall_cons; [first [exact I | reflexivity] |]
      | apply Forall_app; split
      | apply Forall_forall; intros x In; apply in_map_iff in In;
        destruct In as (t & <- & _); exact I ].
Qed.

(** X29. VoiceChat never sends the credential it fetched: the reply of
    the credential endpoint has no member [token], so for every reply with
    status 200 to the component's own request, the open handler sends a
    session-control message whose session is the empty object. *)
Theorem VoiceChat_sends_no_credential (props : VoiceChat.Props)
        (OPENAI_API_KEY : option string) (now : Z) (iso : Z -> string)
        (credential : json) (dataChannel : DataChannel) (c : VoiceChat.Component) :
  served_credential OPENAI_API_KEY now iso (VoiceChat.token_request_body props)
  = Some credential ->
  trace (VoiceChat.dataChannel_onopen credential dataChannel c)
  = [ConsoleLog "Data channel opened";
     ChannelSend dataChannel
       (JObj [("type", JStr "session_update"); ("session", JObj [])])].
Proof.
  intros Served.
  destruct (served_credential_fields _ _ _ _ _ _ _ Served) as (key & _ & _ & _ & Kt).
  unfold VoiceChat.dataChannel_onopen, trace, bind, await, emit.
  rewrite Kt. reflexivity.
Qed.

End CredentialFlow.

Lemma process_key_reaches_browser_witness :
  exists key,
    Some "sk-test" = Some key
    /\ Forall (carries key Server.ecos_instructions)
              (trace (VoiceCommand.startVoice Samples.cmd_props Samples.all_fine
                                              VoiceCommand.initial)).
Proof.
  refine (process_key_reaches_browser Samples.cmd_props (Some "sk-test") 1767225600000
            (fun _ => "2026-01-01T01:00:00.000Z") Samples.credential "OK" Samples.all_fine
            VoiceCommand.initial _ _);
    reflexivity.
Defined.

Lemma VoiceChat_sends_no_credential_witness :
  trace (VoiceChat.dataChannel_onopen Samples.credential 2%nat VoiceChat.initial)
  = [ConsoleLog "Data channel opened";
     ChannelSend 2%nat (JObj [("type", JStr "session_update"); ("session", JObj [])])].
Proof.
  refine (VoiceChat_sends_no_credential
            (VoiceChat.mkProps "student@example.org" (Some "7") VoiceChat.ecos_simulation
                               true true)
            (Some "sk-test") 1767225600000 (fun _ => "2026-01-01T01:00:00.000Z")
            Samples.credential 2%nat VoiceChat.initial _).
  reflexivity.
Defined.

